(** * Figma-to-HTML converter: a shallow embedding and its checked properties

    The development follows the three Python modules of the converter:
    [style_converter.py] (module [StyleConverter]), [layout_converter.py]
    (module [LayoutConverter]) and [html_generator.py] (module
    [HTMLGenerator]).  A Figma node is a JSON object that the code reads
    with [dict.get(key, default)] and [key in dict]; it is modelled as a
    record whose fields are options, the default being applied where the
    source applies it.  Numbers are Python numbers: unbounded integers or
    IEEE-754 binary64 floats, the latter as Rocq's primitive floats. *)

From Stdlib Require Import ZArith String Ascii List Bool Lia.
From Stdlib Require Import DecimalString DecimalPos DecimalZ.
From Stdlib Require Import PrimFloat FloatOps SpecFloat FloatAxioms.
Import ListNotations.

Local Open Scope string_scope.
Local Open Scope Z_scope.

(** ** Python strings *)

Module PyStr.

(** The characters the source writes with an escape. *)
Definition nl : string := String (ascii_of_nat 10) EmptyString.
Definition dquote : string := String (ascii_of_nat 34) EmptyString.

(** [sep.join(parts)]. *)
Definition join (sep : string) (parts : list string) : string :=
  String.concat sep parts.

(** [bool(s)] for a string: the empty string is falsy. *)
Definition nonempty (s : string) : bool :=
  match s with EmptyString => false | String _ _ => true end.

(** [x in xs] for a list of strings. *)
Definition mem (x : string) (xs : list string) : bool :=
  existsb (String.eqb x) xs.

(** [s.startswith(p)]. *)
Definition starts_with (p s : string) : bool := String.prefix p s.

Definition is_upper (c : ascii) : bool :=
  let n := nat_of_ascii c in (65 <=? n)%nat && (n <=? 90)%nat.
Definition is_lower (c : ascii) : bool :=
  let n := nat_of_ascii c in (97 <=? n)%nat && (n <=? 122)%nat.
Definition is_digit (c : ascii) : bool :=
  let n := nat_of_ascii c in (48 <=? n)%nat && (n <=? 57)%nat.

(** [c.isalnum()] and [c.lower()] on ASCII text (node names and enum
    values are modelled as ASCII strings). *)
Definition isalnum (c : ascii) : bool := is_upper c || is_lower c || is_digit c.
Definition lower_char (c : ascii) : ascii :=
  if is_upper c then ascii_of_nat (nat_of_ascii c + 32) else c.

Fixpoint map_chars (f : ascii -> ascii) (s : string) : string :=
  match s with
  | EmptyString => EmptyString
  | String c s' => String (f c) (map_chars f s')
  end.

(** [s.lower()]. *)
Definition lower (s : string) : string := map_chars lower_char s.

(** [s[:n]]. *)
Definition take (n : nat) (s : string) : string := String.substring 0 n s.

(** Replace every character by the text [f] gives for it: the shape of
    [html.escape] and of [s.replace(c, text)] for a one-character [c]. *)
Fixpoint subst_chars (f : ascii -> string) (s : string) : string :=
  match s with
  | EmptyString => EmptyString
  | String c s' => f c ++ subst_chars f s'
  end.

Definition single (c : ascii) : string := String c EmptyString.

(** [s.replace(old, new)] for a non-empty [old]: occurrences are taken
    left to right and do not overlap; [skip] counts the characters of
    a matched occurrence still to pass over. *)
Fixpoint replace_from (old new : string) (skip : nat) (s : string) : string :=
  match s with
  | EmptyString => EmptyString
  | String c s' =>
      match skip with
      | S k => replace_from old new k s'
      | O => if String.prefix old s
             then new ++ replace_from old new (String.length old - 1) s'
             else String c (replace_from old new 0 s')
      end
  end.
Definition replace (old new s : string) : string := replace_from old new 0 s.

(** [s.split(sep)] for a one-character separator. *)
Fixpoint split (sep : ascii) (s : string) : list string :=
  match s with
  | EmptyString => [EmptyString]
  | String c s' =>
      if Ascii.eqb c sep then EmptyString :: split sep s'
      else match split sep s' with
           | part :: parts => String c part :: parts
           | [] => [single c]
           end
  end.

(** [c.isspace()] on ASCII. *)
Definition is_space (c : ascii) : bool :=
  let n := nat_of_ascii c in
  (n =? 32)%nat || ((9 <=? n)%nat && (n <=? 13)%nat) || ((28 <=? n)%nat && (n <=? 31)%nat).

Fixpoint lstrip (s : string) : string :=
  match s with
  | EmptyString => EmptyString
  | String c s' => if is_space c then lstrip s' else s
  end.
Fixpoint rstrip (s : string) : string :=
  match s with
  | EmptyString => EmptyString
  | String c s' =>
      match rstrip s' with
      | EmptyString => if is_space c then EmptyString else single c
      | r => String c r
      end
  end.

(** [s.strip()]. *)
Definition strip (s : string) : string := rstrip (lstrip s).

(** [html.escape(s)] with its default [quote=True]. *)
Definition html_escape_char (c : ascii) : string :=
  match nat_of_ascii c with
  | 38%nat => "&amp;"
  | 60%nat => "&lt;"
  | 62%nat => "&gt;"
  | 34%nat => "&quot;"
  | 39%nat => "&#x27;"
  | _ => single c
  end.
Definition html_escape (s : string) : string := subst_chars html_escape_char s.

(** [s.replace('\n', '<br>')]. *)
Definition newlines_to_br (s : string) : string :=
  subst_chars (fun c => if Ascii.eqb c (ascii_of_nat 10) then "<br>" else single c) s.

(** [sub in s] for two strings. *)
Fixpoint contains (sub s : string) : bool :=
  String.prefix sub s
  || match s with
     | EmptyString => false
     | String _ s' => contains sub s'
     end.

(** [s.split(sep)] for a separator of any length but zero: as in
    [replace], occurrences are taken left to right and do not overlap. *)
Fixpoint split_from (sep : string) (skip : nat) (s : string) : list string :=
  match s with
  | EmptyString => [EmptyString]
  | String c s' =>
      match skip with
      | S k => split_from sep k s'
      | O => if String.prefix sep s
             then EmptyString :: split_from sep (String.length sep - 1) s'
             else match split_from sep 0 s' with
                  | part :: parts => String c part :: parts
                  | [] => [single c]
                  end
      end
  end.
Definition split_str (sep s : string) : list string := split_from sep 0 s.

(** [str(n)] for an integer. *)
Definition of_Z (z : Z) : string := NilZero.string_of_int (Z.to_int z).

End PyStr.

(** ** Python numbers *)

Module PyNum.

(** A JSON number as [json.loads] delivers it. *)
Inductive pynum : Type :=
| PInt (z : Z)
| PFloat (f : float).

(** [float(n)] for an integer: the nearest double, ties to even.
    (CPython raises OverflowError above the double range, where this
    yields an infinity; documents carry pixel-scale numbers.) *)
Definition float_of_Z (z : Z) : float :=
  SF2Prim (binary_normalize prec emax z 0 false).

Definition to_float (x : pynum) : float :=
  match x with PInt z => float_of_Z z | PFloat f => f end.

(** [int(f)] for a float: truncation toward zero.  (CPython raises on
    nan and on the infinities, which have no integer value; the model
    is total and gives 0 there.) *)
Definition float_trunc (f : float) : Z :=
  match Prim2SF f with
  | S754_finite s m e =>
      let v := if 0 <=? e then Z.shiftl (Zpos m) e else Z.shiftr (Zpos m) (- e) in
      if s then - v else v
  | _ => 0
  end.

Definition py_int (x : pynum) : Z :=
  match x with PInt z => z | PFloat f => float_trunc f end.

(** Binary arithmetic: integer when both operands are integers, float
    (after converting the integer operand) otherwise. *)
Definition py_sub (a b : pynum) : pynum :=
  match a, b with
  | PInt x, PInt y => PInt (x - y)
  | _, _ => PFloat (to_float a - to_float b)
  end.

Definition py_mul (a b : pynum) : pynum :=
  match a, b with
  | PInt x, PInt y => PInt (x * y)
  | _, _ => PFloat (to_float a * to_float b)
  end.

(** [a / b], true division, always a float ([b] is a non-zero literal
    wherever the source divides). *)
Definition py_truediv (a b : pynum) : pynum :=
  PFloat (to_float a / to_float b).

(** Comparisons; IEEE semantics on floats (nan compares false). *)
Definition py_ltb (a b : pynum) : bool :=
  match a, b with
  | PInt x, PInt y => x <? y
  | _, _ => PrimFloat.ltb (to_float a) (to_float b)
  end.
Definition py_gtb (a b : pynum) : bool := py_ltb b a.
Definition py_eqb (a b : pynum) : bool :=
  match a, b with
  | PInt x, PInt y => x =? y
  | _, _ => PrimFloat.eqb (to_float a) (to_float b)
  end.

(** [bool(x)]: a number is falsy exactly when it equals zero. *)
Definition py_truthy (x : pynum) : bool := negb (py_eqb x (PInt 0)).

End PyNum.
Export PyNum.

(** ** Python's float builtins

    How CPython writes a float as text and what the C library returns
    for [atan2] are not code of this repository: the converter is
    parametric in them. *)

Class Builtins : Type := {
  float_repr : float -> string;   (* str(f), i.e. repr(f), for a float *)
  float_fixed1 : float -> string; (* format(f, '.1f') *)
  float_parse : string -> float;  (* float(s) for a string *)
  math_atan2 : float -> float -> float; (* math.atan2(y, x) *)
  math_degrees : float -> float   (* math.degrees(x) *)
}.

Section Formatting.
Context {B : Builtins}.

(** [f"{x}"]. *)
Definition py_str (x : pynum) : string :=
  match x with PInt z => PyStr.of_Z z | PFloat f => float_repr f end.

(** [f"{x:.1f}"]: an integer is converted to a float first. *)
Definition py_fixed1 (x : pynum) : string := float_fixed1 (to_float x).

End Formatting.

(** ** A reference instance of the builtins

    Used to run the model on concrete documents.  Text rendering follows
    CPython: [format(f, '.1f')] rounds the exact binary value half-to-even
    at one decimal; [repr(f)] is the shortest digit string that reads
    back as [f], in fixed notation when the decimal point falls within
    (-4, 16] and in exponent notation otherwise.  [math.degrees] is the
    product with [180 / pi].  [math.atan2] is tabulated on the coordinate
    axes, where C99 (Annex F) fixes its value; the examples of this file
    use it nowhere else. *)

Module CPython.

Definition sign_text (s : bool) : string := if s then "-" else EmptyString.

(** [N / D] rounded to the nearest integer, ties to even. *)
Definition round_half_even (N D : Z) : Z :=
  let q := N / D in
  let r := N mod D in
  match 2 * r ?= D with
  | Gt => q + 1
  | Eq => if Z.even q then q else q + 1
  | Lt => q
  end.

Definition fixed1 (f : float) : string :=
  match Prim2SF f with
  | S754_nan => "nan"
  | S754_infinity s => sign_text s ++ "inf"
  | S754_zero s => sign_text s ++ "0.0"
  | S754_finite s m e =>
      let t := if 0 <=? e then 10 * Z.shiftl (Zpos m) e
               else round_half_even (10 * Zpos m) (2 ^ (- e)) in
      sign_text s ++ PyStr.of_Z (t / 10) ++ "." ++ PyStr.of_Z (t mod 10)
  end.

(** [10 ^ p <= N / D], for positive [N] and [D]. *)
Definition pow10_le (p N D : Z) : bool :=
  if 0 <=? p then 10 ^ p * D <=? N else D <=? N * 10 ^ (- p).

Fixpoint log10_up (fuel : nat) (p N D : Z) : Z :=
  match fuel with
  | O => p
  | S fuel' => if pow10_le (p + 1) N D then log10_up fuel' (p + 1) N D else p
  end.
Fixpoint log10_down (fuel : nat) (p N D : Z) : Z :=
  match fuel with
  | O => p
  | S fuel' => if pow10_le p N D then p else log10_down fuel' (p - 1) N D
  end.

(** The floor of the decimal logarithm of [N / D]. *)
Definition floor_log10 (N D : Z) : Z :=
  let guess := (Z.log2 N - Z.log2 D) * 30103 / 100000 in
  log10_up 4 (log10_down 4 guess N D) N D.

Fixpoint strip_zeros (fuel : nat) (d k : Z) : Z * Z :=
  match fuel with
  | O => (d, k)
  | S fuel' => if (d mod 10 =? 0) && negb (d =? 0)
               then strip_zeros fuel' (d / 10) (k + 1) else (d, k)
  end.

(** The shortest decimal [d * 10 ^ k] inside the rounding interval of
    the positive double [m * 2 ^ e]: the interval reaches half-way to
    each neighbour and holds its ends when [m] is even. *)
Section Shortest.
Variables (m : positive) (e : Z).

Let boundary : bool := (Zpos m =? 2 ^ 52) && (-1074 <? e).
Let F : Z := 4 * Zpos m.
Let LO : Z := if boundary then F - 1 else F - 2.
Let HI : Z := F + 2.
Let sn : Z := if 0 <=? e - 2 then 2 ^ (e - 2) else 1.
Let sd : Z := if 0 <=? e - 2 then 1 else 2 ^ (2 - e).
Let closed : bool := Z.even (Zpos m).

Definition candidate (n : Z) : option (Z * Z) :=
  let k := floor_log10 (F * sn) sd - n + 1 in
  let A := if 0 <=? k then sn else sn * 10 ^ (- k) in
  let Bd := if 0 <=? k then sd * 10 ^ k else sd in
  let inside d :=
    if closed then (LO * A <=? d * Bd) && (d * Bd <=? HI * A)
    else (LO * A <? d * Bd) && (d * Bd <? HI * A) in
  let d1 := (F * A) / Bd in
  let d2 := d1 + 1 in
  match inside d1, inside d2 with
  | true, true =>
      if F * A - d1 * Bd <=? d2 * Bd - F * A then Some (d1, k) else Some (d2, k)
  | true, false => Some (d1, k)
  | false, true => Some (d2, k)
  | false, false => None
  end.

Fixpoint search (fuel : nat) (n : Z) : Z * Z :=
  match fuel with
  | O => (F * sn / sd, 0)
  | S fuel' =>
      match candidate n with
      | Some dk => dk
      | None => search fuel' (n + 1)
      end
  end.

Definition shortest : Z * Z :=
  let '(d, k) := search 17 1 in strip_zeros 400 d k.
End Shortest.

Fixpoint zeros (n : nat) : string :=
  match n with O => EmptyString | S n' => String "0" (zeros n') end.

Definition exponent_text (x : Z) : string :=
  let a := Z.abs x in
  (if x <? 0 then "-" else "+") ++ (if a <? 10 then "0" else EmptyString) ++ PyStr.of_Z a.

Definition repr (f : float) : string :=
  match Prim2SF f with
  | S754_nan => "nan"
  | S754_infinity s => sign_text s ++ "inf"
  | S754_zero s => sign_text s ++ "0.0"
  | S754_finite s m e =>
      let '(d, k) := shortest m e in
      let ds := PyStr.of_Z d in
      let nd := Z.of_nat (String.length ds) in
      let decpt := nd + k in
      sign_text s ++
      (if (decpt <=? -4) || (16 <? decpt) then
         String.substring 0 1 ds
         ++ (if 1 <? nd then "." ++ String.substring 1 (String.length ds) ds else EmptyString)
         ++ "e" ++ exponent_text (decpt - 1)
       else if decpt <=? 0 then
         "0." ++ zeros (Z.to_nat (- decpt)) ++ ds
       else if decpt <? nd then
         String.substring 0 (Z.to_nat decpt) ds ++ "."
         ++ String.substring (Z.to_nat decpt) (String.length ds) ds
       else ds ++ zeros (Z.to_nat (decpt - nd)) ++ ".0")
  end.

(** The double nearest to [N / D] (ties to even), for positive [N] and
    [D]: the quotient is taken with enough bits and a sticky bit. *)
Definition nearest_double (N D : Z) : float :=
  let s := Z.max 0 (66 + Z.log2 D - Z.log2 N) in
  let q := (N * 2 ^ s) / D in
  let sticky := if (N * 2 ^ s) mod D =? 0 then 0 else 1 in
  SF2Prim (binary_normalize prec emax (2 * q + sticky) (- (s + 1)) false).

Definition digit_value (c : ascii) : option Z :=
  if PyStr.is_digit c then Some (Z.of_nat (nat_of_ascii c) - 48) else None.

(** Reads a run of digits: the number read after [acc], how many digits
    it had, and the rest of the text. *)
Fixpoint read_digits (s : string) (acc count : Z) : Z * Z * string :=
  match s with
  | EmptyString => (acc, count, s)
  | String c s' =>
      match digit_value c with
      | Some v => read_digits s' (10 * acc + v) (count + 1)
      | None => (acc, count, s)
      end
  end.

Definition read_sign (s : string) : bool * string :=
  match s with
  | String "-" s' => (true, s')
  | String "+" s' => (false, s')
  | _ => (false, s)
  end.

(** [float(s)] on the texts [repr] and [str] of a number produce: a
    signed decimal with an optional fraction and exponent, [inf] or
    [nan].  (CPython raises ValueError on other text; nan stands for
    that here.) *)
Definition parse (s : string) : float :=
  let '(neg, body) := read_sign s in
  let signed (f : float) : float := if neg then (- f)%float else f in
  if String.eqb body "nan" then PrimFloat.nan
  else if String.eqb body "inf" then signed PrimFloat.infinity
  else
    let '(ip, nip, rest1) := read_digits body 0 0 in
    let '(d, nfp, rest2) :=
      match rest1 with
      | String "." r => read_digits r ip 0
      | _ => (ip, 0, rest1)
      end in
    let '(ex, ok) :=
      match rest2 with
      | EmptyString => (0, true)
      | String c r =>
          if Ascii.eqb c "e" || Ascii.eqb c "E" then
            let '(eneg, r1) := read_sign r in
            let '(ev, ne, r2) := read_digits r1 0 0 in
            ((if eneg then - ev else ev), (0 <? ne) && negb (PyStr.nonempty r2))
          else (0, false)
      end in
    if negb ok || (nip + nfp =? 0) then PrimFloat.nan
    else if d =? 0 then signed PrimFloat.zero
    else
      let k := ex - nfp in
      signed (if 0 <=? k then nearest_double (d * 10 ^ k) 1
              else nearest_double d (10 ^ (- k))).

Definition pi : float := 0x1.921fb54442d18p+1%float.
Definition half_pi : float := 0x1.921fb54442d18p+0%float.

Definition degrees (x : float) : float := (x * (180 / pi))%float.

(** [atan2 y x] on the axes; off the axes the table has no entry (nan). *)
Definition atan2_on_axes (y x : float) : float :=
  let x_neg := match Prim2SF x with
               | S754_zero s | S754_finite s _ _ | S754_infinity s => s
               | S754_nan => false
               end in
  if PrimFloat.is_nan y || PrimFloat.is_nan x then PrimFloat.nan
  else if PrimFloat.is_zero y then
    (if x_neg then (if PrimFloat.get_sign y then - pi else pi)%float else y)
  else if PrimFloat.is_zero x then
    (if PrimFloat.ltb y 0 then - half_pi else half_pi)%float
  else PrimFloat.nan.

#[export] Instance builtins : Builtins := {
  float_repr := repr;
  float_fixed1 := fixed1;
  float_parse := parse;
  math_atan2 := atan2_on_axes;
  math_degrees := degrees
}.

End CPython.

(** ** The design document

    One record per JSON object shape the converter reads.  A field is an
    option where the source tests the key's presence or supplies a
    default of its own; it is a list where the source reads
    [d.get(key, [])] and only iterates or measures the result, so that an
    absent key and an empty list are the same input to it. *)

Definition get_or {A : Type} (default : A) (o : option A) : A :=
  match o with Some v => v | None => default end.

Definition has_key {A : Type} (o : option A) : bool :=
  match o with Some _ => true | None => false end.

(** [{r, g, b, a}] *)
Record color : Type := {
  c_r : option pynum;
  c_g : option pynum;
  c_b : option pynum;
  c_a : option pynum
}.

(** [{x, y}]: a gradient handle, an effect offset *)
Record point : Type := {
  p_x : option pynum;
  p_y : option pynum
}.

(** [{color, position}] *)
Record gradient_stop : Type := {
  gs_color : option color;
  gs_position : option pynum
}.

(** A fill or a stroke. *)
Record paint : Type := {
  pt_type : option string;
  pt_visible : option bool;
  pt_opacity : option pynum;
  pt_color : option color;
  pt_gradientStops : list gradient_stop;
  pt_gradientHandlePositions : list point;
  pt_imageRef : option string
}.

Record effect : Type := {
  ef_type : option string;
  ef_visible : option bool;
  ef_offset : option point;
  ef_radius : option pynum;
  ef_color : option color
}.

(** [{x, y, width, height}] *)
Record bounding_box : Type := {
  bb_x : option pynum;
  bb_y : option pynum;
  bb_width : option pynum;
  bb_height : option pynum
}.

(** [{top, right, bottom, left}] *)
Record stroke_weights : Type := {
  sw_top : option pynum;
  sw_right : option pynum;
  sw_bottom : option pynum;
  sw_left : option pynum
}.

(** The [style] object of a TEXT node. *)
Record text_style : Type := {
  ts_fontFamily : option string;
  ts_fontSize : option pynum;
  ts_fontWeight : option pynum;
  ts_lineHeightPx : option pynum;
  ts_lineHeightPercent : option pynum;
  ts_lineHeightPercentFontSize : option pynum;
  ts_letterSpacing : option pynum;
  ts_textAlignHorizontal : option string;
  ts_textAlignVertical : option string;
  ts_textDecoration : option string;
  ts_textCase : option string
}.

(** The keys of a node other than [children].  ([id] and
    [relativeTransform] are read by the source but reach no output.) *)
Record attrs : Type := {
  a_type : option string;
  a_name : option string;
  a_visible : option bool;
  a_absoluteBoundingBox : option bounding_box;
  a_layoutMode : option string;
  a_primaryAxisAlignItems : option string;
  a_counterAxisAlignItems : option string;
  a_itemSpacing : option pynum;
  a_paddingLeft : option pynum;
  a_paddingRight : option pynum;
  a_paddingTop : option pynum;
  a_paddingBottom : option pynum;
  a_layoutWrap : option string;
  a_layoutSizingHorizontal : option string;
  a_layoutSizingVertical : option string;
  a_clipsContent : option bool;
  a_rotation : option pynum;
  a_fills : list paint;
  a_strokes : list paint;
  a_strokeWeight : option pynum;
  a_strokeAlign : option string;
  a_individualStrokeWeights : option stroke_weights;
  a_cornerRadius : option pynum;
  a_rectangleCornerRadii : option (list pynum);
  a_effects : list effect;
  a_opacity : option pynum;
  a_blendMode : option string;
  a_characters : option string;
  a_style : option text_style
}.

(** A node: its keys and its [children] (absent and empty alike: every
    read is [node.get('children', [])]). *)
#[local] Unset Elimination Schemes.
Inductive node : Type :=
| Node (a : attrs) (children : list node).
#[local] Set Elimination Schemes.

Definition n_attrs (n : node) : attrs := let 'Node a _ := n in a.
Definition n_children (n : node) : list node := let 'Node _ cs := n in cs.

(** The file object the API returns: [{document: node, ...}]. *)
Record figma_data : Type := {
  fd_document : option node
}.

(** The empty objects and the field updates the examples are built from. *)
Definition no_color : color := Build_color None None None None.
Definition no_box : bounding_box := Build_bounding_box None None None None.
Definition no_style : text_style :=
  Build_text_style None None None None None None None None None None None.
Definition no_attrs : attrs :=
  Build_attrs None None None None None None None None None None None None None
              None None None None [] [] None None None None None [] None None
              None None.

(** ** [style_converter.py] *)

Module StyleConverter.
Section WithBuiltins.
Context {B : Builtins}.

(** [StyleConverter.rgba_to_css] *)
Definition rgba_to_css (c : color) : string :=
  let r := py_int (py_mul (get_or (PInt 0) (c_r c)) (PInt 255)) in
  let g := py_int (py_mul (get_or (PInt 0) (c_g c)) (PInt 255)) in
  let b := py_int (py_mul (get_or (PInt 0) (c_b c)) (PInt 255)) in
  let a := get_or (PInt 1) (c_a c) in
  "rgba(" ++ PyStr.of_Z r ++ ", " ++ PyStr.of_Z g ++ ", " ++ PyStr.of_Z b
          ++ ", " ++ py_str a ++ ")".

(** [parts[i] = v] on a list ([i] in range where the source does it). *)
Fixpoint list_set (i : nat) (v : string) (l : list string) : list string :=
  match l, i with
  | [], _ => []
  | _ :: t, O => v :: t
  | h :: t, S i' => h :: list_set i' v t
  end.

(** The body of [if opacity < 1:] in the SOLID branch of
    [get_background_styles]: the colour text is taken apart at its
    commas and its alpha is replaced by the product with the paint's
    opacity. *)
Definition scale_alpha (rgba : string) (opacity : pynum) : string :=
  let parts := PyStr.split "," (PyStr.replace ")" EmptyString
                                 (PyStr.replace "rgba(" EmptyString rgba)) in
  if (List.length parts =? 4)%nat then
    let alpha := PFloat (float_parse (PyStr.strip (nth 3 parts EmptyString))) in
    let parts' := list_set 3 (py_str (py_mul alpha opacity)) parts in
    "rgba(" ++ PyStr.join "," parts' ++ ")"
  else rgba.

(** The colour stops of a gradient, each [f"{color} {position:.1f}<unit>"]
    with the position scaled by [scale]. *)
Definition gradient_stops_css (scale : Z) (unit : string)
           (stops : list gradient_stop) : list string :=
  map (fun stop =>
         let color := rgba_to_css (get_or no_color (gs_color stop)) in
         let position := py_mul (get_or (PInt 0) (gs_position stop)) (PInt scale) in
         color ++ " " ++ py_fixed1 position ++ unit)
      stops.

(** The angle [_convert_linear_gradient] computes from the handles
    (its lines 77 to 84). *)
Definition linear_gradient_angle (handles : list point) : pynum :=
  match handles with
  | h0 :: h1 :: _ =>
      let x1 := get_or (PInt 0) (p_x h0) in
      let y1 := get_or (PInt 0) (p_y h0) in
      let x2 := get_or (PInt 1) (p_x h1) in
      let y2 := get_or (PInt 1) (p_y h1) in
      let dx := py_sub x2 x1 in
      let dy := py_sub y2 y1 in
      PFloat (math_degrees (math_atan2 (to_float dy) (to_float dx)) + 90)%float
  | _ => PInt 180
  end.

(** [StyleConverter._convert_linear_gradient] *)
Definition _convert_linear_gradient (fill : paint) : option string :=
  match pt_gradientStops fill with
  | [] => None
  | gradient_stops =>
      let angle := linear_gradient_angle (pt_gradientHandlePositions fill) in
      let stops := gradient_stops_css 100 "%" gradient_stops in
      Some ("linear-gradient(" ++ py_fixed1 angle ++ "deg, "
                               ++ PyStr.join ", " stops ++ ")")
  end.

(** [StyleConverter._convert_radial_gradient] *)
Definition _convert_radial_gradient (fill : paint) : option string :=
  match pt_gradientStops fill with
  | [] => None
  | gradient_stops =>
      Some ("radial-gradient(circle, "
              ++ PyStr.join ", " (gradient_stops_css 100 "%" gradient_stops) ++ ")")
  end.

(** [StyleConverter._convert_angular_gradient] *)
Definition _convert_angular_gradient (fill : paint) : option string :=
  match pt_gradientStops fill with
  | [] => None
  | gradient_stops =>
      Some ("conic-gradient("
              ++ PyStr.join ", " (gradient_stops_css 360 "deg" gradient_stops) ++ ")")
  end.

(** [if gradient: styles.append(f"background: {gradient};")] *)
Definition background_of (gradient : option string) : list string :=
  match gradient with
  | Some g => if PyStr.nonempty g then ["background: " ++ g ++ ";"] else []
  | None => []
  end.

(** One turn of the loop over [fills] in [get_background_styles]: the
    declarations it appends. *)
Definition fill_styles (fill : paint) : list string :=
  if negb (get_or true (pt_visible fill)) then []
  else
    let fill_type := get_or EmptyString (pt_type fill) in
    let opacity := get_or (PInt 1) (pt_opacity fill) in
    if String.eqb fill_type "SOLID" then
      let color := get_or no_color (pt_color fill) in
      let rgba := rgba_to_css color in
      let rgba := if py_ltb opacity (PInt 1) then scale_alpha rgba opacity else rgba in
      ["background-color: " ++ rgba ++ ";"]
    else if String.eqb fill_type "GRADIENT_LINEAR" then
      background_of (_convert_linear_gradient fill)
    else if String.eqb fill_type "GRADIENT_RADIAL" then
      background_of (_convert_radial_gradient fill)
    else if String.eqb fill_type "GRADIENT_ANGULAR" then
      background_of (_convert_angular_gradient fill)
    else if String.eqb fill_type "IMAGE" then
      match pt_imageRef fill with
      | Some image_ref =>
          if PyStr.nonempty image_ref
          then ["/* background-image: requires image ref " ++ image_ref ++ " */"]
          else []
      | None => []
      end
    else [].

(** [StyleConverter.get_background_styles] *)
Definition get_background_styles (node : attrs) : list string :=
  flat_map fill_styles (a_fills node).

(** One turn of the loop over [strokes] in [get_border_styles]. *)
Definition stroke_styles (stroke_weight : pynum) (stroke_align : string)
           (stroke : paint) : list string :=
  if negb (get_or true (pt_visible stroke)) then []
  else
    let stroke_type := get_or EmptyString (pt_type stroke) in
    if String.eqb stroke_type "SOLID" then
      let color := rgba_to_css (get_or no_color (pt_color stroke)) in
      ("border: " ++ py_str stroke_weight ++ "px solid " ++ color ++ ";")
        :: (if String.eqb stroke_align "OUTSIDE" then ["box-sizing: content-box;"] else [])
    else if String.eqb stroke_type "GRADIENT_LINEAR" then
      match _convert_linear_gradient stroke with
      | Some gradient =>
          if PyStr.nonempty gradient
          then ["border: " ++ py_str stroke_weight ++ "px solid;";
                "border-image: " ++ gradient ++ " 1;"]
          else []
      | None => []
      end
    else [].

(** [StyleConverter.get_border_styles] *)
Definition get_border_styles (node : attrs) : list string :=
  let strokes := a_strokes node in
  let stroke_weight := get_or (PInt 0) (a_strokeWeight node) in
  let stroke_align := get_or "INSIDE" (a_strokeAlign node) in
  match strokes with
  | [] => []
  | _ =>
      if py_eqb stroke_weight (PInt 0) then []
      else
        flat_map (stroke_styles stroke_weight stroke_align) strokes
        ++ match a_individualStrokeWeights node with
           | Some weights =>
               ["border-top-width: " ++ py_str (get_or stroke_weight (sw_top weights)) ++ "px;";
                "border-right-width: " ++ py_str (get_or stroke_weight (sw_right weights)) ++ "px;";
                "border-bottom-width: " ++ py_str (get_or stroke_weight (sw_bottom weights)) ++ "px;";
                "border-left-width: " ++ py_str (get_or stroke_weight (sw_left weights)) ++ "px;"]
           | None => []
           end
  end.

(** [StyleConverter.get_border_radius] *)
Definition get_border_radius (node : attrs) : list string :=
  match a_cornerRadius node with
  | Some radius =>
      if py_gtb radius (PInt 0) then ["border-radius: " ++ py_str radius ++ "px;"] else []
  | None => []
  end
  ++
  match a_rectangleCornerRadii node with
  | Some [r0; r1; r2; r3] =>
      ["border-radius: " ++ py_str r0 ++ "px " ++ py_str r1 ++ "px "
                         ++ py_str r2 ++ "px " ++ py_str r3 ++ "px;"]
  | _ => []
  end.

(** [StyleConverter.get_text_styles] *)
Definition get_text_styles (node : attrs) : list string :=
  let style := get_or no_style (a_style node) in
  (match ts_fontFamily style with
   | Some font_family => ["font-family: '" ++ font_family ++ "', sans-serif;"]
   | None => []
   end)
  ++ (match ts_fontSize style with
      | Some v => ["font-size: " ++ py_str v ++ "px;"]
      | None => []
      end)
  ++ (match ts_fontWeight style with
      | Some v => ["font-weight: " ++ py_str v ++ ";"]
      | None => []
      end)
  ++ (match ts_lineHeightPx style with
      | Some v => ["line-height: " ++ py_str v ++ "px;"]
      | None =>
          match ts_lineHeightPercent style with
          | Some percent => ["line-height: " ++ py_str (py_truediv percent (PInt 100)) ++ ";"]
          | None =>
              match ts_lineHeightPercentFontSize style with
              | Some percent =>
                  ["line-height: " ++ py_str (py_truediv percent (PInt 100)) ++ ";"]
              | None => []
              end
          end
      end)
  ++ (match ts_letterSpacing style with
      | Some v => ["letter-spacing: " ++ py_str v ++ "px;"]
      | None => []
      end)
  ++ (match ts_textAlignHorizontal style with
      | Some v =>
          let align := PyStr.lower v in
          if PyStr.mem align ["left"; "right"; "center"; "justified"] then
            let align := if String.eqb align "justified" then "justify" else align in
            ["text-align: " ++ align ++ ";"]
          else []
      | None => []
      end)
  ++ (match ts_textAlignVertical style with
      | Some v =>
          let v_align := PyStr.lower v in
          if String.eqb v_align "top" then ["align-items: flex-start;"]
          else if String.eqb v_align "center" then ["align-items: center;"]
          else if String.eqb v_align "bottom" then ["align-items: flex-end;"]
          else []
      | None => []
      end)
  ++ (match ts_textDecoration style with
      | Some v =>
          let decoration := PyStr.lower v in
          if PyStr.mem decoration ["underline"; "line-through"; "strikethrough"] then
            let decoration :=
              if String.eqb decoration "strikethrough" then "line-through" else decoration in
            ["text-decoration: " ++ decoration ++ ";"]
          else []
      | None => []
      end)
  ++ (match ts_textCase style with
      | Some case =>
          if String.eqb case "UPPER" then ["text-transform: uppercase;"]
          else if String.eqb case "LOWER" then ["text-transform: lowercase;"]
          else if String.eqb case "TITLE" then ["text-transform: capitalize;"]
          else []
      | None => []
      end).

(** The text of one shadow: [f"{x}px {y}px {radius}px {color}"]. *)
Definition shadow_css (e : effect) : string :=
  let offset := get_or (Build_point None None) (ef_offset e) in
  let x := get_or (PInt 0) (p_x offset) in
  let y := get_or (PInt 0) (p_y offset) in
  let radius := get_or (PInt 0) (ef_radius e) in
  let color := rgba_to_css (get_or no_color (ef_color e)) in
  py_str x ++ "px " ++ py_str y ++ "px " ++ py_str radius ++ "px " ++ color.

(** One turn of the loop over [effects] in [get_effect_styles]: what it
    appends to [styles] and to [box_shadows]. *)
Definition effect_step (e : effect) : list string * list string :=
  if negb (get_or true (ef_visible e)) then ([], [])
  else
    let effect_type := get_or EmptyString (ef_type e) in
    if String.eqb effect_type "DROP_SHADOW" then ([], [shadow_css e])
    else if String.eqb effect_type "INNER_SHADOW" then ([], ["inset " ++ shadow_css e])
    else if String.eqb effect_type "LAYER_BLUR" then
      let radius := get_or (PInt 0) (ef_radius e) in
      if py_gtb radius (PInt 0) then (["filter: blur(" ++ py_str radius ++ "px);"], [])
      else ([], [])
    else if String.eqb effect_type "BACKGROUND_BLUR" then
      let radius := get_or (PInt 0) (ef_radius e) in
      if py_gtb radius (PInt 0)
      then (["backdrop-filter: blur(" ++ py_str radius ++ "px);"], [])
      else ([], [])
    else ([], []).

(** [StyleConverter.get_effect_styles] *)
Definition get_effect_styles (node : attrs) : list string :=
  let effects := a_effects node in
  let styles := flat_map (fun e => fst (effect_step e)) effects in
  let box_shadows := flat_map (fun e => snd (effect_step e)) effects in
  match box_shadows with
  | [] => styles
  | _ => styles ++ ["box-shadow: " ++ PyStr.join ", " box_shadows ++ ";"]
  end.

(** [StyleConverter.get_opacity] *)
Definition get_opacity (node : attrs) : list string :=
  let opacity := get_or (PInt 1) (a_opacity node) in
  if py_ltb opacity (PInt 1) then ["opacity: " ++ py_str opacity ++ ";"] else [].

(** The table [blend_mode_map] of [get_blend_mode]. *)
Definition blend_mode_map : list (string * string) :=
  [("NORMAL", "normal"); ("DARKEN", "darken"); ("MULTIPLY", "multiply");
   ("COLOR_BURN", "color-burn"); ("LIGHTEN", "lighten"); ("SCREEN", "screen");
   ("COLOR_DODGE", "color-dodge"); ("OVERLAY", "overlay");
   ("SOFT_LIGHT", "soft-light"); ("HARD_LIGHT", "hard-light");
   ("DIFFERENCE", "difference"); ("EXCLUSION", "exclusion"); ("HUE", "hue");
   ("SATURATION", "saturation"); ("COLOR", "color"); ("LUMINOSITY", "luminosity")].

Fixpoint lookup (k : string) (table : list (string * string)) : option string :=
  match table with
  | [] => None
  | (k', v) :: rest => if String.eqb k k' then Some v else lookup k rest
  end.

(** [StyleConverter.get_blend_mode] *)
Definition get_blend_mode (node : attrs) : list string :=
  let blend_mode := get_or "PASS_THROUGH" (a_blendMode node) in
  match lookup blend_mode blend_mode_map with
  | Some css_blend => ["mix-blend-mode: " ++ css_blend ++ ";"]
  | None => []
  end.

End WithBuiltins.
End StyleConverter.

(** ** [layout_converter.py] *)

Module LayoutConverter.
Section WithBuiltins.
Context {B : Builtins}.

(** [value in ['HORIZONTAL', 'VERTICAL']] for [value = d.get('layoutMode')]. *)
Definition is_auto_layout (layout_mode : option string) : bool :=
  match layout_mode with
  | Some m => String.eqb m "HORIZONTAL" || String.eqb m "VERTICAL"
  | None => false
  end.

(** [LayoutConverter.get_position_styles].  [parent] is [None] for
    Python's [None].  The source tests [if parent:], which an empty
    dict fails as well; an empty dict has neither of the two keys the
    guarded code reads, so it takes the same path either way. *)
Definition get_position_styles (node : attrs) (parent : option attrs) : list string :=
  let abs_box := get_or no_box (a_absoluteBoundingBox node) in
  let x := get_or (PInt 0) (bb_x abs_box) in
  let y := get_or (PInt 0) (bb_y abs_box) in
  let '(x, y) :=
    match parent with
    | Some p =>
        match a_absoluteBoundingBox p with
        | Some parent_box =>
            (py_sub x (get_or (PInt 0) (bb_x parent_box)),
             py_sub y (get_or (PInt 0) (bb_y parent_box)))
        | None => (x, y)
        end
    | None => (x, y)
    end in
  let flex_child :=
    match parent with
    | Some p => is_auto_layout (a_layoutMode p)
    | None => false
    end in
  if flex_child then []
  else ["position: absolute;";
        "left: " ++ py_str x ++ "px;";
        "top: " ++ py_str y ++ "px;"].

(** The width or the height branch of [get_size_styles]. *)
Definition size_style (property : string) (sizing : option string)
           (extent : pynum) : list string :=
  let sizing := get_or EmptyString sizing in
  if String.eqb sizing "FILL" then [property ++ ": 100%;"]
  else if String.eqb sizing "HUG" then [property ++ ": fit-content;"]
  else if py_gtb extent (PInt 0) then [property ++ ": " ++ py_str extent ++ "px;"]
  else [].

(** [LayoutConverter.get_size_styles] *)
Definition get_size_styles (node : attrs) : list string :=
  let abs_box := get_or no_box (a_absoluteBoundingBox node) in
  let width := get_or (PInt 0) (bb_width abs_box) in
  let height := get_or (PInt 0) (bb_height abs_box) in
  size_style "width" (a_layoutSizingHorizontal node) width
  ++ size_style "height" (a_layoutSizingVertical node) height.

(** The [justify-content] chain, the same text in both branches of
    [if layout_mode == 'HORIZONTAL'] in the source. *)
Definition justify_content (primary_align : string) : list string :=
  if String.eqb primary_align "MIN" then ["justify-content: flex-start;"]
  else if String.eqb primary_align "CENTER" then ["justify-content: center;"]
  else if String.eqb primary_align "MAX" then ["justify-content: flex-end;"]
  else if String.eqb primary_align "SPACE_BETWEEN" then ["justify-content: space-between;"]
  else [].

(** [LayoutConverter.get_auto_layout_styles] *)
Definition get_auto_layout_styles (node : attrs) : list string :=
  let layout_mode := get_or EmptyString (a_layoutMode node) in
  if negb (PyStr.nonempty layout_mode) || String.eqb layout_mode "NONE" then []
  else
    ["display: flex;"]
    ++ (if String.eqb layout_mode "HORIZONTAL" then ["flex-direction: row;"]
        else if String.eqb layout_mode "VERTICAL" then ["flex-direction: column;"]
        else [])
    ++ justify_content (get_or "MIN" (a_primaryAxisAlignItems node))
    ++ (let counter_align := get_or "MIN" (a_counterAxisAlignItems node) in
        if String.eqb counter_align "MIN" then ["align-items: flex-start;"]
        else if String.eqb counter_align "CENTER" then ["align-items: center;"]
        else if String.eqb counter_align "MAX" then ["align-items: flex-end;"]
        else if String.eqb counter_align "BASELINE" then ["align-items: baseline;"]
        else [])
    ++ (let item_spacing := get_or (PInt 0) (a_itemSpacing node) in
        if py_gtb item_spacing (PInt 0) then ["gap: " ++ py_str item_spacing ++ "px;"]
        else [])
    ++ (let padding_left := get_or (PInt 0) (a_paddingLeft node) in
        let padding_right := get_or (PInt 0) (a_paddingRight node) in
        let padding_top := get_or (PInt 0) (a_paddingTop node) in
        let padding_bottom := get_or (PInt 0) (a_paddingBottom node) in
        if py_eqb padding_left padding_right && py_eqb padding_right padding_top
           && py_eqb padding_top padding_bottom
        then
          if py_gtb padding_left (PInt 0) then ["padding: " ++ py_str padding_left ++ "px;"]
          else []
        else
          if py_gtb padding_top (PInt 0) || py_gtb padding_right (PInt 0)
             || py_gtb padding_bottom (PInt 0) || py_gtb padding_left (PInt 0)
          then ["padding: " ++ py_str padding_top ++ "px " ++ py_str padding_right ++ "px "
                            ++ py_str padding_bottom ++ "px " ++ py_str padding_left ++ "px;"]
          else [])
    ++ (if String.eqb (get_or "NO_WRAP" (a_layoutWrap node)) "WRAP"
        then ["flex-wrap: wrap;"] else []).

(** [LayoutConverter.get_overflow_styles] *)
Definition get_overflow_styles (node : attrs) : list string :=
  if get_or false (a_clipsContent node) then ["overflow: hidden;"] else [].

(** [LayoutConverter.get_transform_styles]; its [relativeTransform]
    branch is a [pass]. *)
Definition get_transform_styles (node : attrs) : list string :=
  match a_rotation node with
  | Some rotation =>
      if py_truthy rotation && negb (py_eqb rotation (PInt 0))
      then ["transform: rotate(" ++ py_str rotation ++ "deg);"] else []
  | None => []
  end.

(** [{horizontal, vertical}], the [constraints] object of a node. *)
Record constraints : Type := {
  k_horizontal : option string;
  k_vertical : option string
}.

Definition no_constraints : constraints := Build_constraints None None.

(** [LayoutConverter.get_constraints_styles].  The method reads one key
    of its node, [node.get('constraints', {})], which no other method
    reads: the argument is the value at that key, [None] for a node
    without it. *)
Definition get_constraints_styles (node_constraints : option constraints) : list string :=
  let constraints := get_or no_constraints node_constraints in
  let h_constraint := get_or EmptyString (k_horizontal constraints) in
  let v_constraint := get_or EmptyString (k_vertical constraints) in
  (if String.eqb h_constraint "LEFT_RIGHT" then ["left: 0;"; "right: 0;"]
   else if String.eqb h_constraint "RIGHT" then ["right: 0;"]
   else if String.eqb h_constraint "CENTER" then ["left: 50%;"; "transform: translateX(-50%);"]
   else if String.eqb h_constraint "SCALE" then ["width: 100%;"]
   else [])
  ++ (if String.eqb v_constraint "TOP_BOTTOM" then ["top: 0;"; "bottom: 0;"]
      else if String.eqb v_constraint "BOTTOM" then ["bottom: 0;"]
      else if String.eqb v_constraint "CENTER" then ["top: 50%;"; "transform: translateY(-50%);"]
      else if String.eqb v_constraint "SCALE" then ["height: 100%;"]
      else []).

(** [LayoutConverter.should_use_relative_position].  [if not parent]
    holds of [None] and of the empty dict, which has no [layoutMode]. *)
Definition should_use_relative_position (parent : option attrs) : bool :=
  match parent with
  | None => false
  | Some p => is_auto_layout (a_layoutMode p)
  end.

End WithBuiltins.
End LayoutConverter.

(** ** [html_generator.py] *)

Module HTMLGenerator.

(** The two mutable fields of an [HTMLGenerator] object.  [css_classes]
    is a Python dict: its items are kept in the order their keys were
    first set. *)
Record generator : Type := {
  css_classes : list (string * list string);
  class_counter : Z
}.

(** [HTMLGenerator.__init__] *)
Definition __init__ : generator :=
  {| css_classes := []; class_counter := 0 |}.

(** [d[key] = value] on a dict: a key already there keeps its place
    and takes the new value, a new key goes last. *)
Fixpoint dict_set (key : string) (value : list string)
         (d : list (string * list string)) : list (string * list string) :=
  match d with
  | [] => [(key, value)]
  | (k, v) :: rest =>
      if String.eqb k key then (k, value) :: rest
      else (k, v) :: dict_set key value rest
  end.

(** [self.css_classes[class_name] = styles] *)
Definition set_class (class_name : string) (styles : list string)
           (g : generator) : generator :=
  {| css_classes := dict_set class_name styles (css_classes g);
     class_counter := class_counter g |}.

(** [HTMLGenerator._generate_class_name] *)
Definition _generate_class_name (g : generator) (node : attrs) : string * generator :=
  let node_name := get_or "element" (a_name node) in
  let safe_name :=
    PyStr.map_chars
      (fun c => if PyStr.isalnum c || Ascii.eqb c "-" then c else "_"%char)
      (PyStr.lower node_name) in
  let safe_name := PyStr.take 30 safe_name in
  let counter := class_counter g + 1 in
  ("figma-" ++ safe_name ++ "-" ++ PyStr.of_Z counter,
   {| css_classes := css_classes g; class_counter := counter |}).

(** [<div class="...">], the opening tag every element starts with. *)
Definition open_div (class_name : string) : string :=
  "<div class=" ++ PyStr.dquote ++ class_name ++ PyStr.dquote ++ ">".

(** [HTMLGenerator._generate_text_html] *)
Definition _generate_text_html (node : attrs) (class_name : string) : string :=
  let text_content := get_or EmptyString (a_characters node) in
  let text_content := PyStr.html_escape text_content in
  let text_content := PyStr.newlines_to_br text_content in
  open_div class_name ++ text_content ++ "</div>".

(** The loop the three recursive methods share:
    [for child in children: child_html = visit(child); if child_html:
    parts.append(child_html)], with the generator threaded through. *)
Definition visit_children (visit : node -> generator -> string * generator)
  : list node -> generator -> list string * generator :=
  fix loop (children : list node) (g : generator) : list string * generator :=
    match children with
    | [] => ([], g)
    | child :: rest =>
        let '(child_html, g1) := visit child g in
        let '(parts, g2) := loop rest g1 in
        ((if PyStr.nonempty child_html then child_html :: parts else parts), g2)
    end.

(** [HTMLGenerator._generate_container_html], given the method it
    calls back on each child. *)
Definition _generate_container_html
           (visit : node -> option attrs -> nat -> generator -> string * generator)
           (g : generator) (children : list node) (node : attrs)
           (class_name : string) (depth : nat) : string * generator :=
  let '(children_html, g') :=
    visit_children (fun child => visit child (Some node) (S depth)) children g in
  let children_content := PyStr.join PyStr.nl children_html in
  (open_div class_name ++ PyStr.nl ++ children_content ++ PyStr.nl ++ "</div>", g').

(** [HTMLGenerator._generate_shape_html] *)
Definition _generate_shape_html
           (visit : node -> option attrs -> nat -> generator -> string * generator)
           (g : generator) (children : list node) (node : attrs)
           (class_name : string) (depth : nat) : string * generator :=
  match children with
  | [] => (open_div class_name ++ "</div>", g)
  | _ =>
      let '(children_html, g') :=
        visit_children (fun child => visit child (Some node) (S depth)) children g in
      let children_content := PyStr.join PyStr.nl children_html in
      (open_div class_name ++ PyStr.nl ++ children_content ++ PyStr.nl ++ "</div>", g')
  end.

Section WithBuiltins.
Context {B : Builtins}.

(** [HTMLGenerator._collect_styles] *)
Definition _collect_styles (node : attrs) (parent : option attrs) : list string :=
  let styles :=
    (LayoutConverter.get_auto_layout_styles node
     ++ LayoutConverter.get_position_styles node parent
     ++ LayoutConverter.get_size_styles node
     ++ LayoutConverter.get_overflow_styles node
     ++ LayoutConverter.get_transform_styles node
     ++ StyleConverter.get_background_styles node
     ++ StyleConverter.get_border_styles node
     ++ StyleConverter.get_border_radius node
     ++ StyleConverter.get_effect_styles node
     ++ StyleConverter.get_opacity node
     ++ StyleConverter.get_blend_mode node)%list in
  if String.eqb (get_or EmptyString (a_type node)) "TEXT" then
    let styles := (styles ++ StyleConverter.get_text_styles node)%list in
    let styles :=
      if negb (PyStr.mem "display: flex;" styles) then (styles ++ ["display: flex;"])%list
      else styles in
    styles ++ ["align-items: center;"]
  else styles.

Definition is_structural (node_type : string) : bool :=
  PyStr.mem node_type ["DOCUMENT"; "CANVAS"].

(** [HTMLGenerator._generate_node_html] *)
Fixpoint _generate_node_html (g : generator) (n : node) (parent : option attrs)
         (depth : nat) {struct n} : string * generator :=
  let 'Node node children := n in
  let visit child parent depth g := _generate_node_html g child parent depth in
  let node_type := get_or EmptyString (a_type node) in
  if is_structural node_type then
    let '(html_parts, g') :=
      visit_children (fun child => visit child (Some node) depth) children g in
    (PyStr.join PyStr.nl html_parts, g')
  else if negb (get_or true (a_visible node)) then (EmptyString, g)
  else
    let '(class_name, g1) := _generate_class_name g node in
    let styles := _collect_styles node parent in
    let g2 := set_class class_name styles g1 in
    if String.eqb node_type "TEXT" then
      (_generate_text_html node class_name, g2)
    else if PyStr.mem node_type ["FRAME"; "GROUP"; "COMPONENT"; "INSTANCE"] then
      _generate_container_html visit g2 children node class_name depth
    else if PyStr.mem node_type ["RECTANGLE"; "ELLIPSE"; "VECTOR"; "STAR"; "POLYGON"] then
      _generate_shape_html visit g2 children node class_name depth
    else
      _generate_container_html visit g2 children node class_name depth.

End WithBuiltins.

(** The reset block [_generate_css] starts from. *)
Definition base_styles : string :=
  PyStr.join PyStr.nl
    ["/* Base styles */";
     "* {";
     "    box-sizing: border-box;";
     "    margin: 0;";
     "    padding: 0;";
     "}";
     EmptyString;
     "body {";
     "    margin: 0;";
     "    padding: 0;";
     "    font-family: -apple-system, BlinkMacSystemFont, 'Segoe UI', 'Roboto', 'Helvetica', 'Arial', sans-serif;";
     "}";
     EmptyString;
     "/* Figma styles */"].

(** What one item of [css_classes] appends to [css_parts]. *)
Definition rule_parts (item : string * list string) : list string :=
  let '(class_name, styles) := item in
  match styles with
  | [] => []
  | _ => ["." ++ class_name ++ " {"]
         ++ map (fun style => "    " ++ style) styles
         ++ ["}" ++ PyStr.nl]
  end.

(** [HTMLGenerator._generate_css] *)
Definition _generate_css (g : generator) : string :=
  PyStr.join PyStr.nl (base_styles :: flat_map rule_parts (css_classes g)).

(** [HTMLGenerator._wrap_html] *)
Definition _wrap_html (content : string) : string :=
  let q := PyStr.dquote in
  PyStr.join PyStr.nl
    ["<!DOCTYPE html>";
     "<html lang=" ++ q ++ "en" ++ q ++ ">";
     "<head>";
     "    <meta charset=" ++ q ++ "UTF-8" ++ q ++ ">";
     "    <meta name=" ++ q ++ "viewport" ++ q ++ " content=" ++ q
       ++ "width=device-width, initial-scale=1.0" ++ q ++ ">";
     "    <title>Figma to HTML</title>";
     "    <link rel=" ++ q ++ "stylesheet" ++ q ++ " href=" ++ q ++ "styles.css" ++ q ++ ">";
     "</head>";
     "<body>";
     content;
     "</body>";
     "</html>"].

Section WithBuiltins.
Context {B : Builtins}.

(** [HTMLGenerator.generate_html_css]: the pair it returns and the
    generator as the call leaves it. *)
Definition generate_html_css (g : generator) (data : figma_data)
  : (string * string) * generator :=
  let children :=
    match fd_document data with
    | Some document => n_children document
    | None => []
    end in
  match children with
  | [] => (("<div>No content</div>", EmptyString), g)
  | page :: _ =>
      let '(html_content, g') := _generate_node_html g page None 0 in
      let css_content := _generate_css g' in
      let full_html := _wrap_html html_content in
      ((full_html, css_content), g')
  end.

(** A conversion as [main] in [figam_to_html.py] runs it:
    [generator = HTMLGenerator(); generator.generate_html_css(data)]. *)
Definition convert (data : figma_data) : string * string :=
  fst (generate_html_css __init__ data).

End WithBuiltins.

End HTMLGenerator.

(** ** [figam_to_html.py] *)

Module FigamToHtml.

(** [extract_file_key].  [parts[1].split('/')[0].split('?')[0]]: a
    split has a first part whatever the text. *)
Definition extract_file_key (figma_url_or_key : string) : string :=
  if PyStr.contains "figma.com" figma_url_or_key then
    match PyStr.split_str "/file/" figma_url_or_key with
    | _ :: after :: _ =>
        let key_part :=
          hd EmptyString (PyStr.split "?" (hd EmptyString (PyStr.split "/" after))) in
        key_part
    | _ => figma_url_or_key
    end
  else figma_url_or_key.

End FigamToHtml.

(** ** Building documents

    Field updates on the empty node object, from which the concrete
    documents of this file are written key by key. *)

Module Doc.

Definition with_type v (a : attrs) : attrs :=
  let 'Build_attrs _ nm vis box lm pa ca gap pl pr pt pb wrap sh sv clip rot fills
    strokes sw sa isw cr rcr eff op bm chars sty := a in
  Build_attrs (Some v) nm vis box lm pa ca gap pl pr pt pb wrap sh sv clip rot fills
    strokes sw sa isw cr rcr eff op bm chars sty.
Definition with_name v (a : attrs) : attrs :=
  let 'Build_attrs ty _ vis box lm pa ca gap pl pr pt pb wrap sh sv clip rot fills
    strokes sw sa isw cr rcr eff op bm chars sty := a in
  Build_attrs ty (Some v) vis box lm pa ca gap pl pr pt pb wrap sh sv clip rot fills
    strokes sw sa isw cr rcr eff op bm chars sty.
Definition with_visible v (a : attrs) : attrs :=
  let 'Build_attrs ty nm _ box lm pa ca gap pl pr pt pb wrap sh sv clip rot fills
    strokes sw sa isw cr rcr eff op bm chars sty := a in
  Build_attrs ty nm (Some v) box lm pa ca gap pl pr pt pb wrap sh sv clip rot fills
    strokes sw sa isw cr rcr eff op bm chars sty.
Definition with_absoluteBoundingBox v (a : attrs) : attrs :=
  let 'Build_attrs ty nm vis _ lm pa ca gap pl pr pt pb wrap sh sv clip rot fills
    strokes sw sa isw cr rcr eff op bm chars sty := a in
  Build_attrs ty nm vis (Some v) lm pa ca gap pl pr pt pb wrap sh sv clip rot fills
    strokes sw sa isw cr rcr eff op bm chars sty.
Definition with_layoutMode v (a : attrs) : attrs :=
  let 'Build_attrs ty nm vis box _ pa ca gap pl pr pt pb wrap sh sv clip rot fills
    strokes sw sa isw cr rcr eff op bm chars sty := a in
  Build_attrs ty nm vis box (Some v) pa ca gap pl pr pt pb wrap sh sv clip rot fills
    strokes sw sa isw cr rcr eff op bm chars sty.
Definition with_fills v (a : attrs) : attrs :=
  let 'Build_attrs ty nm vis box lm pa ca gap pl pr pt pb wrap sh sv clip rot _
    strokes sw sa isw cr rcr eff op bm chars sty := a in
  Build_attrs ty nm vis box lm pa ca gap pl pr pt pb wrap sh sv clip rot v strokes sw
    sa isw cr rcr eff op bm chars sty.
Definition with_cornerRadius v (a : attrs) : attrs :=
  let 'Build_attrs ty nm vis box lm pa ca gap pl pr pt pb wrap sh sv clip rot fills
    strokes sw sa isw _ rcr eff op bm chars sty := a in
  Build_attrs ty nm vis box lm pa ca gap pl pr pt pb wrap sh sv clip rot fills strokes
    sw sa isw (Some v) rcr eff op bm chars sty.
Definition with_rectangleCornerRadii v (a : attrs) : attrs :=
  let 'Build_attrs ty nm vis box lm pa ca gap pl pr pt pb wrap sh sv clip rot fills
    strokes sw sa isw cr _ eff op bm chars sty := a in
  Build_attrs ty nm vis box lm pa ca gap pl pr pt pb wrap sh sv clip rot fills strokes
    sw sa isw cr (Some v) eff op bm chars sty.
Definition with_characters v (a : attrs) : attrs :=
  let 'Build_attrs ty nm vis box lm pa ca gap pl pr pt pb wrap sh sv clip rot fills
    strokes sw sa isw cr rcr eff op bm _ sty := a in
  Build_attrs ty nm vis box lm pa ca gap pl pr pt pb wrap sh sv clip rot fills strokes
    sw sa isw cr rcr eff op bm (Some v) sty.
Definition with_style v (a : attrs) : attrs :=
  let 'Build_attrs ty nm vis box lm pa ca gap pl pr pt pb wrap sh sv clip rot fills
    strokes sw sa isw cr rcr eff op bm chars _ := a in
  Build_attrs ty nm vis box lm pa ca gap pl pr pt pb wrap sh sv clip rot fills strokes
    sw sa isw cr rcr eff op bm chars (Some v).

(** [{x, y, width, height}] with integer entries. *)
Definition box (x y w h : Z) : bounding_box :=
  Build_bounding_box (Some (PInt x)) (Some (PInt y)) (Some (PInt w)) (Some (PInt h)).

(** A node of the given type with no other key. *)
Definition typed (t : string) : attrs := with_type t no_attrs.

End Doc.

(** * Properties *)

Local Open Scope list_scope.

(** ** Which properties a declaration list sets *)

(** The property a declaration sets: its text up to the first colon. *)
Fixpoint css_property (decl : string) : string :=
  match decl with
  | EmptyString => EmptyString
  | String c rest => if Ascii.eqb c ":" then EmptyString else String c (css_property rest)
  end.

(** Every declaration of [decls] sets one of [properties]. *)
Definition sets_only (properties : list string) (decls : list string) : Prop :=
  Forall (fun decl => PyStr.mem (css_property decl) properties = true) decls.

Lemma sets_only_nil : forall ps, sets_only ps [].
Proof. intros ps. constructor. Qed.

Lemma sets_only_app : forall ps l1 l2,
  sets_only ps l1 -> sets_only ps l2 -> sets_only ps (l1 ++ l2).
Proof. intros ps l1 l2 H1 H2. apply Forall_app. split; assumption. Qed.

Lemma sets_only_flat_map : forall (A : Type) ps (f : A -> list string) (l : list A),
  (forall x, sets_only ps (f x)) -> sets_only ps (flat_map f l).
Proof.
  intros A ps f l H. induction l as [|x l IH]; simpl.
  - constructor.
  - apply sets_only_app; [apply H | exact IH].
Qed.

Lemma sets_only_weaken : forall ps qs l,
  (forall p, PyStr.mem p ps = true -> PyStr.mem p qs = true) ->
  sets_only ps l -> sets_only qs l.
Proof.
  intros ps qs l H Hl. unfold sets_only in *.
  eapply Forall_impl; [|exact Hl]. intros d Hd. apply H. exact Hd.
Qed.

(** Splits a goal on the tests of the code until every list is explicit,
    then reads the property off each declaration. *)
Lemma sets_only_filter_out : forall ps prop l,
  sets_only ps l -> PyStr.mem prop ps = false ->
  filter (fun decl => String.eqb (css_property decl) prop) l = [].
Proof.
  intros ps prop l Hl Hp. induction Hl as [|d l Hd _ IH]; simpl.
  - reflexivity.
  - destruct (String.eqb_spec (css_property d) prop) as [E|_].
    + rewrite E in Hd. rewrite Hd in Hp. discriminate.
    + exact IH.
Qed.

(** Splits a goal along the concatenations and the tests of the code
    until every list is explicit, then reads the property off each
    declaration. *)
Ltac split_tests :=
  repeat match goal with
         | |- context [if ?c then _ else _] => destruct c
         | |- context [match ?o with Some _ => _ | None => _ end] => destruct o
         end.

Ltac read_properties :=
  repeat first [ apply Forall_nil | apply Forall_cons; [reflexivity|] ].

Ltac by_cases :=
  unfold sets_only;
  repeat (apply Forall_app; split);
  split_tests; read_properties.

Section Properties.
Context {B : Builtins}.

Definition auto_layout_properties : list string :=
  ["display"; "flex-direction"; "justify-content"; "align-items"; "gap"; "padding";
   "flex-wrap"].
Definition background_properties : list string :=
  ["background-color"; "background"; "/* background-image"].
Definition border_properties : list string :=
  ["border"; "box-sizing"; "border-image"; "border-top-width"; "border-right-width";
   "border-bottom-width"; "border-left-width"].
Definition effect_properties : list string := ["filter"; "backdrop-filter"; "box-shadow"].
Definition text_properties : list string :=
  ["font-family"; "font-size"; "font-weight"; "line-height"; "letter-spacing";
   "text-align"; "align-items"; "text-decoration"; "text-transform"].

Lemma auto_layout_sets : forall node,
  sets_only auto_layout_properties (LayoutConverter.get_auto_layout_styles node).
Proof.
  intros node.
  unfold LayoutConverter.get_auto_layout_styles, LayoutConverter.justify_content.
  destruct (_ || _); [constructor|]. by_cases.
Qed.

Lemma position_sets : forall node parent,
  sets_only ["position"; "left"; "top"] (LayoutConverter.get_position_styles node parent).
Proof.
  intros node parent. unfold LayoutConverter.get_position_styles.
  destruct parent as [p|]; [destruct (a_absoluteBoundingBox p)|]; by_cases.
Qed.

Lemma size_sets : forall node,
  sets_only ["width"; "height"] (LayoutConverter.get_size_styles node).
Proof.
  intros node. unfold LayoutConverter.get_size_styles, LayoutConverter.size_style. by_cases.
Qed.

Lemma overflow_sets : forall node,
  sets_only ["overflow"] (LayoutConverter.get_overflow_styles node).
Proof. intros node. unfold LayoutConverter.get_overflow_styles. by_cases. Qed.

Lemma transform_sets : forall node,
  sets_only ["transform"] (LayoutConverter.get_transform_styles node).
Proof. intros node. unfold LayoutConverter.get_transform_styles. by_cases. Qed.

Lemma background_sets : forall node,
  sets_only background_properties (StyleConverter.get_background_styles node).
Proof.
  intros node. unfold StyleConverter.get_background_styles.
  apply sets_only_flat_map. intros fill.
  unfold StyleConverter.fill_styles, StyleConverter.background_of. by_cases.
Qed.

Lemma border_sets : forall node,
  sets_only border_properties (StyleConverter.get_border_styles node).
Proof.
  intros node. unfold StyleConverter.get_border_styles.
  destruct (a_strokes node) as [|s strokes]; [constructor|].
  destruct (py_eqb _ _); [constructor|].
  apply sets_only_app.
  - apply sets_only_flat_map. intros stroke. unfold StyleConverter.stroke_styles. by_cases.
  - by_cases.
Qed.

Lemma border_radius_sets : forall node,
  sets_only ["border-radius"] (StyleConverter.get_border_radius node).
Proof.
  intros node. unfold StyleConverter.get_border_radius.
  apply sets_only_app; [by_cases|].
  destruct (a_rectangleCornerRadii node) as [[|r0 [|r1 [|r2 [|r3 [|r4 radii]]]]]|]; by_cases.
Qed.

Lemma effect_sets : forall node,
  sets_only effect_properties (StyleConverter.get_effect_styles node).
Proof.
  intros node. unfold StyleConverter.get_effect_styles.
  assert (Hblur : sets_only effect_properties
                    (flat_map (fun e => fst (StyleConverter.effect_step e)) (a_effects node))).
  { apply sets_only_flat_map. intros e. unfold StyleConverter.effect_step. by_cases. }
  destruct (flat_map (fun e => snd (StyleConverter.effect_step e)) (a_effects node)).
  - exact Hblur.
  - apply sets_only_app; [exact Hblur | by_cases].
Qed.

Lemma opacity_sets : forall node, sets_only ["opacity"] (StyleConverter.get_opacity node).
Proof. intros node. unfold StyleConverter.get_opacity. by_cases. Qed.

Lemma blend_mode_sets : forall node,
  sets_only ["mix-blend-mode"] (StyleConverter.get_blend_mode node).
Proof. intros node. unfold StyleConverter.get_blend_mode. by_cases. Qed.

Lemma text_sets : forall node,
  sets_only text_properties (StyleConverter.get_text_styles node).
Proof. intros node. unfold StyleConverter.get_text_styles. by_cases. Qed.

End Properties.

(** ** Positioning of flex children (C4) and the two corner radii (C10) *)

Lemma sets_only_avoid : forall ps qs l,
  sets_only ps l ->
  forallb (fun p => negb (PyStr.mem p qs)) ps = true ->
  Forall (fun decl => PyStr.mem (css_property decl) qs = false) l.
Proof.
  intros ps qs l Hl Hdis. unfold sets_only in Hl.
  eapply Forall_impl; [|exact Hl]. intros d Hd. cbv beta in Hd.
  unfold PyStr.mem in Hd. apply existsb_exists in Hd. destruct Hd as [p [Hin Heq]].
  apply String.eqb_eq in Heq. subst p.
  rewrite forallb_forall in Hdis. specialize (Hdis _ Hin).
  apply negb_true_iff in Hdis. exact Hdis.
Qed.

(** A declaration that places its element: [position], [left] or [top]. *)
Definition is_positioning (decl : string) : bool :=
  PyStr.mem (css_property decl) ["position"; "left"; "top"].

(** A declaration of the property [prop]. *)
Definition declares (prop decl : string) : bool := String.eqb (css_property decl) prop.

Section StyleLists.
Context {B : Builtins}.

Lemma position_styles_of_flex_child : forall node parent,
  LayoutConverter.is_auto_layout (a_layoutMode parent) = true ->
  LayoutConverter.get_position_styles node (Some parent) = [].
Proof.
  intros node parent H. unfold LayoutConverter.get_position_styles.
  destruct (a_absoluteBoundingBox parent); rewrite H; reflexivity.
Qed.

(** The merged list is the layout and visual declarations, followed for
    a TEXT node by its typography and the two forced declarations. *)
Definition layout_and_visual (node : attrs) (parent : option attrs) : list string :=
  LayoutConverter.get_auto_layout_styles node
  ++ LayoutConverter.get_position_styles node parent
  ++ LayoutConverter.get_size_styles node
  ++ LayoutConverter.get_overflow_styles node
  ++ LayoutConverter.get_transform_styles node
  ++ StyleConverter.get_background_styles node
  ++ StyleConverter.get_border_styles node
  ++ StyleConverter.get_border_radius node
  ++ StyleConverter.get_effect_styles node
  ++ StyleConverter.get_opacity node
  ++ StyleConverter.get_blend_mode node.

Lemma collect_styles_shape : forall node parent,
  HTMLGenerator._collect_styles node parent
  = if String.eqb (get_or EmptyString (a_type node)) "TEXT"
    then (layout_and_visual node parent ++ StyleConverter.get_text_styles node)
         ++ (if PyStr.mem "display: flex;"
                  (layout_and_visual node parent ++ StyleConverter.get_text_styles node)
             then [] else ["display: flex;"])
         ++ ["align-items: center;"]
    else layout_and_visual node parent.
Proof.
  intros node parent. unfold HTMLGenerator._collect_styles. fold (layout_and_visual node parent).
  destruct (String.eqb _ "TEXT"); [|reflexivity].
  destruct (PyStr.mem _ _); cbn [negb app].
  - reflexivity.
  - rewrite <- app_assoc. reflexivity.
Qed.

End StyleLists.

Ltac avoid lem := eapply sets_only_avoid; [apply lem | reflexivity].

(** C4. A node whose parent has layoutMode HORIZONTAL or VERTICAL gets a
    merged style list with no [position], [left] or [top] declaration. *)
Theorem C4_flex_child_has_no_positioning :
  forall (B : Builtins) (node parent : attrs),
    a_layoutMode parent = Some "HORIZONTAL" \/ a_layoutMode parent = Some "VERTICAL" ->
    Forall (fun decl => is_positioning decl = false)
           (HTMLGenerator._collect_styles node (Some parent)).
Proof.
  intros B node parent Hmode.
  assert (Hflex : LayoutConverter.is_auto_layout (a_layoutMode parent) = true)
    by (destruct Hmode as [-> | ->]; reflexivity).
  assert (Hbase : Forall (fun decl => is_positioning decl = false)
                         (layout_and_visual node (Some parent))).
  { unfold layout_and_visual. rewrite (position_styles_of_flex_child _ _ Hflex).
    apply Forall_app; split; [avoid auto_layout_sets|].
    apply Forall_app; split; [constructor|].
    apply Forall_app; split; [avoid size_sets|].
    apply Forall_app; split; [avoid overflow_sets|].
    apply Forall_app; split; [avoid transform_sets|].
    apply Forall_app; split; [avoid background_sets|].
    apply Forall_app; split; [avoid border_sets|].
    apply Forall_app; split; [avoid border_radius_sets|].
    apply Forall_app; split; [avoid effect_sets|].
    apply Forall_app; split; [avoid opacity_sets|].
    avoid blend_mode_sets. }
  rewrite collect_styles_shape.
  destruct (String.eqb _ "TEXT"); [|exact Hbase].
  apply Forall_app; split; [apply Forall_app; split; [exact Hbase | avoid text_sets]|].
  apply Forall_app; split; [destruct (PyStr.mem _ _)|]; repeat constructor.
Qed.

Definition flex_parent : attrs := Doc.with_layoutMode "HORIZONTAL" (Doc.typed "FRAME").
Definition boxed_child : attrs :=
  Doc.with_absoluteBoundingBox (Doc.box 12 8 40 30) (Doc.typed "RECTANGLE").

Lemma C4_witness :
  Forall (fun decl => is_positioning decl = false)
         (HTMLGenerator._collect_styles (B := CPython.builtins) boxed_child (Some flex_parent)).
Proof.
  apply (C4_flex_child_has_no_positioning CPython.builtins boxed_child flex_parent).
  left. reflexivity.
Defined.

Lemma filter_out_piece : forall ps prop l rest,
  sets_only ps l -> PyStr.mem prop ps = false ->
  filter (declares prop) (l ++ rest) = filter (declares prop) rest.
Proof.
  intros ps prop l rest Hl Hp. rewrite filter_app.
  unfold declares at 1. rewrite (sets_only_filter_out ps prop l Hl Hp). reflexivity.
Qed.

(** C10. With a cornerRadius above 0 and four rectangleCornerRadii, the
    declarations of [border-radius] in the style list are the uniform one
    and then the four-value shorthand, which is therefore the last. *)
Theorem C10_uniform_then_four_value_radius :
  forall (B : Builtins) (node : attrs) (parent : option attrs)
         (radius r0 r1 r2 r3 : pynum),
    a_cornerRadius node = Some radius ->
    py_gtb radius (PInt 0) = true ->
    a_rectangleCornerRadii node = Some [r0; r1; r2; r3] ->
    StyleConverter.get_border_radius node
    = [("border-radius: " ++ py_str radius ++ "px;")%string;
       ("border-radius: " ++ py_str r0 ++ "px " ++ py_str r1 ++ "px "
                          ++ py_str r2 ++ "px " ++ py_str r3 ++ "px;")%string]
    /\ filter (declares "border-radius") (HTMLGenerator._collect_styles node parent)
       = StyleConverter.get_border_radius node
    /\ last (filter (declares "border-radius") (HTMLGenerator._collect_styles node parent))
            EmptyString
       = ("border-radius: " ++ py_str r0 ++ "px " ++ py_str r1 ++ "px "
                            ++ py_str r2 ++ "px " ++ py_str r3 ++ "px;")%string.
Proof.
  intros B node parent radius r0 r1 r2 r3 Hcorner Hpos Hradii.
  assert (Hlist : StyleConverter.get_border_radius node
                  = [("border-radius: " ++ py_str radius ++ "px;")%string;
                     ("border-radius: " ++ py_str r0 ++ "px " ++ py_str r1 ++ "px "
                        ++ py_str r2 ++ "px " ++ py_str r3 ++ "px;")%string]).
  { unfold StyleConverter.get_border_radius. rewrite Hcorner, Hpos, Hradii. reflexivity. }
  assert (Hbase : filter (declares "border-radius") (layout_and_visual node parent)
                  = StyleConverter.get_border_radius node).
  { unfold layout_and_visual.
    rewrite (filter_out_piece _ _ _ _ (auto_layout_sets node)) by reflexivity.
    rewrite (filter_out_piece _ _ _ _ (position_sets node parent)) by reflexivity.
    rewrite (filter_out_piece _ _ _ _ (size_sets node)) by reflexivity.
    rewrite (filter_out_piece _ _ _ _ (overflow_sets node)) by reflexivity.
    rewrite (filter_out_piece _ _ _ _ (transform_sets node)) by reflexivity.
    rewrite (filter_out_piece _ _ _ _ (background_sets node)) by reflexivity.
    rewrite (filter_out_piece _ _ _ _ (border_sets node)) by reflexivity.
    rewrite filter_app.
    rewrite (filter_out_piece _ _ _ _ (effect_sets node)) by reflexivity.
    rewrite (filter_out_piece _ _ _ _ (opacity_sets node)) by reflexivity.
    unfold declares at 2.
    rewrite (sets_only_filter_out _ _ _ (blend_mode_sets node)) by reflexivity.
    rewrite app_nil_r. rewrite Hlist. reflexivity. }
  assert (Hall : filter (declares "border-radius") (HTMLGenerator._collect_styles node parent)
                 = StyleConverter.get_border_radius node).
  { rewrite collect_styles_shape.
    destruct (String.eqb _ "TEXT"); [|exact Hbase].
    rewrite !filter_app, Hbase.
    unfold declares at 1. rewrite (sets_only_filter_out _ _ _ (text_sets node)) by reflexivity.
    destruct (PyStr.mem _ _); simpl; rewrite !app_nil_r; reflexivity. }
  split; [exact Hlist|]. split; [exact Hall|].
  rewrite Hall, Hlist. reflexivity.
Qed.

Definition rounded_rectangle : attrs :=
  Doc.with_rectangleCornerRadii [PInt 4; PInt 4; PInt 0; PInt 0]
    (Doc.with_cornerRadius (PInt 8) (Doc.typed "RECTANGLE")).

Lemma C10_witness :
  filter (declares "border-radius")
         (HTMLGenerator._collect_styles (B := CPython.builtins) rounded_rectangle None)
  = ["border-radius: 8px;"; "border-radius: 4px 4px 0px 0px;"].
Proof.
  destruct (C10_uniform_then_four_value_radius CPython.builtins rounded_rectangle None
              (PInt 8) (PInt 4) (PInt 4) (PInt 0) (PInt 0)
              eq_refl eq_refl eq_refl) as [Hlist [Hall _]].
  rewrite Hall. exact Hlist.
Defined.

(** ** The forced [align-items: center] of TEXT nodes (C5) *)

(** Whatever a TEXT node carries, its merged list ends with
    [align-items: center;]: the append is outside the [if]. *)
Lemma text_styles_end_centered :
  forall (B : Builtins) (node : attrs) (parent : option attrs),
    a_type node = Some "TEXT" ->
    exists styles,
      HTMLGenerator._collect_styles node parent = styles ++ ["align-items: center;"].
Proof.
  intros B node parent Htype. rewrite collect_styles_shape, Htype. simpl get_or.
  rewrite String.eqb_refl. rewrite app_assoc. eexists. reflexivity.
Qed.

(** A TEXT node aligned to the top: [{type: TEXT, style: {textAlignVertical: TOP}}]. *)
Definition top_aligned_text : attrs :=
  Doc.with_style
    (Build_text_style None None None None None None None None (Some "TOP") None None)
    (Doc.typed "TEXT").

(** A TEXT node that is a flex container already:
    [{type: TEXT, layoutMode: HORIZONTAL, style: {textAlignVertical: BOTTOM}}]. *)
Definition flex_text : attrs :=
  Doc.with_layoutMode "HORIZONTAL"
    (Doc.with_style
       (Build_text_style None None None None None None None None (Some "BOTTOM") None None)
       (Doc.typed "TEXT")).

(** C5. On a TEXT node with textAlignVertical TOP the style list ends
    with [align-items: center;] after the [align-items: flex-start;] the
    alignment gave, and a TEXT node whose list has [display: flex;]
    already still gets [align-items: center;] appended: the alignment
    read from the node is never the last [align-items]. *)
Theorem C5_text_alignment_is_overridden :
  forall B : Builtins,
    HTMLGenerator._collect_styles top_aligned_text None
    = ["position: absolute;"; "left: 0px;"; "top: 0px;";
       "align-items: flex-start;"; "display: flex;"; "align-items: center;"]
    /\ HTMLGenerator._collect_styles flex_text None
       = ["display: flex;"; "flex-direction: row;"; "justify-content: flex-start;";
          "align-items: flex-start;"; "position: absolute;"; "left: 0px;"; "top: 0px;";
          "align-items: flex-end;"; "align-items: center;"].
Proof. intros B. split; reflexivity. Qed.

(** ** The empty document (C1) *)

(** [{document: {children: []}}] *)
Definition empty_document : figma_data :=
  Build_figma_data (Some (Node (Doc.typed "DOCUMENT") [])).

(** The children of the document object, [[]] when a key is missing. *)
Definition document_children (data : figma_data) : list node :=
  match fd_document data with
  | Some document => n_children document
  | None => []
  end.

(** C1, as the code has it. A document without children converts to the
    fragment [<div>No content</div>] and the empty stylesheet, and the
    generator is left as it was. *)
Theorem C1_empty_document_gives_empty_css :
  forall (B : Builtins) (g : HTMLGenerator.generator) (data : figma_data),
    document_children data = [] ->
    HTMLGenerator.generate_html_css g data = (("<div>No content</div>", EmptyString), g).
Proof.
  intros B g data Hnone. unfold HTMLGenerator.generate_html_css.
  unfold document_children in Hnone. rewrite Hnone. reflexivity.
Qed.

Lemma C1_witness :
  HTMLGenerator.convert (B := CPython.builtins) empty_document
  = ("<div>No content</div>", EmptyString).
Proof.
  unfold HTMLGenerator.convert.
  rewrite (C1_empty_document_gives_empty_css CPython.builtins HTMLGenerator.__init__
             empty_document eq_refl).
  reflexivity.
Defined.

(** C1 as claimed fails: the stylesheet of the empty document is not the
    base reset block, which is what [_generate_css] gives for an empty
    table. *)
Lemma C1_counterexample :
  HTMLGenerator._generate_css HTMLGenerator.__init__ = HTMLGenerator.base_styles
  /\ snd (HTMLGenerator.convert (B := CPython.builtins) empty_document)
     <> HTMLGenerator.base_styles.
Proof. split; [reflexivity | discriminate]. Qed.

(** ** The tree walk *)

(** Induction on a node with the hypothesis on every child. *)
Lemma node_ind (P : node -> Prop)
      (step : forall a children, Forall P children -> P (Node a children)) :
  forall n, P n.
Proof.
  fix IH 1. intros [a children]. apply step.
  induction children as [|c children IHc]; constructor; [apply IH | exact IHc].
Qed.

(** ** Class names

    A class name ends in a dash and the decimal digits of the counter, so
    two names built from different counters differ. *)

Module ClassNames.

Fixpoint all_digits (s : string) : bool :=
  match s with
  | EmptyString => true
  | String c rest => PyStr.is_digit c && all_digits rest
  end.

Lemma uint_text_all_digits : forall d, all_digits (NilEmpty.string_of_uint d) = true.
Proof. induction d; simpl; auto. Qed.

Lemma of_Z_all_digits : forall z, 0 <= z -> all_digits (PyStr.of_Z z) = true.
Proof.
  intros [|p|p] Hz; [reflexivity| |lia].
  unfold PyStr.of_Z. simpl. unfold NilZero.string_of_uint.
  pose proof (uint_text_all_digits (Pos.to_uint p)) as H.
  destruct (Pos.to_uint p); first [exact H | reflexivity].
Qed.

Lemma of_Z_inj : forall z1 z2, PyStr.of_Z z1 = PyStr.of_Z z2 -> z1 = z2.
Proof.
  intros z1 z2 H. unfold PyStr.of_Z in H.
  assert (Hparse : forall z, NilZero.int_of_string (NilZero.string_of_int (Z.to_int z))
                             = Some (Z.to_int z)).
  { intros [|p|p]; [reflexivity| |]; apply NilZero.isi; simpl;
      try discriminate; intros [= E]; exact (DecimalPos.Unsigned.to_uint_nonnil p E). }
  pose proof (Hparse z1) as H1. rewrite H, Hparse in H1. injection H1 as H1.
  rewrite <- (DecimalZ.of_to z1), <- (DecimalZ.of_to z2). rewrite H1. reflexivity.
Qed.

Lemma digits_have_no_dash : forall s d, all_digits (s ++ String "-" d)%string = false.
Proof.
  induction s as [|c s IH]; intros d; simpl.
  - reflexivity.
  - rewrite IH. apply andb_false_r.
Qed.

(** The text after the last dash of a name is determined by the name. *)
Lemma suffix_after_dash : forall s1 s2 d1 d2,
  all_digits d1 = true -> all_digits d2 = true ->
  (s1 ++ String "-" d1 = s2 ++ String "-" d2)%string -> d1 = d2.
Proof.
  induction s1 as [|c1 s1 IH]; intros [|c2 s2] d1 d2 H1 H2 E; simpl in E.
  - injection E as E. exact E.
  - injection E as Ec E. subst d1. rewrite digits_have_no_dash in H1. discriminate.
  - injection E as Ec E. subst d2. rewrite digits_have_no_dash in H2. discriminate.
  - injection E as Ec E. eapply IH; eassumption.
Qed.

(** [safe_name] of [_generate_class_name]. *)
Definition safe_name (node : attrs) : string :=
  PyStr.take 30
    (PyStr.map_chars
       (fun c => if PyStr.isalnum c || Ascii.eqb c "-" then c else "_"%char)
       (PyStr.lower (get_or "element" (a_name node)))).

(** The name [_generate_class_name] builds when the counter reaches [counter]. *)
Definition class_name_at (node : attrs) (counter : Z) : string :=
  ("figma-" ++ safe_name node ++ "-" ++ PyStr.of_Z counter)%string.

Lemma generate_class_name_eq : forall g node,
  HTMLGenerator._generate_class_name g node
  = (class_name_at node (HTMLGenerator.class_counter g + 1),
     {| HTMLGenerator.css_classes := HTMLGenerator.css_classes g;
        HTMLGenerator.class_counter := HTMLGenerator.class_counter g + 1 |}).
Proof. reflexivity. Qed.

(** Uniqueness within a run: different counters give different names. *)
Lemma class_name_at_inj : forall node1 node2 c1 c2,
  0 <= c1 -> 0 <= c2 ->
  class_name_at node1 c1 = class_name_at node2 c2 -> c1 = c2.
Proof.
  intros node1 node2 c1 c2 H1 H2 E. unfold class_name_at in E.
  apply of_Z_inj.
  apply (suffix_after_dash ("figma-" ++ safe_name node1) ("figma-" ++ safe_name node2)).
  - apply of_Z_all_digits. exact H1.
  - apply of_Z_all_digits. exact H2.
  - exact E.
Qed.

End ClassNames.

Module Walk.
Import HTMLGenerator.

(** The keys of the side table, in order. *)
Definition class_names (g : generator) : list string := map fst (css_classes g).

(** [d.get(key)] on the side table. *)
Fixpoint dict_get (key : string) (d : list (string * list string)) : option (list string) :=
  match d with
  | [] => None
  | (k, v) :: rest => if String.eqb k key then Some v else dict_get key rest
  end.

Lemma dict_set_keeps_keys : forall key value d k,
  In k (map fst d) -> In k (map fst (dict_set key value d)).
Proof.
  intros key value d k. induction d as [|[k' v'] d IH]; simpl.
  - intros [].
  - destruct (String.eqb k' key); simpl; intros [H|H]; auto.
Qed.

Lemma dict_set_has_key : forall key value d, In key (map fst (dict_set key value d)).
Proof.
  intros key value d. induction d as [|[k' v'] d IH]; simpl.
  - left. reflexivity.
  - destruct (String.eqb_spec k' key); simpl; auto.
Qed.

Lemma dict_get_set_same : forall key value d, dict_get key (dict_set key value d) = Some value.
Proof.
  intros key value d. induction d as [|[k' v'] d IH]; simpl.
  - rewrite String.eqb_refl. reflexivity.
  - destruct (String.eqb_spec k' key) as [E|E]; simpl.
    + subst. rewrite String.eqb_refl. reflexivity.
    + apply String.eqb_neq in E. rewrite E. exact IH.
Qed.

Lemma dict_get_set_other : forall key value d k,
  k <> key -> dict_get k (dict_set key value d) = dict_get k d.
Proof.
  intros key value d k Hne. induction d as [|[k' v'] d IH]; simpl.
  - destruct (String.eqb_spec key k); congruence.
  - destruct (String.eqb_spec k' key) as [E|E]; simpl.
    + subst. destruct (String.eqb_spec key k); congruence.
    + rewrite IH. reflexivity.
Qed.

Section WithBuiltins.
Context {B : Builtins}.

(** The method as the three recursive methods call it back. *)
Definition visit (child : node) (parent : option attrs) (depth : nat) (g : generator)
  : string * generator :=
  _generate_node_html g child parent depth.

(** The body of [_generate_node_html], one level unfolded. *)
Lemma generate_node_html_unfold : forall g node children parent depth,
  _generate_node_html g (Node node children) parent depth
  = let node_type := get_or EmptyString (a_type node) in
    if is_structural node_type then
      let '(html_parts, g') :=
        visit_children (fun child => visit child (Some node) depth) children g in
      (PyStr.join PyStr.nl html_parts, g')
    else if negb (get_or true (a_visible node)) then (EmptyString, g)
    else
      let '(class_name, g1) := _generate_class_name g node in
      let styles := _collect_styles node parent in
      let g2 := set_class class_name styles g1 in
      if String.eqb node_type "TEXT" then
        (_generate_text_html node class_name, g2)
      else if PyStr.mem node_type ["FRAME"; "GROUP"; "COMPONENT"; "INSTANCE"] then
        _generate_container_html visit g2 children node class_name depth
      else if PyStr.mem node_type ["RECTANGLE"; "ELLIPSE"; "VECTOR"; "STAR"; "POLYGON"] then
        _generate_shape_html visit g2 children node class_name depth
      else
        _generate_container_html visit g2 children node class_name depth.
Proof. reflexivity. Qed.

(** How many classes the visit of a node allocates: one per visible node
    that is not structural, TEXT nodes being leaves of the walk. *)
Fixpoint classes_of (n : node) : Z :=
  let 'Node node children := n in
  let below := fold_right Z.add 0 (map classes_of children) in
  let node_type := get_or EmptyString (a_type node) in
  if is_structural node_type then below
  else if negb (get_or true (a_visible node)) then 0
  else if String.eqb node_type "TEXT" then 1
  else 1 + below.

(** A property of the generator that every visit carries from its start
    to its end carries through the loop over the children. *)
Lemma visit_children_carries :
  forall (R : generator -> generator -> Prop)
         (v : node -> generator -> string * generator) (children : list node),
    (forall g, R g g) ->
    (forall g1 g2 g3, R g1 g2 -> R g2 g3 -> R g1 g3) ->
    Forall (fun c => forall g, R g (snd (v c g))) children ->
    forall g, R g (snd (visit_children v children g)).
Proof.
  intros R v children Hrefl Htrans Hall.
  induction Hall as [|c children Hc _ IH]; intros g; simpl.
  - apply Hrefl.
  - specialize (Hc g). destruct (v c g) as [h g1]. simpl in Hc.
    specialize (IH g1). destruct (visit_children v children g1) as [parts g2]. simpl in *.
    eapply Htrans; eassumption.
Qed.

Lemma visit_children_counter :
  forall (v : node -> generator -> string * generator) (children : list node),
    Forall (fun c => forall g, class_counter (snd (v c g)) = class_counter g + classes_of c)
           children ->
    forall g, class_counter (snd (visit_children v children g))
              = class_counter g + fold_right Z.add 0 (map classes_of children).
Proof.
  intros v children Hall.
  induction Hall as [|c children Hc _ IH]; intros g; simpl.
  - lia.
  - specialize (Hc g). destruct (v c g) as [h g1]. simpl in Hc.
    specialize (IH g1). destruct (visit_children v children g1) as [parts g2]. simpl in *.
    lia.
Qed.

(** The counter grows by the number of classes the visit allocates. *)
Lemma counter_after_visit : forall n g parent depth,
  class_counter (snd (_generate_node_html g n parent depth)) = class_counter g + classes_of n.
Proof.
  induction n as [node children IH] using node_ind. intros g parent depth.
  rewrite generate_node_html_unfold. cbn zeta.
  change (classes_of (Node node children))
    with (let below := fold_right Z.add 0 (map classes_of children) in
          let node_type := get_or EmptyString (a_type node) in
          if is_structural node_type then below
          else if negb (get_or true (a_visible node)) then 0
          else if String.eqb node_type "TEXT" then 1
          else 1 + below).
  cbn zeta.
  assert (Hloop : forall d g0,
             class_counter (snd (visit_children (fun child => visit child (Some node) d)
                                                children g0))
             = class_counter g0 + fold_right Z.add 0 (map classes_of children)).
  { intros d g0. apply visit_children_counter.
    eapply Forall_impl; [|exact IH]. intros c Hc g1. apply Hc. }
  destruct (is_structural _).
  { specialize (Hloop depth g). destruct (visit_children _ children g). exact Hloop. }
  destruct (negb _); [cbn [snd]; lia|].
  destruct (String.eqb _ "TEXT"); [cbn [snd set_class class_counter _generate_class_name]; lia|].
  assert (Hcontainer : forall class_name g2,
             class_counter g2 = class_counter g + 1 ->
             class_counter (snd (_generate_container_html visit g2 children node class_name depth))
             = class_counter g + (1 + fold_right Z.add 0 (map classes_of children))).
  { intros class_name g2 Hg2. unfold _generate_container_html.
    specialize (Hloop (S depth) g2). destruct (visit_children _ children g2). cbn [snd] in *. lia. }
  destruct (PyStr.mem _ ["FRAME"; _; _; _]); [apply Hcontainer; reflexivity|].
  destruct (PyStr.mem _ _); [|apply Hcontainer; reflexivity].
  unfold _generate_shape_html. destruct children as [|c children].
  { cbn [snd set_class class_counter _generate_class_name fold_right map]. lia. }
  specialize (Hloop (S depth) (set_class (fst (_generate_class_name g node))
                                         (_collect_styles node parent)
                                         (snd (_generate_class_name g node)))).
  cbn [fst snd _generate_class_name] in Hloop |- *.
  destruct (visit_children _ (c :: children) _) as [parts g3].
  cbn [snd set_class class_counter] in *. lia.
Qed.

(** What a visit leaves of the generator it started from: the counter
    has not decreased, the class names are still there, and a name that
    no later counter value can produce still has its styles. *)
Definition continues (k : string) (g g' : generator) : Prop :=
  class_counter g <= class_counter g'
  /\ incl (class_names g) (class_names g')
  /\ ((forall node c, class_counter g < c -> ClassNames.class_name_at node c <> k) ->
      dict_get k (css_classes g') = dict_get k (css_classes g)).

Lemma continues_refl : forall k g, continues k g g.
Proof. intros k g. repeat split; [lia | apply incl_refl]. Qed.

Lemma continues_trans : forall k g1 g2 g3,
  continues k g1 g2 -> continues k g2 g3 -> continues k g1 g3.
Proof.
  intros k g1 g2 g3 [Hc12 [Hk12 Hg12]] [Hc23 [Hk23 Hg23]]. repeat split.
  - lia.
  - eapply incl_tran; eassumption.
  - intros Hfresh. rewrite Hg23, Hg12; [reflexivity | exact Hfresh |].
    intros node c Hc. apply Hfresh. lia.
Qed.

Lemma continues_register : forall k g node styles,
  continues k g (set_class (fst (_generate_class_name g node)) styles
                           (snd (_generate_class_name g node))).
Proof.
  intros k g node styles. rewrite ClassNames.generate_class_name_eq.
  unfold continues, class_names. cbn [fst snd set_class css_classes class_counter].
  repeat split.
  - lia.
  - intros x Hx. apply dict_set_keeps_keys. exact Hx.
  - intros Hfresh. apply dict_get_set_other.
    intros E. apply (Hfresh node (class_counter g + 1)); [lia | symmetry; exact E].
Qed.

Lemma visit_continues : forall k n g parent depth,
  continues k g (snd (_generate_node_html g n parent depth)).
Proof.
  intros k. induction n as [node children IH] using node_ind. intros g parent depth.
  rewrite generate_node_html_unfold. cbn zeta.
  assert (Hloop : forall d g0,
             continues k g0 (snd (visit_children (fun child => visit child (Some node) d)
                                                 children g0))).
  { intros d g0. apply visit_children_carries.
    - apply continues_refl.
    - apply continues_trans.
    - eapply Forall_impl; [|exact IH]. intros c Hc g1. apply Hc. }
  destruct (is_structural _).
  { specialize (Hloop depth g). destruct (visit_children _ children g). exact Hloop. }
  destruct (negb _); [apply continues_refl|].
  pose proof (continues_register k g node (_collect_styles node parent)) as Hreg.
  destruct (_generate_class_name g node) as [class_name g1]. cbn [fst snd] in Hreg.
  destruct (String.eqb _ "TEXT"); [exact Hreg|].
  assert (Hcontainer :
            continues k g (snd (_generate_container_html
                                  visit (set_class class_name (_collect_styles node parent) g1)
                                  children node class_name depth))).
  { unfold _generate_container_html.
    specialize (Hloop (S depth) (set_class class_name (_collect_styles node parent) g1)).
    destruct (visit_children _ children _). cbn [snd] in *.
    eapply continues_trans; eassumption. }
  destruct (PyStr.mem _ ["FRAME"; _; _; _]); [exact Hcontainer|].
  destruct (PyStr.mem _ _); [|exact Hcontainer].
  unfold _generate_shape_html. destruct children as [|c children]; [exact Hreg|].
  specialize (Hloop (S depth) (set_class class_name (_collect_styles node parent) g1)).
  destruct (visit_children _ (c :: children) _). cbn [snd] in *.
  exact (continues_trans _ _ _ _ Hreg Hloop).
Qed.

(** The visit of a visible node that is not structural registers its
    class, under the name the counter gives, with its merged styles. *)
Lemma visit_registers : forall node children g parent depth,
  is_structural (get_or EmptyString (a_type node)) = false ->
  get_or true (a_visible node) = true ->
  0 <= class_counter g ->
  dict_get (ClassNames.class_name_at node (class_counter g + 1))
           (css_classes (snd (_generate_node_html g (Node node children) parent depth)))
  = Some (_collect_styles node parent).
Proof.
  intros node children g parent depth Hstruct Hvisible Hcounter.
  set (k := ClassNames.class_name_at node (class_counter g + 1)).
  set (g2 := set_class k (_collect_styles node parent) (snd (_generate_class_name g node))).
  assert (Hg2 : dict_get k (css_classes g2) = Some (_collect_styles node parent))
    by apply dict_get_set_same.
  assert (Hfresh : forall node' c, class_counter g2 < c ->
                                   ClassNames.class_name_at node' c <> k).
  { intros node' c Hc E. unfold g2 in Hc.
    cbn [set_class class_counter _generate_class_name snd] in Hc.
    apply ClassNames.class_name_at_inj in E; lia. }
  assert (Hloop : forall d,
             dict_get k (css_classes
                           (snd (visit_children (fun child => visit child (Some node) d)
                                                children g2)))
             = Some (_collect_styles node parent)).
  { intros d. rewrite <- Hg2.
    apply (visit_children_carries (continues k)).
    - apply continues_refl.
    - apply continues_trans.
    - apply Forall_forall. intros c _ g0. apply visit_continues.
    - exact Hfresh. }
  rewrite generate_node_html_unfold. cbn zeta. rewrite Hstruct, Hvisible. cbn [negb].
  rewrite ClassNames.generate_class_name_eq. fold k.
  change (set_class k (_collect_styles node parent) _) with g2.
  destruct (String.eqb _ "TEXT"); [exact Hg2|].
  assert (Hcontainer :
            dict_get k (css_classes (snd (_generate_container_html visit g2 children node
                                                                   k depth)))
            = Some (_collect_styles node parent)).
  { unfold _generate_container_html. specialize (Hloop (S depth)).
    destruct (visit_children _ children g2). exact Hloop. }
  destruct (PyStr.mem _ ["FRAME"; _; _; _]); [exact Hcontainer|].
  destruct (PyStr.mem _ _); [|exact Hcontainer].
  unfold _generate_shape_html. destruct children as [|c children]; [exact Hg2|].
  specialize (Hloop (S depth)). destruct (visit_children _ (c :: children) g2). exact Hloop.
Qed.

(** A child whose visit returns nothing and leaves the generator as it
    was can be taken out of the list the loop runs over. *)
Lemma visit_children_skips :
  forall (v : node -> generator -> string * generator) (n : node),
    (forall g, v n g = (EmptyString, g)) ->
    forall before after g,
      visit_children v (before ++ n :: after) g = visit_children v (before ++ after) g.
Proof.
  intros v n Hn before after. induction before as [|c before IH]; intros g; simpl.
  - rewrite Hn. destruct (visit_children v after g). reflexivity.
  - destruct (v c g) as [h g1]. rewrite IH. reflexivity.
Qed.

(** An item with no styles adds nothing to the stylesheet. *)
Lemma generate_css_skips_empty : forall classes1 classes2 class_name counter,
  _generate_css {| css_classes := classes1 ++ (class_name, []) :: classes2;
                   class_counter := counter |}
  = _generate_css {| css_classes := classes1 ++ classes2; class_counter := counter |}.
Proof.
  intros classes1 classes2 class_name counter. unfold _generate_css. cbn [css_classes].
  rewrite !flat_map_app. reflexivity.
Qed.

End WithBuiltins.
End Walk.

Import HTMLGenerator.

Lemma not_structural : forall node : attrs,
  a_type node <> Some "DOCUMENT" -> a_type node <> Some "CANVAS" ->
  is_structural (get_or EmptyString (a_type node)) = false.
Proof.
  intros node Hdoc Hcanvas. unfold is_structural, PyStr.mem.
  destruct (a_type node) as [t|]; [|reflexivity]. cbn [get_or existsb].
  destruct (String.eqb_spec t "DOCUMENT") as [->|_]; [congruence|].
  destruct (String.eqb_spec t "CANVAS") as [->|_]; [congruence|]. reflexivity.
Qed.

(** ** Hidden nodes (C3) *)

(** C3, as the code has it. A node with visible=false that is neither a
    DOCUMENT nor a CANVAS yields no markup and leaves the generator as it
    was (no class name is allocated, no entry registered), whatever its
    descendants are; the walk over its siblings is the same as if the
    node were absent. *)
Theorem C3_hidden_node_contributes_nothing :
  forall (B : Builtins) (children : list node) (node : attrs),
    a_type node <> Some "DOCUMENT" ->
    a_type node <> Some "CANVAS" ->
    a_visible node = Some false ->
    (forall g parent depth,
        _generate_node_html g (Node node children) parent depth = (EmptyString, g))
    /\ (forall g parent depth before after,
           visit_children (fun child => Walk.visit child parent depth)
                          (before ++ Node node children :: after) g
           = visit_children (fun child => Walk.visit child parent depth)
                            (before ++ after) g).
Proof.
  intros B children node Hdoc Hcanvas Hhidden.
  assert (Hvisit : forall g parent depth,
             _generate_node_html g (Node node children) parent depth = (EmptyString, g)).
  { intros g parent depth. rewrite Walk.generate_node_html_unfold. cbn zeta.
    rewrite (not_structural node Hdoc Hcanvas), Hhidden. reflexivity. }
  split; [exact Hvisit|].
  intros g parent depth before after. apply Walk.visit_children_skips.
  intros g0. apply Hvisit.
Qed.

(** A hidden frame with a visible child:
    [{type: FRAME, visible: false, children: [{type: RECTANGLE}]}]. *)
Definition hidden_frame : node :=
  Node (Doc.with_visible false (Doc.typed "FRAME")) [Node (Doc.typed "RECTANGLE") []].

Lemma C3_witness :
  _generate_node_html (B := CPython.builtins) __init__ hidden_frame None 0
  = (EmptyString, __init__).
Proof.
  apply (C3_hidden_node_contributes_nothing CPython.builtins
           [Node (Doc.typed "RECTANGLE") []] (Doc.with_visible false (Doc.typed "FRAME")));
    [discriminate | discriminate | reflexivity].
Defined.

(** A page that is a CANVAS with visible=false, holding one rectangle:
    [{document: {children: [{type: CANVAS, visible: false,
                             children: [{type: RECTANGLE, name: r}]}]}}]. *)
Definition hidden_page_document : figma_data :=
  Build_figma_data
    (Some (Node (Doc.typed "DOCUMENT")
                [Node (Doc.with_visible false (Doc.typed "CANVAS"))
                      [Node (Doc.with_name "r" (Doc.typed "RECTANGLE")) []]])).

(** C3 as claimed fails: the rectangle below the hidden CANVAS is in the
    markup and has a rule block in the stylesheet. *)
Lemma C3_counterexample :
  convert (B := CPython.builtins) hidden_page_document
  = (_wrap_html (open_div "figma-r-1" ++ "</div>"),
     PyStr.join PyStr.nl
       [base_styles; ".figma-r-1 {"; "    position: absolute;"; "    left: 0px;";
        "    top: 0px;"; "}" ++ PyStr.nl])%string.
Proof. vm_compute. reflexivity. Qed.

(** ** Classes with no styles (C7) *)

(** [del d[key]]: the table without the item of [key]. *)
Fixpoint dict_del (key : string) (d : list (string * list string))
  : list (string * list string) :=
  match d with
  | [] => []
  | (k, v) :: rest => if String.eqb k key then rest else (k, v) :: dict_del key rest
  end.

Lemma rules_without_empty_item : forall key d,
  Walk.dict_get key d = Some [] ->
  flat_map rule_parts (dict_del key d) = flat_map rule_parts d.
Proof.
  intros key d. induction d as [|[k v] d IH]; simpl; [discriminate|].
  destruct (String.eqb k key).
  - intros [= ->]. reflexivity.
  - intros H. simpl. rewrite (IH H). reflexivity.
Qed.

(** C7, as the code has it. A visited, visible node that is not
    structural and whose merged style list is empty is registered all the
    same: after its visit the side table maps its class to the empty
    list.  The stylesheet has no rule block for it: it is the stylesheet
    of the table without that item. *)
Theorem C7_empty_styles_registered_but_not_serialized :
  forall (B : Builtins) (g : generator) (children : list node) (node : attrs)
         (parent : option attrs) (depth : nat),
    a_type node <> Some "DOCUMENT" ->
    a_type node <> Some "CANVAS" ->
    get_or true (a_visible node) = true ->
    0 <= class_counter g ->
    _collect_styles node parent = [] ->
    let class_name := fst (_generate_class_name g node) in
    let g' := snd (_generate_node_html g (Node node children) parent depth) in
    Walk.dict_get class_name (css_classes g') = Some []
    /\ _generate_css g'
       = _generate_css {| css_classes := dict_del class_name (css_classes g');
                          class_counter := class_counter g' |}.
Proof.
  intros B g children node parent depth Hdoc Hcanvas Hvisible Hcounter Hempty.
  cbv zeta.
  assert (Hget : Walk.dict_get (fst (_generate_class_name g node))
                   (css_classes (snd (_generate_node_html g (Node node children)
                                                          parent depth)))
                 = Some []).
  { rewrite <- Hempty. rewrite ClassNames.generate_class_name_eq. cbn [fst].
    apply Walk.visit_registers; [apply not_structural| |]; assumption. }
  split; [exact Hget|].
  unfold _generate_css. cbn [css_classes].
  rewrite (rules_without_empty_item _ _ Hget). reflexivity.
Qed.

(** A horizontal auto-layout frame holding a rectangle that has a name
    and nothing else:
    [{document: {children: [{type: CANVAS, children:
       [{type: FRAME, name: row, layoutMode: HORIZONTAL,
         children: [{type: RECTANGLE, name: r}]}]}]}}]. *)
Definition row_frame : attrs :=
  Doc.with_layoutMode "HORIZONTAL" (Doc.with_name "row" (Doc.typed "FRAME")).
Definition bare_rectangle : attrs := Doc.with_name "r" (Doc.typed "RECTANGLE").
Definition row_document : figma_data :=
  Build_figma_data
    (Some (Node (Doc.typed "DOCUMENT")
                [Node (Doc.typed "CANVAS") [Node row_frame [Node bare_rectangle []]]])).

Lemma C7_witness :
  let g := {| css_classes := [("figma-row-1", ["display: flex;"])]; class_counter := 1 |} in
  Walk.dict_get "figma-r-2"
    (css_classes (snd (_generate_node_html (B := CPython.builtins) g
                                           (Node bare_rectangle []) (Some row_frame) 1)))
  = Some [].
Proof.
  cbv zeta.
  apply (C7_empty_styles_registered_but_not_serialized CPython.builtins
           {| css_classes := [("figma-row-1", ["display: flex;"])]; class_counter := 1 |}
           [] bare_rectangle (Some row_frame) 1%nat);
    [discriminate | discriminate | reflexivity | discriminate | reflexivity].
Defined.

(** C7 as claimed fails: after the conversion of [row_document] the side
    table holds an entry for the rectangle's class, with no styles. *)
Lemma C7_counterexample :
  css_classes (snd (generate_html_css (B := CPython.builtins) __init__ row_document))
  = [("figma-row-1",
      ["display: flex;"; "flex-direction: row;"; "justify-content: flex-start;";
       "align-items: flex-start;"; "position: absolute;"; "left: 0px;"; "top: 0px;"]);
     ("figma-r-2", [])].
Proof. vm_compute. reflexivity. Qed.

(** ** Positions relative to the parent (C6) *)

Section Positions.
Context {B : Builtins}.

Definition origin_x (box : option bounding_box) : pynum :=
  get_or (PInt 0) (bb_x (get_or no_box box)).
Definition origin_y (box : option bounding_box) : pynum :=
  get_or (PInt 0) (bb_y (get_or no_box box)).

(** The three declarations of an absolutely positioned element. *)
Definition absolute_at (x y : pynum) : list string :=
  ["position: absolute;";
   ("left: " ++ py_str x ++ "px;")%string;
   ("top: " ++ py_str y ++ "px;")%string].

Lemma position_styles_in_merged_list : forall node parent,
  incl (LayoutConverter.get_position_styles node parent)
       (_collect_styles node parent).
Proof.
  intros node parent. rewrite collect_styles_shape.
  assert (H : incl (LayoutConverter.get_position_styles node parent)
                   (layout_and_visual node parent)).
  { unfold layout_and_visual. apply incl_appr. apply incl_appl. apply incl_refl. }
  destruct (String.eqb _ "TEXT"); [|exact H].
  apply incl_appl. apply incl_appl. exact H.
Qed.

End Positions.

(** C6, as the code has it. A node placed absolutely under a parent that
    has an absoluteBoundingBox gets the difference of the two origins as
    left and top; under a parent without one, as when there is no parent,
    it gets its own origin in document space.  Either way the three
    declarations are part of its merged style list. *)
Theorem C6_position_relative_to_boxed_parent :
  forall (B : Builtins) (node parent : attrs),
    LayoutConverter.is_auto_layout (a_layoutMode parent) = false ->
    (forall parent_box,
        a_absoluteBoundingBox parent = Some parent_box ->
        LayoutConverter.get_position_styles node (Some parent)
        = absolute_at (py_sub (origin_x (a_absoluteBoundingBox node))
                              (get_or (PInt 0) (bb_x parent_box)))
                      (py_sub (origin_y (a_absoluteBoundingBox node))
                              (get_or (PInt 0) (bb_y parent_box))))
    /\ (a_absoluteBoundingBox parent = None ->
        LayoutConverter.get_position_styles node (Some parent)
        = absolute_at (origin_x (a_absoluteBoundingBox node))
                      (origin_y (a_absoluteBoundingBox node)))
    /\ LayoutConverter.get_position_styles node None
       = absolute_at (origin_x (a_absoluteBoundingBox node))
                     (origin_y (a_absoluteBoundingBox node))
    /\ incl (LayoutConverter.get_position_styles node (Some parent))
            (_collect_styles node (Some parent)).
Proof.
  intros B node parent Hflow. unfold LayoutConverter.get_position_styles.
  rewrite Hflow. repeat split.
  - intros parent_box ->. reflexivity.
  - intros ->. reflexivity.
  - pose proof (position_styles_in_merged_list node (Some parent)) as H.
    unfold LayoutConverter.get_position_styles in H. rewrite Hflow in H. exact H.
Qed.

(** A frame at (10, 20) on a CANVAS page, holding a rectangle at (15, 27). *)
Definition canvas_page : attrs := Doc.typed "CANVAS".
Definition top_frame : attrs :=
  Doc.with_absoluteBoundingBox (Doc.box 10 20 100 80) (Doc.with_name "top" (Doc.typed "FRAME")).
Definition inner_rectangle : attrs :=
  Doc.with_absoluteBoundingBox (Doc.box 15 27 30 30) (Doc.with_name "in" (Doc.typed "RECTANGLE")).
Definition canvas_document : figma_data :=
  Build_figma_data
    (Some (Node (Doc.typed "DOCUMENT")
                [Node canvas_page [Node top_frame [Node inner_rectangle []]]])).

Lemma C6_witness :
  LayoutConverter.get_position_styles (B := CPython.builtins) inner_rectangle (Some top_frame)
  = ["position: absolute;"; "left: 5px;"; "top: 7px;"].
Proof.
  destruct (C6_position_relative_to_boxed_parent CPython.builtins inner_rectangle top_frame
              eq_refl) as [Hboxed _].
  rewrite (Hboxed (Doc.box 10 20 100 80) eq_refl). reflexivity.
Defined.

(** C6 as claimed fails: the frame is not the root page, its parent is
    the CANVAS page, and its left and top are its own document-space
    origin (10, 20); only the rectangle inside it is placed relative to
    its parent. *)
Lemma C6_counterexample :
  css_classes (snd (generate_html_css (B := CPython.builtins) __init__ canvas_document))
  = [("figma-top-1",
      ["position: absolute;"; "left: 10px;"; "top: 20px;"; "width: 100px;"; "height: 80px;"]);
     ("figma-in-2",
      ["position: absolute;"; "left: 5px;"; "top: 7px;"; "width: 30px;"; "height: 30px;"])].
Proof. vm_compute. reflexivity. Qed.

(** ** Repeated conversions (C2) *)

(** C2, as the code has it. The counter and the side table are set by
    the constructor and by nothing else: two generators as the
    constructor leaves them return the same pair for the same document,
    while [generate_html_css] itself resets nothing: it leaves the
    counter advanced by the number of classes the page needed and keeps
    every class name that was registered before the call. *)
Theorem C2_fresh_generators_agree_and_state_is_kept :
  forall (B : Builtins) (g1 g2 : generator) (data : figma_data),
    css_classes g1 = [] -> class_counter g1 = 0 ->
    css_classes g2 = [] -> class_counter g2 = 0 ->
    fst (generate_html_css g1 data) = fst (generate_html_css g2 data)
    /\ fst (generate_html_css g1 data) = convert data
    /\ (forall g : generator,
           class_counter (snd (generate_html_css g data))
           = class_counter g
             + match document_children data with
               | page :: _ => Walk.classes_of page
               | [] => 0
               end
           /\ incl (Walk.class_names g)
                   (Walk.class_names (snd (generate_html_css g data)))).
Proof.
  intros B [classes1 counter1] [classes2 counter2] data Hc1 Hn1 Hc2 Hn2.
  cbn [css_classes class_counter] in *. subst.
  split; [reflexivity|]. split; [reflexivity|].
  intros g. unfold generate_html_css, document_children.
  destruct (match fd_document data with Some d => n_children d | None => [] end)
    as [|page rest].
  - cbn [snd]. split; [lia | apply incl_refl].
  - pose proof (Walk.counter_after_visit page g None 0%nat) as Hcount.
    pose proof (Walk.visit_continues EmptyString page g None 0%nat) as [_ [Hkeys _]].
    destruct (_generate_node_html g page None 0) as [html g']. cbn [snd] in *.
    split; assumption.
Qed.

(** One rectangle on a CANVAS page. *)
Definition one_rectangle_document : figma_data :=
  Build_figma_data
    (Some (Node (Doc.typed "DOCUMENT")
                [Node (Doc.typed "CANVAS") [Node (Doc.with_name "r" (Doc.typed "RECTANGLE")) []]])).

Lemma C2_witness :
  fst (generate_html_css (B := CPython.builtins) __init__ one_rectangle_document)
  = fst (generate_html_css (B := CPython.builtins)
           {| css_classes := []; class_counter := 0 |} one_rectangle_document).
Proof.
  apply (C2_fresh_generators_agree_and_state_is_kept CPython.builtins __init__
           {| css_classes := []; class_counter := 0 |} one_rectangle_document);
    reflexivity.
Defined.

(** C2 as claimed fails when the conversion is run twice on one
    generator: the second call numbers its class 2 and its stylesheet
    still carries the rule of the first call. *)
Lemma C2_counterexample :
  let first := generate_html_css (B := CPython.builtins) __init__ one_rectangle_document in
  let second := generate_html_css (B := CPython.builtins) (snd first) one_rectangle_document in
  fst first
  = (_wrap_html (open_div "figma-r-1" ++ "</div>"),
     PyStr.join PyStr.nl
       [base_styles; ".figma-r-1 {"; "    position: absolute;"; "    left: 0px;";
        "    top: 0px;"; "}" ++ PyStr.nl])%string
  /\ fst second
     = (_wrap_html (open_div "figma-r-2" ++ "</div>"),
        PyStr.join PyStr.nl
          [base_styles; ".figma-r-1 {"; "    position: absolute;"; "    left: 0px;";
           "    top: 0px;"; "}" ++ PyStr.nl;
           ".figma-r-2 {"; "    position: absolute;"; "    left: 0px;";
           "    top: 0px;"; "}" ++ PyStr.nl])%string
  /\ fst first <> fst second.
Proof.
  cbv zeta. split; [vm_compute; reflexivity|]. split; [vm_compute; reflexivity|].
  intros H. apply (f_equal snd) in H. vm_compute in H. discriminate H.
Qed.

(** ** The angle of a linear gradient (C9) *)

(** A handle with both coordinates, as integers. *)
Definition handle (x y : Z) : point := Build_point (Some (PInt x)) (Some (PInt y)).

(** C9. With two handles or more the angle is the direction of
    handle[1] - handle[0], [atan2(dy, dx)] in degrees, plus 90; with
    fewer it is 180.  Given what the math library returns on the two
    axes, the handles (0,0),(1,0) give 90.0 and (0,0),(0,1) give 180.0.
    The angle is the one written, with one decimal, into the gradient. *)
Theorem C9_linear_gradient_angle :
  forall B : Builtins,
    math_degrees (math_atan2 0 1) = 0%float ->
    math_degrees (math_atan2 1 0) = 90%float ->
    (forall x1 y1 x2 y2 rest,
        StyleConverter.linear_gradient_angle
          (Build_point (Some x1) (Some y1) :: Build_point (Some x2) (Some y2) :: rest)
        = PFloat (math_degrees (math_atan2 (to_float (py_sub y2 y1))
                                           (to_float (py_sub x2 x1))) + 90)%float)
    /\ (forall handles,
           (List.length handles < 2)%nat ->
           StyleConverter.linear_gradient_angle handles = PInt 180)
    /\ StyleConverter.linear_gradient_angle [handle 0 0; handle 1 0] = PFloat 90
    /\ StyleConverter.linear_gradient_angle [handle 0 0; handle 0 1] = PFloat 180
    /\ (forall fill stop stops,
           pt_gradientStops fill = stop :: stops ->
           StyleConverter._convert_linear_gradient fill
           = Some ("linear-gradient("
                     ++ py_fixed1 (StyleConverter.linear_gradient_angle
                                     (pt_gradientHandlePositions fill))
                     ++ "deg, "
                     ++ PyStr.join ", " (StyleConverter.gradient_stops_css 100 "%"
                                           (stop :: stops))
                     ++ ")")%string).
Proof.
  intros B Hx Hy. repeat split.
  - intros [|h0 [|h1 rest]] Hlen; simpl in Hlen; [reflexivity | reflexivity | lia].
  - unfold StyleConverter.linear_gradient_angle, handle. cbn [get_or p_x p_y py_sub].
    change (to_float (PInt (0 - 0))) with 0%float.
    change (to_float (PInt (1 - 0))) with 1%float.
    rewrite Hx. reflexivity.
  - unfold StyleConverter.linear_gradient_angle, handle. cbn [get_or p_x p_y py_sub].
    change (to_float (PInt (0 - 0))) with 0%float.
    change (to_float (PInt (1 - 0))) with 1%float.
    rewrite Hy. reflexivity.
  - intros fill stop stops Hstops. unfold StyleConverter._convert_linear_gradient.
    rewrite Hstops. reflexivity.
Qed.

(** A red-to-blue gradient running along x. *)
Definition red : color := Build_color (Some (PInt 1)) (Some (PInt 0)) (Some (PInt 0)) (Some (PInt 1)).
Definition blue : color := Build_color (Some (PInt 0)) (Some (PInt 0)) (Some (PInt 1)) (Some (PInt 1)).
Definition horizontal_gradient : paint :=
  Build_paint (Some "GRADIENT_LINEAR") None None None
              [Build_gradient_stop (Some red) (Some (PInt 0));
               Build_gradient_stop (Some blue) (Some (PInt 1))]
              [handle 0 0; handle 1 0] None.

Lemma C9_witness :
  StyleConverter.linear_gradient_angle (B := CPython.builtins) [handle 0 0; handle 1 0]
  = PFloat 90
  /\ StyleConverter.linear_gradient_angle (B := CPython.builtins) [handle 0 0; handle 0 1]
     = PFloat 180
  /\ StyleConverter._convert_linear_gradient (B := CPython.builtins) horizontal_gradient
     = Some "linear-gradient(90.0deg, rgba(255, 0, 0, 1) 0.0%, rgba(0, 0, 255, 1) 100.0%)".
Proof.
  destruct (C9_linear_gradient_angle CPython.builtins eq_refl eq_refl)
    as [_ [_ [Hright [Hdown Htext]]]].
  split; [exact Hright|]. split; [exact Hdown|].
  rewrite (Htext horizontal_gradient _ _ eq_refl). vm_compute. reflexivity.
Defined.

(** ** Truncation of a channel scaled by 255

    The primitive product is specified by [SFmul] on the decoded
    operands; the bound below follows the rounding it performs. *)

Module FloatRange.

(** [float_trunc] on a decoded float. *)
Definition sf_trunc (x : spec_float) : Z :=
  match x with
  | S754_finite s m e =>
      let v := if 0 <=? e then Z.shiftl (Zpos m) e else Z.shiftr (Zpos m) (- e) in
      if s then - v else v
  | _ => 0
  end.

Lemma float_trunc_decoded : forall f, float_trunc f = sf_trunc (Prim2SF f).
Proof. reflexivity. Qed.

Lemma shr_1_halves : forall mrs, 0 <= shr_m mrs -> shr_m (shr_1 mrs) = shr_m mrs / 2.
Proof.
  intros [m r s] Hm. cbn [shr_m] in Hm. rewrite <- Z.div2_div.
  destruct m as [|[p|p|]|p]; try reflexivity. lia.
Qed.

Lemma iter_shr_1_divides : forall p mrs,
  0 <= shr_m mrs ->
  shr_m (iter_pos shr_1 p mrs) = shr_m mrs / 2 ^ Zpos p.
Proof.
  induction p as [p IH|p IH|]; intros mrs Hm; cbn [iter_pos].
  - assert (H1 : 0 <= shr_m (shr_1 mrs)).
    { rewrite shr_1_halves by exact Hm. apply Z.div_pos; lia. }
    assert (H2 : 0 <= shr_m (iter_pos shr_1 p (shr_1 mrs))).
    { rewrite IH by exact H1. apply Z.div_pos; [exact H1 | apply Z.pow_pos_nonneg; lia]. }
    rewrite IH by exact H2. rewrite IH by exact H1. rewrite shr_1_halves by exact Hm.
    rewrite !Z.div_div by (try apply Z.pow_pos_nonneg; lia).
    f_equal.
    assert (E : Zpos p~1 = 1 + Zpos p + Zpos p) by lia.
    rewrite E, !Z.pow_add_r by lia. rewrite Z.pow_1_r. ring.
  - assert (H1 : 0 <= shr_m (iter_pos shr_1 p mrs)).
    { rewrite IH by exact Hm. apply Z.div_pos; [exact Hm | apply Z.pow_pos_nonneg; lia]. }
    rewrite IH by exact H1. rewrite IH by exact Hm.
    rewrite !Z.div_div by (try apply Z.pow_pos_nonneg; lia).
    f_equal.
    assert (E : Zpos p~0 = Zpos p + Zpos p) by lia.
    rewrite E, !Z.pow_add_r by lia. ring.
  - rewrite shr_1_halves by exact Hm. reflexivity.
Qed.

(** A right shift by [n] places, when [n] is positive: the exponent
    moves up by as much and the mantissa is divided. *)
Lemma shr_divides : forall mrs e n,
  0 <= shr_m mrs ->
  snd (shr mrs e n) = e + Z.max n 0
  /\ shr_m (fst (shr mrs e n)) = shr_m mrs / 2 ^ Z.max n 0.
Proof.
  intros mrs e n Hm. destruct n as [|p|p]; cbn [shr fst snd Z.max Z.compare].
  - rewrite Z.add_0_r. split; [reflexivity|]. simpl. rewrite Z.div_1_r. reflexivity.
  - split; [reflexivity|]. apply iter_shr_1_divides. exact Hm.
  - rewrite Z.add_0_r. split; [reflexivity|]. simpl. rewrite Z.div_1_r. reflexivity.
Qed.

Lemma round_nearest_even_bounds : forall m l,
  m <= round_nearest_even m l <= m + 1.
Proof.
  intros m [|[| |]]; cbn [round_nearest_even]; try lia.
  destruct (Z.even m); lia.
Qed.

Lemma digits_are_size : forall p, digits2_pos p = Pos.size p.
Proof. induction p as [p IH|p IH|]; simpl; [rewrite IH | rewrite IH |]; reflexivity. Qed.

Lemma digits_of_small : forall (p : positive) (k : Z),
  0 <= k -> Zpos p < 2 ^ k -> Zpos (digits2_pos p) <= k.
Proof.
  intros p k Hk Hp.
  rewrite digits_are_size.
  pose proof (Pos.size_le p) as Hle.
  assert (H2 : 2 ^ Zpos (Pos.size p) <= 2 * Zpos p).
  { rewrite <- Pos2Z.inj_pow. change (2 * Zpos p) with (Zpos (p~0)).
    apply Pos2Z.pos_le_pos. exact Hle. }
  destruct (Z_lt_le_dec k (Zpos (Pos.size p))) as [Hlt|Hge]; [|exact Hge].
  exfalso.
  assert (H3 : 2 ^ (k + 1) <= 2 ^ Zpos (Pos.size p)) by (apply Z.pow_le_mono_r; lia).
  rewrite Z.pow_add_r in H3 by lia. lia.
Qed.

Lemma large_digits : forall p : positive, 2 ^ Zpos (digits2_pos p) <= 2 * Zpos p.
Proof.
  intros p.
  rewrite digits_are_size, <- Pos2Z.inj_pow. change (2 * Zpos p) with (Zpos (p~0)).
  apply Pos2Z.pos_le_pos. apply Pos.size_le.
Qed.

Lemma small_digits : forall p : positive, Zpos p < 2 ^ Zpos (digits2_pos p).
Proof.
  intros p.
  rewrite digits_are_size, <- Pos2Z.inj_pow. apply Pos2Z.pos_lt_pos. apply Pos.size_gt.
Qed.

Lemma sf_trunc_below : forall (m : positive) (e : Z) (u : Z),
  0 <= u -> 0 <= e + u ->
  Zpos m * 2 ^ (e + u) < 256 * 2 ^ u ->
  0 <= sf_trunc (S754_finite false m e) <= 255.
Proof.
  intros m e u Hu Heu Hlt. cbn [sf_trunc].
  destruct (Z.leb_spec 0 e) as [He|He].
  - rewrite Z.shiftl_mul_pow2 by exact He.
    rewrite Z.pow_add_r in Hlt by lia.
    assert (Hpow : 0 < 2 ^ u) by (apply Z.pow_pos_nonneg; lia).
    assert (Hpe : 0 < 2 ^ e) by (apply Z.pow_pos_nonneg; lia).
    assert (Hv : Zpos m * 2 ^ e < 256) by nia.
    nia.
  - rewrite Z.shiftr_div_pow2 by lia.
    assert (Hsplit : 2 ^ u = 2 ^ (e + u) * 2 ^ (- e)).
    { rewrite <- Z.pow_add_r by lia. f_equal. lia. }
    assert (Hp1 : 0 < 2 ^ (e + u)) by (apply Z.pow_pos_nonneg; lia).
    assert (Hp2 : 0 < 2 ^ (- e)) by (apply Z.pow_pos_nonneg; lia).
    rewrite Hsplit in Hlt.
    assert (Hm : Zpos m < 256 * 2 ^ (- e)) by nia.
    split.
    + apply Z.div_pos; lia.
    + assert (Hd : Zpos m / 2 ^ (- e) < 256) by (apply Z.div_lt_upper_bound; lia).
      lia.
Qed.

(** Rounding a positive value below 255 to a double gives a double
    whose integer part is at most 255. *)
Lemma round_below_256 : forall (mx : positive) (ex : Z),
  ex <= 0 ->
  Zpos mx < 255 * 2 ^ (- ex) ->
  0 <= sf_trunc (binary_round_aux prec emax false (Zpos mx) ex loc_Exact) <= 255.
Proof.
  intros mx ex Hex Hmx. unfold binary_round_aux, shr_fexp.
  set (n1 := fexp prec emax (Zdigits2 (Zpos mx) + ex) - ex).
  destruct (shr_divides (shr_record_of_loc (Zpos mx) loc_Exact) ex n1) as [He1 Hm1];
    [cbn; lia|].
  destruct (shr (shr_record_of_loc (Zpos mx) loc_Exact) ex n1) as [mrs1 e1].
  cbn [fst snd shr_record_of_loc shr_m] in He1, Hm1.
  set (k1 := Z.max n1 0) in *.
  assert (Hk1 : 0 <= k1) by lia.
  assert (Hp1 : 0 < 2 ^ k1) by (apply Z.pow_pos_nonneg; lia).
  assert (Hm1pos : 0 <= shr_m mrs1) by (rewrite Hm1; apply Z.div_pos; lia).
  pose proof (round_nearest_even_bounds (shr_m mrs1) (loc_of_shr_record mrs1)) as Hround.
  set (P := round_nearest_even (shr_m mrs1) (loc_of_shr_record mrs1)) in *.
  set (n2 := fexp prec emax (Zdigits2 P + e1) - e1).
  destruct (shr_divides (shr_record_of_loc P loc_Exact) e1 n2) as [He2 Hm2];
    [cbn; lia|].
  destruct (shr (shr_record_of_loc P loc_Exact) e1 n2) as [mrs2 e2].
  cbn [fst snd shr_record_of_loc shr_m] in He2, Hm2.
  set (k2 := Z.max n2 0) in *.
  assert (Hk2 : 0 <= k2) by lia.
  assert (Hp2 : 0 < 2 ^ k2) by (apply Z.pow_pos_nonneg; lia).
  (* the first exponent is not positive *)
  assert (Hd : Zdigits2 (Zpos mx) <= 8 - ex).
  { cbn [Zdigits2]. apply digits_of_small; [lia|].
    replace (8 - ex) with (8 + - ex) by lia.
    rewrite Z.pow_add_r by lia. change (2 ^ 8) with 256.
    assert (0 < 2 ^ (- ex)) by (apply Z.pow_pos_nonneg; lia). lia. }
  assert (He1neg : e1 <= 0).
  { subst e1 k1 n1. unfold fexp, emin. change prec with 53. change emax with 1024. lia. }
  destruct (shr_m mrs2) as [|m2|m2] eqn:Em2; [cbn; lia| |cbn; lia].
  destruct (e2 <=? emax - prec); [|cbn; lia].
  (* the bound on the rounded mantissa *)
  assert (H1 : shr_m mrs1 * 2 ^ k1 <= Zpos mx).
  { rewrite Hm1, Z.mul_comm. apply Z.mul_div_le. exact Hp1. }
  assert (H2 : Zpos m2 * 2 ^ k2 <= P).
  { rewrite Hm2, Z.mul_comm. apply Z.mul_div_le. exact Hp2. }
  assert (Hk1le : k1 <= - ex) by lia.
  assert (Hpk : 2 ^ k1 <= 2 ^ (- ex)) by (apply Z.pow_le_mono_r; lia).
  apply (sf_trunc_below m2 e2 (- ex)); [lia | lia |].
  replace (e2 + - ex) with (k2 + k1) by lia.
  rewrite Z.pow_add_r by lia.
  assert (H3 : Zpos m2 * 2 ^ k2 * 2 ^ k1 <= (shr_m mrs1 + 1) * 2 ^ k1) by nia.
  nia.
Qed.

Definition sf_one : spec_float := S754_finite false 4503599627370496 (-52).
Definition sf_255 : spec_float := S754_finite false 8972014882652160 (-45).

Lemma decode_one : Prim2SF 1%float = sf_one.
Proof. reflexivity. Qed.
Lemma decode_255 : Prim2SF (float_of_Z 255) = sf_255.
Proof. vm_compute. reflexivity. Qed.
Lemma decode_zero : Prim2SF 0%float = S754_zero false.
Proof. reflexivity. Qed.

(** A valid double between 0 and 1, scaled by 255 and truncated, is
    between 0 and 255. *)
Lemma scaled_unit_range : forall x : spec_float,
  valid_binary x = true ->
  SFleb (S754_zero false) x = true ->
  SFleb x sf_one = true ->
  0 <= sf_trunc (SF64mul x sf_255) <= 255.
Proof.
  intros x Hvalid Hlow Hhigh.
  destruct x as [s| [|] | |s m e]; try discriminate; try (cbn; lia).
  destruct s; [discriminate|].
  unfold SFleb, SFcompare, sf_one in Hhigh.
  cbn [valid_binary] in Hvalid. unfold bounded, canonical_mantissa in Hvalid.
  apply andb_true_iff in Hvalid. destruct Hvalid as [Hcanon _].
  apply Z.eqb_eq in Hcanon. unfold fexp, emin in Hcanon.
  change prec with 53 in Hcanon. change emax with 1024 in Hcanon.
  pose proof (small_digits m) as Hsmall.
  pose proof (large_digits m) as Hlarge.
  assert (Hdig : Zpos (digits2_pos m) <= 53) by lia.
  assert (Hm53 : Zpos m < 2 ^ 53).
  { eapply Z.lt_le_trans; [exact Hsmall|]. apply Z.pow_le_mono_r; lia. }
  unfold SF64mul, SFmul, sf_255. cbn [xorb].
  destruct (Z.compare_spec e (-52)) as [Heq|Hlt|Hgt]; [| |discriminate].
  - (* e = -52: the double is 1 *)
    subst e.
    assert (Hdig53 : Zpos (digits2_pos m) = 53) by lia.
    rewrite Hdig53 in Hlarge. change (2 ^ 53) with (2 * 4503599627370496) in Hlarge.
    assert (Hle : (m <= 4503599627370496)%positive).
    { unfold Pos.le. destruct (Pos.compare_cont Eq m 4503599627370496) eqn:E;
        try discriminate; unfold Pos.compare; rewrite E; discriminate. }
    assert (Hge : (4503599627370496 <= m)%positive).
    { apply Pos2Z.pos_le_pos. clear - Hlarge. lia. }
    assert (Hm : m = 4503599627370496%positive) by (apply Pos.le_antisym; assumption).
    subst m. vm_compute. split; discriminate.
  - (* e < -52: the double is below 1 *)
    apply round_below_256; [lia|].
    rewrite Pos2Z.inj_mul.
    replace (- (e + -45)) with (45 + - e) by lia.
    rewrite Z.pow_add_r by lia.
    assert (Hpow : 2 ^ 53 <= 2 ^ (- e)) by (apply Z.pow_le_mono_r; lia).
    change (Zpos 8972014882652160) with (255 * 2 ^ 45).
    assert (0 < 2 ^ 45) by (apply Z.pow_pos_nonneg; lia).
    nia.
Qed.

(** The same on primitive floats: [int(f * 255)] for [0 <= f <= 1]. *)
Lemma float_channel_range : forall f : float,
  PrimFloat.leb 0 f = true ->
  PrimFloat.leb f 1 = true ->
  0 <= float_trunc (f * float_of_Z 255)%float <= 255.
Proof.
  intros f Hlow Hhigh. rewrite float_trunc_decoded, mul_spec, decode_255.
  rewrite leb_spec, decode_zero in Hlow. rewrite leb_spec, decode_one in Hhigh.
  apply scaled_unit_range; [apply Prim2SF_valid | exact Hlow | exact Hhigh].
Qed.

(** A channel in the unit interval. *)
Definition in_unit_interval (x : pynum) : bool :=
  match x with
  | PInt z => (0 <=? z) && (z <=? 1)
  | PFloat f => PrimFloat.leb 0 f && PrimFloat.leb f 1
  end.

Lemma channel_range : forall x : pynum,
  in_unit_interval x = true ->
  0 <= py_int (py_mul x (PInt 255)) <= 255.
Proof.
  intros [z|f] H; cbn [in_unit_interval] in H; apply andb_true_iff in H; destruct H as [H0 H1].
  - cbn [py_mul py_int]. lia.
  - cbn [py_mul py_int to_float]. apply float_channel_range; assumption.
Qed.

End FloatRange.

(** ** The alpha of a SOLID fill under a paint opacity

    [get_background_styles] scales the alpha on the text of the colour:
    it removes [rgba(] and [)], splits at the commas, reads the fourth
    part back as a float, multiplies, and joins the parts again. *)

Module AlphaText.

(** Every character of [s] passes [p]. *)
Fixpoint all_chars (p : ascii -> bool) (s : string) : bool :=
  match s with
  | EmptyString => true
  | String c rest => p c && all_chars p rest
  end.

Lemma all_chars_app : forall p s t,
  all_chars p (s ++ t)%string = all_chars p s && all_chars p t.
Proof.
  intros p s t. induction s as [|c s IH]; simpl; [reflexivity|].
  rewrite IH, andb_assoc. reflexivity.
Qed.

Lemma all_chars_weaken : forall (p q : ascii -> bool) s,
  (forall c, p c = true -> q c = true) -> all_chars p s = true -> all_chars q s = true.
Proof.
  intros p q s Hpq. induction s as [|c s IH]; simpl; [reflexivity|].
  intros H. apply andb_true_iff in H. destruct H as [Hc Hs].
  rewrite (Hpq c Hc), (IH Hs). reflexivity.
Qed.

Lemma append_assoc : forall s t u : string, ((s ++ t) ++ u = s ++ (t ++ u))%string.
Proof.
  intros s t u. induction s as [|c s IH]; simpl; [reflexivity|]. rewrite IH. reflexivity.
Qed.

(** A character that the surgery on the colour text leaves alone: not
    the [r] that starts [rgba(], not [)], not a comma, not white space. *)
Definition plain (c : ascii) : bool :=
  negb (Ascii.eqb c "r" || Ascii.eqb c ")" || Ascii.eqb c "," || PyStr.is_space c).

Definition plain_text (s : string) : bool := all_chars plain s.

Definition sign_or_digit (c : ascii) : bool := PyStr.is_digit c || Ascii.eqb c "-".

Lemma uint_text_digits : forall d, all_chars PyStr.is_digit (NilEmpty.string_of_uint d) = true.
Proof. induction d; simpl; auto. Qed.

Lemma of_Z_sign_or_digits : forall z, all_chars sign_or_digit (PyStr.of_Z z) = true.
Proof.
  intros z. unfold PyStr.of_Z.
  assert (Hu : forall d, all_chars sign_or_digit (NilZero.string_of_uint d) = true).
  { intros d. unfold NilZero.string_of_uint.
    assert (H : all_chars sign_or_digit (NilEmpty.string_of_uint d) = true).
    { apply (all_chars_weaken PyStr.is_digit); [|apply uint_text_digits].
      intros c Hc. unfold sign_or_digit. rewrite Hc. reflexivity. }
    destruct d; first [exact H | reflexivity]. }
  destruct (Z.to_int z) as [d|d]; simpl; [apply Hu | apply Hu].
Qed.

Lemma digit_is_plain : forall c, sign_or_digit c = true -> plain c = true.
Proof.
  intros c. unfold sign_or_digit, plain, PyStr.is_digit, PyStr.is_space.
  destruct c as [[|] [|] [|] [|] [|] [|] [|] [|]]; vm_compute; intros H; congruence.
Qed.

Lemma of_Z_plain : forall z, plain_text (PyStr.of_Z z) = true.
Proof.
  intros z. apply (all_chars_weaken sign_or_digit); [exact digit_is_plain|].
  apply of_Z_sign_or_digits.
Qed.

(** [replace] finds nothing to do in a text without the first character
    of [old]. *)
Lemma replace_without_first_char : forall (c0 : ascii) (old new s : string),
  all_chars (fun c => negb (Ascii.eqb c c0)) s = true ->
  PyStr.replace_from (String c0 old) new 0 s = s.
Proof.
  intros c0 old new s. induction s as [|c s IH]; simpl; [reflexivity|].
  intros H. apply andb_true_iff in H. destruct H as [Hc Hs].
  destruct (Ascii.ascii_dec c0 c) as [E|_].
  - subst c. rewrite Ascii.eqb_refl in Hc. discriminate.
  - rewrite (IH Hs). reflexivity.
Qed.

(** Removing [)] from a text that has one only at its end. *)
Lemma remove_closing_paren : forall body,
  all_chars (fun c => negb (Ascii.eqb c ")")) body = true ->
  PyStr.replace ")" EmptyString (body ++ ")")%string = body.
Proof.
  unfold PyStr.replace. induction body as [|c body IH]; intros H.
  - reflexivity.
  - simpl in H. apply andb_true_iff in H. destruct H as [Hc Hs].
    cbn [append PyStr.replace_from String.prefix].
    destruct (Ascii.ascii_dec ")" c) as [E|_].
    + subst c. discriminate.
    + change (String.length ")" - 1)%nat with 0%nat. rewrite (IH Hs). reflexivity.
Qed.

Lemma split_no_separator : forall sep s,
  all_chars (fun c => negb (Ascii.eqb c sep)) s = true ->
  PyStr.split sep s = [s].
Proof.
  intros sep s. induction s as [|c s IH]; simpl; [reflexivity|].
  intros H. apply andb_true_iff in H. destruct H as [Hc Hs].
  apply negb_true_iff in Hc. rewrite Hc, (IH Hs). reflexivity.
Qed.

Lemma split_at_first_separator : forall sep s t,
  all_chars (fun c => negb (Ascii.eqb c sep)) s = true ->
  PyStr.split sep (s ++ String sep t)%string = s :: PyStr.split sep t.
Proof.
  intros sep s t. induction s as [|c s IH]; simpl.
  - intros _. rewrite Ascii.eqb_refl. reflexivity.
  - intros H. apply andb_true_iff in H. destruct H as [Hc Hs].
    apply negb_true_iff in Hc. rewrite Hc, (IH Hs). reflexivity.
Qed.

Lemma rstrip_no_space : forall s,
  all_chars (fun c => negb (PyStr.is_space c)) s = true -> PyStr.rstrip s = s.
Proof.
  induction s as [|c s IH]; simpl; [reflexivity|].
  intros H. apply andb_true_iff in H. destruct H as [Hc Hs].
  apply negb_true_iff in Hc. rewrite (IH Hs), Hc. destruct s; reflexivity.
Qed.

Lemma strip_after_space : forall s,
  all_chars (fun c => negb (PyStr.is_space c)) s = true ->
  PyStr.strip (String " " s) = s.
Proof.
  intros s H. unfold PyStr.strip. cbn [PyStr.lstrip].
  change (PyStr.is_space " ") with true. cbv iota.
  assert (Hl : PyStr.lstrip s = s).
  { destruct s as [|c s]; [reflexivity|]. simpl in H |- *.
    apply andb_true_iff in H. destruct H as [Hc _].
    apply negb_true_iff in Hc. rewrite Hc. reflexivity. }
  rewrite Hl. apply rstrip_no_space. exact H.
Qed.

Lemma plain_parts : forall s,
  plain_text s = true ->
  all_chars (fun c => negb (Ascii.eqb c "r")) s = true
  /\ all_chars (fun c => negb (Ascii.eqb c ")")) s = true
  /\ all_chars (fun c => negb (Ascii.eqb c ",")) s = true
  /\ all_chars (fun c => negb (PyStr.is_space c)) s = true.
Proof.
  intros s H. unfold plain_text in H.
  repeat split; apply (all_chars_weaken plain); try exact H;
    intros c Hc; unfold plain in Hc; apply negb_true_iff in Hc;
    apply orb_false_iff in Hc; destruct Hc as [Hc Hsp];
    apply orb_false_iff in Hc; destruct Hc as [Hc Hcomma];
    apply orb_false_iff in Hc; destruct Hc as [Hr Hparen];
    apply negb_true_iff; assumption.
Qed.

Lemma replace_leading_rgba : forall rest,
  PyStr.replace "rgba(" EmptyString ("rgba(" ++ rest)%string
  = PyStr.replace_from "rgba(" EmptyString 0 rest.
Proof. intros rest. unfold PyStr.replace. simpl. destruct rest; reflexivity. Qed.

Section WithBuiltins.
Context {B : Builtins}.

(** The surgery on a colour text whose four components are plain: the
    three channels stay, a comma without a space follows, and the alpha
    is the product of the alpha read back and the opacity. *)
Lemma scale_alpha_of_plain_text : forall (r g b a : string) (opacity : pynum),
  plain_text r = true -> plain_text g = true -> plain_text b = true ->
  plain_text a = true ->
  StyleConverter.scale_alpha
    ("rgba(" ++ r ++ ", " ++ g ++ ", " ++ b ++ ", " ++ a ++ ")")%string opacity
  = ("rgba(" ++ r ++ ", " ++ g ++ ", " ++ b ++ ","
             ++ py_str (py_mul (PFloat (float_parse a)) opacity) ++ ")")%string.
Proof.
  intros r g b a opacity Hr Hg Hb Ha.
  destruct (plain_parts r Hr) as [Hr1 [Hr2 [Hr3 _]]].
  destruct (plain_parts g Hg) as [Hg1 [Hg2 [Hg3 _]]].
  destruct (plain_parts b Hb) as [Hb1 [Hb2 [Hb3 _]]].
  destruct (plain_parts a Ha) as [Ha1 [Ha2 [Ha3 Ha4]]].
  assert (Hrest : ("rgba(" ++ r ++ ", " ++ g ++ ", " ++ b ++ ", " ++ a ++ ")")%string
                  = ("rgba(" ++ (r ++ ", " ++ g ++ ", " ++ b ++ ", " ++ a) ++ ")")%string).
  { cbn [append]. repeat (rewrite append_assoc; cbn [append]). reflexivity. }
  unfold StyleConverter.scale_alpha. rewrite Hrest.
  set (body := (r ++ ", " ++ g ++ ", " ++ b ++ ", " ++ a)%string).
  assert (Hbody_r : all_chars (fun c => negb (Ascii.eqb c "r")) body = true).
  { unfold body. rewrite !all_chars_app, Hr1, Hg1, Hb1, Ha1. reflexivity. }
  assert (Hbody_p : all_chars (fun c => negb (Ascii.eqb c ")")) body = true).
  { unfold body. rewrite !all_chars_app, Hr2, Hg2, Hb2, Ha2. reflexivity. }
  assert (Hstep1 : PyStr.replace "rgba(" EmptyString ("rgba(" ++ body ++ ")")%string
                   = (body ++ ")")%string).
  { rewrite replace_leading_rgba. apply replace_without_first_char.
    rewrite all_chars_app, Hbody_r. reflexivity. }
  rewrite Hstep1, (remove_closing_paren body Hbody_p).
  assert (Hsplit : PyStr.split "," body
                   = [r; String " " g; String " " b; String " " a]).
  { unfold body. cbn [append].
    rewrite (split_at_first_separator "," r) by exact Hr3.
    change (String " " (g ++ String "," (String " " (b ++ String "," (String " " a)))))%string
      with ((String " " g) ++ String "," (String " " (b ++ String "," (String " " a))))%string.
    rewrite (split_at_first_separator "," (String " " g))
      by (cbn [all_chars]; rewrite Hg3; reflexivity).
    change (String " " (b ++ String "," (String " " a)))%string
      with ((String " " b) ++ String "," (String " " a))%string.
    rewrite (split_at_first_separator "," (String " " b))
      by (cbn [all_chars]; rewrite Hb3; reflexivity).
    rewrite (split_no_separator "," (String " " a))
      by (cbn [all_chars]; rewrite Ha3; reflexivity).
    reflexivity. }
  rewrite Hsplit. cbn [List.length Nat.eqb nth StyleConverter.list_set].
  rewrite (strip_after_space a Ha4).
  unfold PyStr.join. cbn [String.concat append].
  repeat (rewrite append_assoc; cbn [append]). reflexivity.
Qed.

End WithBuiltins.
End AlphaText.

(** ** Colours *)

(** The three channels of a colour text are bytes when the channels of
    the colour lie between 0 and 1 (a missing channel counts as 0). *)
Theorem rgba_channels_are_bytes :
  forall (B : Builtins) (c : color),
    FloatRange.in_unit_interval (get_or (PInt 0) (c_r c)) = true ->
    FloatRange.in_unit_interval (get_or (PInt 0) (c_g c)) = true ->
    FloatRange.in_unit_interval (get_or (PInt 0) (c_b c)) = true ->
    exists r g b : Z,
      0 <= r <= 255 /\ 0 <= g <= 255 /\ 0 <= b <= 255
      /\ StyleConverter.rgba_to_css c
         = ("rgba(" ++ PyStr.of_Z r ++ ", " ++ PyStr.of_Z g ++ ", " ++ PyStr.of_Z b
                    ++ ", " ++ py_str (get_or (PInt 1) (c_a c)) ++ ")")%string.
Proof.
  intros B c Hr Hg Hb.
  exists (py_int (py_mul (get_or (PInt 0) (c_r c)) (PInt 255))),
         (py_int (py_mul (get_or (PInt 0) (c_g c)) (PInt 255))),
         (py_int (py_mul (get_or (PInt 0) (c_b c)) (PInt 255))).
  repeat split; try (apply FloatRange.channel_range; assumption).
Qed.

(** [{r: 0.6, g: 0.2, a: 0.5}]: floats, with [b] missing. *)
Definition dusty_red : color :=
  Build_color (Some (PFloat 0x1.3333333333333p-1)) (Some (PFloat 0x1.999999999999ap-3))
              None (Some (PFloat 0.5)).

Lemma rgba_channels_are_bytes_witness :
  exists r g b : Z,
    0 <= r <= 255 /\ 0 <= g <= 255 /\ 0 <= b <= 255
    /\ StyleConverter.rgba_to_css (B := CPython.builtins) dusty_red
       = ("rgba(" ++ PyStr.of_Z r ++ ", " ++ PyStr.of_Z g ++ ", " ++ PyStr.of_Z b
                  ++ ", " ++ py_str (B := CPython.builtins) (get_or (PInt 1) (c_a dusty_red))
                  ++ ")")%string.
Proof.
  apply (rgba_channels_are_bytes CPython.builtins dusty_red); reflexivity.
Defined.

(** A visible SOLID fill whose paint opacity is below 1 gets the alpha
    of its colour times that opacity, provided [str] and [float] round
    trip on the alpha: its text is plain and reads back as its value. *)
Theorem solid_fill_alpha_is_scaled :
  forall (B : Builtins) (fill : paint) (opacity alpha : pynum),
    get_or true (pt_visible fill) = true ->
    pt_type fill = Some "SOLID" ->
    pt_opacity fill = Some opacity ->
    py_ltb opacity (PInt 1) = true ->
    get_or (PInt 1) (c_a (get_or no_color (pt_color fill))) = alpha ->
    AlphaText.plain_text (py_str alpha) = true ->
    float_parse (py_str alpha) = to_float alpha ->
    StyleConverter.fill_styles fill
    = [("background-color: rgba("
          ++ PyStr.of_Z (py_int (py_mul (get_or (PInt 0) (c_r (get_or no_color (pt_color fill))))
                                        (PInt 255))) ++ ", "
          ++ PyStr.of_Z (py_int (py_mul (get_or (PInt 0) (c_g (get_or no_color (pt_color fill))))
                                        (PInt 255))) ++ ", "
          ++ PyStr.of_Z (py_int (py_mul (get_or (PInt 0) (c_b (get_or no_color (pt_color fill))))
                                        (PInt 255))) ++ ","
          ++ float_repr (to_float alpha * to_float opacity)%float ++ ");")%string].
Proof.
  intros B fill opacity alpha Hvisible Htype Hopacity Hbelow Halpha Hplain Hparse.
  unfold StyleConverter.fill_styles. rewrite Hvisible, Htype, Hopacity.
  cbn [negb get_or]. rewrite String.eqb_refl, Hbelow.
  unfold StyleConverter.rgba_to_css. rewrite Halpha.
  rewrite AlphaText.scale_alpha_of_plain_text
    by (first [apply AlphaText.of_Z_plain | exact Hplain]).
  rewrite Hparse. cbn [py_mul py_str to_float append].
  repeat (rewrite AlphaText.append_assoc; cbn [append]). reflexivity.
Qed.

(** A half-transparent blue at half opacity:
    [{type: SOLID, opacity: 0.5, color: {r: 0, g: 0, b: 1, a: 0.5}}]. *)
Definition faint_blue : paint :=
  Build_paint (Some "SOLID") None (Some (PFloat 0.5))
              (Some (Build_color (Some (PInt 0)) (Some (PInt 0)) (Some (PInt 1))
                                 (Some (PFloat 0.5))))
              [] [] None.

Lemma solid_fill_alpha_is_scaled_witness :
  StyleConverter.fill_styles (B := CPython.builtins) faint_blue
  = ["background-color: rgba(0, 0, 255,0.25);"].
Proof.
  rewrite (solid_fill_alpha_is_scaled CPython.builtins faint_blue (PFloat 0.5) (PFloat 0.5)
             eq_refl eq_refl eq_refl eq_refl eq_refl eq_refl eq_refl).
  vm_compute. reflexivity.
Defined.

(** ** Paints and effects that are hidden *)

(** [paint.get('visible', True)] and [effect.get('visible', True)]. *)
Definition paint_shown (p : paint) : bool := get_or true (pt_visible p).
Definition effect_shown (e : effect) : bool := get_or true (ef_visible e).

(** [node] with another list of fills, of effects. *)
Definition with_effects (effects : list effect) (a : attrs) : attrs :=
  let 'Build_attrs ty nm vis box lm pa ca gap pl pr pt pb wrap sh sv clip rot fills
    strokes sw sa isw cr rcr _ op bm chars sty := a in
  Build_attrs ty nm vis box lm pa ca gap pl pr pt pb wrap sh sv clip rot fills strokes
    sw sa isw cr rcr effects op bm chars sty.

Lemma flat_map_skips : forall (A : Type) (f : A -> list string) (keep : A -> bool) l,
  (forall x, keep x = false -> f x = []) ->
  flat_map f (filter keep l) = flat_map f l.
Proof.
  intros A f keep l H. induction l as [|x l IH]; simpl; [reflexivity|].
  destruct (keep x) eqn:E; simpl; rewrite IH; [reflexivity|].
  rewrite (H x E). reflexivity.
Qed.

Lemma a_fills_with_fills : forall fills a, a_fills (Doc.with_fills fills a) = fills.
Proof. intros fills a. destruct a. reflexivity. Qed.

Lemma a_effects_with_effects : forall effects a, a_effects (with_effects effects a) = effects.
Proof. intros effects a. destruct a. reflexivity. Qed.

(** Fills and effects with visible=false leave no trace: the background
    and the effect declarations are those of the node without them. *)
Theorem hidden_fills_and_effects_are_skipped :
  forall (B : Builtins) (node : attrs),
    StyleConverter.get_background_styles node
    = StyleConverter.get_background_styles
        (Doc.with_fills (filter paint_shown (a_fills node)) node)
    /\ StyleConverter.get_effect_styles node
       = StyleConverter.get_effect_styles
           (with_effects (filter effect_shown (a_effects node)) node).
Proof.
  intros B node. split.
  - unfold StyleConverter.get_background_styles. rewrite a_fills_with_fills.
    symmetry. apply flat_map_skips. intros fill Hhidden.
    unfold StyleConverter.fill_styles. unfold paint_shown in Hhidden. rewrite Hhidden.
    reflexivity.
  - unfold StyleConverter.get_effect_styles. rewrite a_effects_with_effects.
    assert (Hstep : forall e, effect_shown e = false -> StyleConverter.effect_step e = ([], [])).
    { intros e Hhidden. unfold StyleConverter.effect_step.
      unfold effect_shown in Hhidden. rewrite Hhidden. reflexivity. }
    rewrite !flat_map_skips by (intros e He; rewrite (Hstep e He); reflexivity).
    reflexivity.
Qed.

(** ** Fills that give nothing *)

(** A gradient fill without stops, an IMAGE fill without an imageRef and
    a fill of an unknown type add no declaration. *)
Theorem fills_without_content_give_nothing :
  forall (B : Builtins) (fill : paint),
    (PyStr.mem (get_or EmptyString (pt_type fill))
               ["GRADIENT_LINEAR"; "GRADIENT_RADIAL"; "GRADIENT_ANGULAR"] = true
     /\ pt_gradientStops fill = [])
    \/ (pt_type fill = Some "IMAGE" /\ pt_imageRef fill = None)
    \/ PyStr.mem (get_or EmptyString (pt_type fill))
                 ["SOLID"; "GRADIENT_LINEAR"; "GRADIENT_RADIAL"; "GRADIENT_ANGULAR"; "IMAGE"]
       = false ->
    StyleConverter.fill_styles fill = [].
Proof.
  intros B fill H. unfold StyleConverter.fill_styles.
  destruct (negb (get_or true (pt_visible fill))); [reflexivity|].
  unfold StyleConverter._convert_linear_gradient, StyleConverter._convert_radial_gradient,
    StyleConverter._convert_angular_gradient.
  destruct H as [[Hkind Hstops] | [[Htype Hnone] | Hunknown]].
  - rewrite Hstops. unfold PyStr.mem in Hkind. cbn [existsb] in Hkind.
    destruct (String.eqb_spec (get_or EmptyString (pt_type fill)) "GRADIENT_LINEAR") as [->|];
      [reflexivity|].
    destruct (String.eqb_spec (get_or EmptyString (pt_type fill)) "GRADIENT_RADIAL") as [->|];
      [reflexivity|].
    destruct (String.eqb_spec (get_or EmptyString (pt_type fill)) "GRADIENT_ANGULAR") as [->|];
      [reflexivity|discriminate].
  - rewrite Htype, Hnone. reflexivity.
  - unfold PyStr.mem in Hunknown. cbn [existsb] in Hunknown.
    repeat (apply orb_false_iff in Hunknown; destruct Hunknown as [?H Hunknown]).
    rewrite H, H0, H1, H2, H3. reflexivity.
Qed.

Definition empty_gradient : paint :=
  Build_paint (Some "GRADIENT_RADIAL") None None None [] [] None.

Lemma fills_without_content_give_nothing_witness :
  StyleConverter.fill_styles (B := CPython.builtins) empty_gradient = [].
Proof.
  apply (fills_without_content_give_nothing CPython.builtins empty_gradient).
  left. split; reflexivity.
Defined.

(** ** Blend modes *)

(** The CSS keyword of a Figma name: lower case, dashes for underscores. *)
Definition kebab (s : string) : string :=
  PyStr.map_chars (fun c => if Ascii.eqb c "_" then "-"%char else PyStr.lower_char c) s.

Definition blend_modes : list string := map fst StyleConverter.blend_mode_map.

Lemma blend_lookup : forall mode,
  StyleConverter.lookup mode StyleConverter.blend_mode_map
  = if PyStr.mem mode blend_modes then Some (kebab mode) else None.
Proof.
  intros mode. unfold blend_modes, PyStr.mem, StyleConverter.blend_mode_map.
  cbn [StyleConverter.lookup map fst existsb].
  repeat match goal with
         | |- context [String.eqb mode ?k] =>
             destruct (String.eqb_spec mode k) as [->|]; [reflexivity|]
         end.
  reflexivity.
Qed.

(** The sixteen names of the table give [mix-blend-mode] with their own
    name as keyword; PASS_THROUGH, a missing key and any other name give
    nothing. *)
Theorem blend_mode_is_its_own_keyword :
  forall (B : Builtins) (node : attrs),
    StyleConverter.get_blend_mode node
    = if PyStr.mem (get_or "PASS_THROUGH" (a_blendMode node)) blend_modes
      then [("mix-blend-mode: " ++ kebab (get_or "PASS_THROUGH" (a_blendMode node)) ++ ";")%string]
      else [].
Proof.
  intros B node. unfold StyleConverter.get_blend_mode. rewrite blend_lookup.
  destruct (PyStr.mem _ blend_modes); reflexivity.
Qed.

(** ** Properties a rule declares once *)

(** How many declarations of [decls] set the property [prop]. *)
Definition occurrences (prop : string) (decls : list string) : nat :=
  length (filter (declares prop) decls).

(** The properties for which a second declaration would override the
    first.  ([align-items], the background, border and filter
    properties and [border-radius] are not among them: the converter
    can declare each of those more than once.) *)
Definition single_valued : list string :=
  ["display"; "flex-direction"; "justify-content"; "gap"; "padding"; "flex-wrap";
   "position"; "left"; "top"; "width"; "height"; "overflow"; "transform";
   "box-shadow"; "opacity"; "mix-blend-mode";
   "font-family"; "font-size"; "font-weight"; "line-height"; "letter-spacing";
   "text-align"; "text-decoration"; "text-transform"].

(** [decls] sets properties of [ps] only, and none of the single-valued
    ones twice. *)
Definition piece (ps : list string) (decls : list string) : Prop :=
  sets_only ps decls
  /\ forall prop, PyStr.mem prop single_valued = true -> (occurrences prop decls <= 1)%nat.

(** No single-valued property is in both lists. *)
Definition apart (ps qs : list string) : bool :=
  forallb (fun p => negb (PyStr.mem p single_valued && PyStr.mem p qs)) ps.

(** The single-valued properties of an explicit list are all different. *)
Fixpoint once_each (seen : list string) (decls : list string) : bool :=
  match decls with
  | [] => true
  | d :: rest =>
      let p := css_property d in
      if PyStr.mem p single_valued
      then negb (PyStr.mem p seen) && once_each (p :: seen) rest
      else once_each seen rest
  end.

Lemma occurrences_app : forall prop l1 l2,
  occurrences prop (l1 ++ l2) = (occurrences prop l1 + occurrences prop l2)%nat.
Proof. intros. unfold occurrences. rewrite filter_app, length_app. reflexivity. Qed.

Lemma occurrences_cons : forall prop d l,
  occurrences prop (d :: l)
  = ((if declares prop d then 1 else 0) + occurrences prop l)%nat.
Proof.
  intros prop d l. unfold occurrences. cbn [filter].
  destruct (declares prop d); reflexivity.
Qed.

Lemma occurrences_outside : forall ps prop l,
  sets_only ps l -> PyStr.mem prop ps = false -> occurrences prop l = 0%nat.
Proof.
  intros ps prop l Hl Hp. unfold occurrences, declares.
  rewrite (sets_only_filter_out ps prop l Hl Hp). reflexivity.
Qed.

Lemma mem_app : forall p ps qs, PyStr.mem p (ps ++ qs) = PyStr.mem p ps || PyStr.mem p qs.
Proof. intros. unfold PyStr.mem. apply existsb_app. Qed.

Lemma piece_app : forall ps qs l1 l2,
  piece ps l1 -> piece qs l2 -> apart ps qs = true -> piece (ps ++ qs) (l1 ++ l2).
Proof.
  intros ps qs l1 l2 [Hs1 Ho1] [Hs2 Ho2] Hapart. split.
  - apply sets_only_app.
    + eapply sets_only_weaken; [|exact Hs1]. intros p Hp. rewrite mem_app, Hp. reflexivity.
    + eapply sets_only_weaken; [|exact Hs2]. intros p Hp. rewrite mem_app, Hp.
      apply orb_true_r.
  - intros prop Hprop. rewrite occurrences_app.
    destruct (PyStr.mem prop ps) eqn:Hin.
    + assert (Hout : PyStr.mem prop qs = false).
      { unfold apart in Hapart. rewrite forallb_forall in Hapart.
        unfold PyStr.mem in Hin. apply existsb_exists in Hin. destruct Hin as [p [Hp Heq]].
        apply String.eqb_eq in Heq. subst p. specialize (Hapart _ Hp).
        rewrite Hprop in Hapart. cbn [andb] in Hapart.
        apply negb_true_iff in Hapart. exact Hapart. }
      rewrite (occurrences_outside qs prop l2 Hs2 Hout). specialize (Ho1 prop Hprop). lia.
    + rewrite (occurrences_outside ps prop l1 Hs1 Hin). specialize (Ho2 prop Hprop). lia.
Qed.

Lemma once_each_bound : forall decls seen prop,
  once_each seen decls = true -> PyStr.mem prop single_valued = true ->
  (occurrences prop decls <= 1)%nat
  /\ (PyStr.mem prop seen = true -> occurrences prop decls = 0%nat).
Proof.
  induction decls as [|d decls IH]; intros seen prop Honce Hprop.
  - split; [apply Nat.le_0_l | reflexivity].
  - cbn [once_each] in Honce. rewrite occurrences_cons. unfold declares.
    destruct (String.eqb_spec (css_property d) prop) as [E|E]; cbn [Nat.add].
    + rewrite E, Hprop in Honce. apply andb_true_iff in Honce. destruct Honce as [Hnew Hrest].
      apply negb_true_iff in Hnew.
      destruct (IH (prop :: seen) prop Hrest Hprop) as [_ Hzero].
      assert (Hhere : PyStr.mem prop (prop :: seen) = true).
      { unfold PyStr.mem. cbn [existsb]. rewrite String.eqb_refl. reflexivity. }
      rewrite (Hzero Hhere). split; [lia|].
      intros Hseen. rewrite Hseen in Hnew. discriminate.
    + destruct (PyStr.mem (css_property d) single_valued).
      * apply andb_true_iff in Honce. destruct Honce as [_ Hrest].
        destruct (IH (css_property d :: seen) prop Hrest Hprop) as [Hle Hzero].
        split; [exact Hle|]. intros Hseen. apply Hzero.
        unfold PyStr.mem. cbn [existsb]. unfold PyStr.mem in Hseen. rewrite Hseen.
        apply orb_true_r.
      * exact (IH seen prop Honce Hprop).
Qed.

(** An explicit list is a piece when both checks compute to true. *)
Lemma piece_of_list : forall ps decls,
  forallb (fun d => PyStr.mem (css_property d) ps) decls = true ->
  once_each [] decls = true ->
  piece ps decls.
Proof.
  intros ps decls Hsets Honce. split.
  - unfold sets_only. apply Forall_forall. intros d Hd.
    rewrite forallb_forall in Hsets. exact (Hsets d Hd).
  - intros prop Hprop. exact (proj1 (once_each_bound decls [] prop Honce Hprop)).
Qed.

(** A list that sets no single-valued property is a piece. *)
Lemma piece_of_repeatable : forall ps decls,
  sets_only ps decls ->
  forallb (fun p => negb (PyStr.mem p single_valued)) ps = true ->
  piece ps decls.
Proof.
  intros ps decls Hsets Hnone. split; [exact Hsets|].
  intros prop Hprop. rewrite (occurrences_outside ps prop decls Hsets); [lia|].
  destruct (PyStr.mem prop ps) eqn:Hin; [|reflexivity].
  unfold PyStr.mem in Hin. apply existsb_exists in Hin. destruct Hin as [p [Hp Heq]].
  apply String.eqb_eq in Heq. subst p.
  rewrite forallb_forall in Hnone. specialize (Hnone _ Hp).
  rewrite Hprop in Hnone. discriminate.
Qed.

Ltac explicit_piece := split_tests; apply piece_of_list; reflexivity.

Section Pieces.
Context {B : Builtins}.

Definition flex_properties : list string :=
  ["flex-direction"; "justify-content"; "align-items"; "gap"; "padding"; "flex-wrap"].

(** An auto-layout list is empty or starts with [display: flex;]. *)
Lemma auto_layout_piece : forall node,
  LayoutConverter.get_auto_layout_styles node = []
  \/ exists rest,
       LayoutConverter.get_auto_layout_styles node = "display: flex;" :: rest
       /\ piece flex_properties rest.
Proof.
  intros node. unfold LayoutConverter.get_auto_layout_styles. cbv zeta.
  destruct (_ || _); [left; reflexivity|]. right. eexists. split; [reflexivity|].
  unfold LayoutConverter.justify_content.
  change flex_properties
    with (["flex-direction"] ++ ["justify-content"] ++ ["align-items"] ++ ["gap"]
          ++ ["padding"] ++ ["flex-wrap"]).
  eapply piece_app; [explicit_piece| |reflexivity].
  eapply piece_app; [explicit_piece| |reflexivity].
  eapply piece_app; [explicit_piece| |reflexivity].
  eapply piece_app; [explicit_piece| |reflexivity].
  eapply piece_app; [explicit_piece| |reflexivity].
  explicit_piece.
Qed.

Lemma position_piece : forall node parent,
  piece ["position"; "left"; "top"] (LayoutConverter.get_position_styles node parent).
Proof.
  intros node parent. unfold LayoutConverter.get_position_styles.
  destruct parent as [p|]; [destruct (a_absoluteBoundingBox p)|]; cbv zeta; explicit_piece.
Qed.

Lemma size_piece : forall node,
  piece (["width"] ++ ["height"]) (LayoutConverter.get_size_styles node).
Proof.
  intros node. unfold LayoutConverter.get_size_styles, LayoutConverter.size_style. cbv zeta.
  eapply piece_app; [explicit_piece|explicit_piece|reflexivity].
Qed.

Lemma overflow_piece : forall node,
  piece ["overflow"] (LayoutConverter.get_overflow_styles node).
Proof. intros node. unfold LayoutConverter.get_overflow_styles. explicit_piece. Qed.

Lemma transform_piece : forall node,
  piece ["transform"] (LayoutConverter.get_transform_styles node).
Proof. intros node. unfold LayoutConverter.get_transform_styles. explicit_piece. Qed.

Lemma background_piece : forall node,
  piece background_properties (StyleConverter.get_background_styles node).
Proof. intros node. apply piece_of_repeatable; [apply background_sets | reflexivity]. Qed.

Lemma border_piece : forall node,
  piece border_properties (StyleConverter.get_border_styles node).
Proof. intros node. apply piece_of_repeatable; [apply border_sets | reflexivity]. Qed.

Lemma border_radius_piece : forall node,
  piece ["border-radius"] (StyleConverter.get_border_radius node).
Proof. intros node. apply piece_of_repeatable; [apply border_radius_sets | reflexivity]. Qed.

Lemma effect_piece : forall node,
  piece (["filter"; "backdrop-filter"] ++ ["box-shadow"]) (StyleConverter.get_effect_styles node).
Proof.
  intros node. unfold StyleConverter.get_effect_styles. cbv zeta.
  assert (Hblur : piece ["filter"; "backdrop-filter"]
                    (flat_map (fun e => fst (StyleConverter.effect_step e)) (a_effects node))).
  { apply piece_of_repeatable; [|reflexivity].
    apply sets_only_flat_map. intros e. unfold StyleConverter.effect_step. by_cases. }
  destruct (flat_map (fun e => snd (StyleConverter.effect_step e)) (a_effects node)).
  - rewrite <- (app_nil_r (flat_map _ _)).
    eapply piece_app; [exact Hblur | apply piece_of_list; reflexivity | reflexivity].
  - eapply piece_app; [exact Hblur | apply piece_of_list; reflexivity | reflexivity].
Qed.

Lemma opacity_piece : forall node, piece ["opacity"] (StyleConverter.get_opacity node).
Proof. intros node. unfold StyleConverter.get_opacity. cbv zeta. explicit_piece. Qed.

Lemma blend_mode_piece : forall node,
  piece ["mix-blend-mode"] (StyleConverter.get_blend_mode node).
Proof. intros node. unfold StyleConverter.get_blend_mode. cbv zeta. explicit_piece. Qed.

Lemma text_piece : forall node,
  piece (["font-family"] ++ ["font-size"] ++ ["font-weight"] ++ ["line-height"]
         ++ ["letter-spacing"] ++ ["text-align"] ++ ["align-items"] ++ ["text-decoration"]
         ++ ["text-transform"])
        (StyleConverter.get_text_styles node).
Proof.
  intros node. unfold StyleConverter.get_text_styles. cbv zeta.
  eapply piece_app; [explicit_piece| |reflexivity].
  eapply piece_app; [explicit_piece| |reflexivity].
  eapply piece_app; [explicit_piece| |reflexivity].
  eapply piece_app; [explicit_piece| |reflexivity].
  eapply piece_app; [explicit_piece| |reflexivity].
  eapply piece_app; [explicit_piece| |reflexivity].
  eapply piece_app; [explicit_piece| |reflexivity].
  eapply piece_app; [explicit_piece| |reflexivity].
  explicit_piece.
Qed.

(** The declarations after the auto-layout ones. *)
Definition placed_and_visual (node : attrs) (parent : option attrs) : list string :=
  LayoutConverter.get_position_styles node parent
  ++ LayoutConverter.get_size_styles node
  ++ LayoutConverter.get_overflow_styles node
  ++ LayoutConverter.get_transform_styles node
  ++ StyleConverter.get_background_styles node
  ++ StyleConverter.get_border_styles node
  ++ StyleConverter.get_border_radius node
  ++ StyleConverter.get_effect_styles node
  ++ StyleConverter.get_opacity node
  ++ StyleConverter.get_blend_mode node.

Definition placed_and_visual_properties : list string :=
  ["position"; "left"; "top"] ++ (["width"] ++ ["height"]) ++ ["overflow"] ++ ["transform"]
  ++ background_properties ++ border_properties ++ ["border-radius"]
  ++ (["filter"; "backdrop-filter"] ++ ["box-shadow"]) ++ ["opacity"] ++ ["mix-blend-mode"].

Lemma placed_and_visual_piece : forall node parent,
  piece placed_and_visual_properties (placed_and_visual node parent).
Proof.
  intros node parent. unfold placed_and_visual, placed_and_visual_properties.
  eapply piece_app; [apply position_piece| |reflexivity].
  eapply piece_app; [apply size_piece| |reflexivity].
  eapply piece_app; [apply overflow_piece| |reflexivity].
  eapply piece_app; [apply transform_piece| |reflexivity].
  eapply piece_app; [apply background_piece| |reflexivity].
  eapply piece_app; [apply border_piece| |reflexivity].
  eapply piece_app; [apply border_radius_piece| |reflexivity].
  eapply piece_app; [apply effect_piece| |reflexivity].
  eapply piece_app; [apply opacity_piece| |reflexivity].
  apply blend_mode_piece.
Qed.

Lemma collect_styles_piece : forall node parent,
  exists ps, piece ps (HTMLGenerator._collect_styles node parent).
Proof.
  intros node parent. rewrite collect_styles_shape. unfold layout_and_visual.
  fold (placed_and_visual node parent).
  pose proof (placed_and_visual_piece node parent) as Hrest.
  pose proof (text_piece node) as Htext.
  destruct (auto_layout_piece node) as [Hnone | [flex [Hflex Hpiece]]].
  - rewrite Hnone. cbn [app].
    destruct (String.eqb _ "TEXT"); [|eexists; exact Hrest].
    eexists.
    eapply piece_app; [eapply piece_app; [exact Hrest | exact Htext | reflexivity] | |].
    + eapply (piece_app ["display"] ["align-items"]);
        [destruct (PyStr.mem _ _); apply piece_of_list; reflexivity
        | apply piece_of_list; reflexivity | reflexivity].
    + reflexivity.
  - rewrite Hflex.
    set (styles := "display: flex;" :: flex ++ placed_and_visual node parent).
    assert (Hall : piece (["display"] ++ flex_properties ++ placed_and_visual_properties)
                         styles).
    { apply (piece_app ["display"] _ ["display: flex;"]);
        [apply piece_of_list; reflexivity | | reflexivity].
      eapply piece_app; [exact Hpiece | exact Hrest | reflexivity]. }
    change (("display: flex;" :: flex) ++ placed_and_visual node parent) with styles.
    destruct (String.eqb _ "TEXT"); [|eexists; exact Hall].
    assert (Hmem : PyStr.mem "display: flex;" (styles ++ StyleConverter.get_text_styles node)
                   = true) by reflexivity.
    rewrite Hmem. change ([] ++ ["align-items: center;"]) with ["align-items: center;"].
    eexists.
    eapply piece_app;
      [eapply piece_app; [exact Hall | exact Htext | reflexivity]
      | apply (piece_of_list ["align-items"]); reflexivity | reflexivity].
Qed.

End Pieces.

(** A rule never declares one of the single-valued properties twice:
    whatever the node and its parent, the merged style list has at most
    one declaration of each of them, so that none of these is silently
    overridden by a later one of the same rule. *)
Theorem single_valued_properties_are_declared_once :
  forall (B : Builtins) (node : attrs) (parent : option attrs),
    Forall (fun prop =>
              (occurrences prop (HTMLGenerator._collect_styles node parent) <= 1)%nat)
           single_valued.
Proof.
  intros B node parent. destruct (collect_styles_piece node parent) as [ps [_ Honce]].
  apply Forall_forall. intros prop Hin. apply Honce.
  unfold PyStr.mem. apply existsb_exists. exists prop. split; [exact Hin|].
  apply String.eqb_refl.
Qed.

(** ** One rule per element *)

Module Rules.
Import HTMLGenerator.

(** The names of the side table were all built from counter values the
    generator has passed. *)
Definition names_are_past (g : generator) : Prop :=
  0 <= class_counter g
  /\ forall k, In k (Walk.class_names g) ->
               exists node c, 0 <= c <= class_counter g /\ k = ClassNames.class_name_at node c.

(** From [g] to [g']: the table has grown by one new item for each
    counter value taken, the items it had being kept as they were. *)
Definition extends (g g' : generator) : Prop :=
  names_are_past g ->
  names_are_past g'
  /\ exists added,
       css_classes g' = css_classes g ++ added
       /\ Z.of_nat (length added) = class_counter g' - class_counter g.

Lemma dict_set_new : forall key value d,
  ~ In key (map fst d) -> dict_set key value d = d ++ [(key, value)].
Proof.
  intros key value d. induction d as [|[k v] d IH]; simpl; intros Hnew.
  - reflexivity.
  - destruct (String.eqb_spec k key) as [E|_].
    + exfalso. apply Hnew. left. exact E.
    + rewrite IH; [reflexivity|]. intros Hin. apply Hnew. right. exact Hin.
Qed.

Lemma extends_refl : forall g, extends g g.
Proof.
  intros g Hg. split; [exact Hg|]. exists []. rewrite app_nil_r. split; [reflexivity|].
  cbn [length]. lia.
Qed.

Lemma extends_trans : forall g1 g2 g3, extends g1 g2 -> extends g2 g3 -> extends g1 g3.
Proof.
  intros g1 g2 g3 H12 H23 Hg1.
  destruct (H12 Hg1) as [Hg2 [added12 [E12 L12]]].
  destruct (H23 Hg2) as [Hg3 [added23 [E23 L23]]].
  split; [exact Hg3|]. exists (added12 ++ added23). split.
  - rewrite E23, E12, app_assoc. reflexivity.
  - rewrite length_app, Nat2Z.inj_add. lia.
Qed.

Lemma extends_register : forall g node styles,
  extends g (set_class (fst (_generate_class_name g node)) styles
                       (snd (_generate_class_name g node))).
Proof.
  intros g node styles [Hcounter Hnames]. rewrite ClassNames.generate_class_name_eq.
  cbn [fst snd set_class css_classes class_counter].
  assert (Hnew : ~ In (ClassNames.class_name_at node (class_counter g + 1))
                      (map fst (css_classes g))).
  { intros Hin. destruct (Hnames _ Hin) as [node' [c [Hc E]]].
    pose proof (ClassNames.class_name_at_inj node node' (class_counter g + 1) c
                  ltac:(lia) ltac:(lia) E).
    lia. }
  rewrite (dict_set_new _ _ _ Hnew). split.
  - unfold names_are_past, Walk.class_names, set_class. cbn [css_classes class_counter].
    rewrite (dict_set_new _ _ _ Hnew). split; [lia|].
    intros k Hk. rewrite map_app in Hk. apply in_app_or in Hk. destruct Hk as [Hk|[Hk|[]]].
    + destruct (Hnames _ Hk) as [node' [c [Hc E]]]. exists node', c. split; [lia|exact E].
    + exists node, (class_counter g + 1). split; [lia|]. symmetry. exact Hk.
  - eexists. split; [reflexivity|]. cbn [length]. lia.
Qed.

Section WithBuiltins.
Context {B : Builtins}.

Lemma visit_extends : forall n g parent depth,
  extends g (snd (_generate_node_html g n parent depth)).
Proof.
  induction n as [node children IH] using node_ind. intros g parent depth.
  rewrite Walk.generate_node_html_unfold. cbn zeta.
  assert (Hloop : forall d g0,
             extends g0 (snd (visit_children (fun child => Walk.visit child (Some node) d)
                                             children g0))).
  { intros d g0. apply Walk.visit_children_carries.
    - apply extends_refl.
    - apply extends_trans.
    - eapply Forall_impl; [|exact IH]. intros c Hc g1. apply Hc. }
  destruct (is_structural _).
  { specialize (Hloop depth g). destruct (visit_children _ children g). exact Hloop. }
  destruct (negb _); [apply extends_refl|].
  pose proof (extends_register g node (_collect_styles node parent)) as Hreg.
  destruct (_generate_class_name g node) as [class_name g1]. cbn [fst snd] in Hreg.
  destruct (String.eqb _ "TEXT"); [exact Hreg|].
  assert (Hcontainer :
            extends g (snd (_generate_container_html
                              Walk.visit (set_class class_name (_collect_styles node parent) g1)
                              children node class_name depth))).
  { unfold _generate_container_html.
    specialize (Hloop (S depth) (set_class class_name (_collect_styles node parent) g1)).
    destruct (visit_children _ children _). cbn [snd] in *.
    exact (extends_trans _ _ _ Hreg Hloop). }
  destruct (PyStr.mem _ ["FRAME"; _; _; _]); [exact Hcontainer|].
  destruct (PyStr.mem _ _); [|exact Hcontainer].
  unfold _generate_shape_html. destruct children as [|c children]; [exact Hreg|].
  specialize (Hloop (S depth) (set_class class_name (_collect_styles node parent) g1)).
  destruct (visit_children _ (c :: children) _). cbn [snd] in *.
  exact (extends_trans _ _ _ Hreg Hloop).
Qed.

End WithBuiltins.
End Rules.

(** On a generator whose names all come from counter values it has
    passed (a new generator is one), the visit of a node adds one item
    to the side table for each element it emits, after the items that
    were there, which keep their styles: no class name is taken twice
    and no element's rule is overwritten by a later element's. *)
Theorem every_element_gets_its_own_rule :
  forall (B : Builtins) (n : node) (g : HTMLGenerator.generator)
         (parent : option attrs) (depth : nat),
    Rules.names_are_past g ->
    let g' := snd (HTMLGenerator._generate_node_html g n parent depth) in
    Rules.names_are_past g'
    /\ exists added,
         HTMLGenerator.css_classes g' = HTMLGenerator.css_classes g ++ added
         /\ Z.of_nat (length added) = Walk.classes_of n
         /\ HTMLGenerator.class_counter g' = HTMLGenerator.class_counter g + Walk.classes_of n.
Proof.
  intros B n g parent depth Hg g'.
  destruct (Rules.visit_extends n g parent depth Hg) as [Hg' [added [Hadded Hlength]]].
  fold g' in Hg', Hadded, Hlength.
  pose proof (Walk.counter_after_visit n g parent depth) as Hcounter. fold g' in Hcounter.
  split; [exact Hg'|]. exists added. split; [exact Hadded|]. split; [lia | exact Hcounter].
Qed.

(** A page with a card that holds a title and a hidden rectangle. *)
Definition card_page : node :=
  Node (Doc.typed "CANVAS")
       [Node (Doc.with_name "Card" (Doc.typed "FRAME"))
             [Node (Doc.with_characters "Title" (Doc.typed "TEXT")) [];
              Node (Doc.with_visible false (Doc.typed "RECTANGLE")) []]].

Lemma every_element_gets_its_own_rule_witness :
  let g' := snd (HTMLGenerator._generate_node_html (B := CPython.builtins)
                   HTMLGenerator.__init__ card_page None 0) in
  Rules.names_are_past g'
  /\ exists added,
       HTMLGenerator.css_classes g' = [] ++ added
       /\ Z.of_nat (length added) = 2
       /\ HTMLGenerator.class_counter g' = 0 + 2.
Proof.
  apply (every_element_gets_its_own_rule CPython.builtins card_page HTMLGenerator.__init__
           None 0).
  split; [simpl; lia | intros k []].
Defined.

(** ** The depth argument *)

Lemma visit_children_ext :
  forall (v1 v2 : node -> HTMLGenerator.generator -> string * HTMLGenerator.generator)
         (children : list node),
    Forall (fun c => forall g, v1 c g = v2 c g) children ->
    forall g, HTMLGenerator.visit_children v1 children g
              = HTMLGenerator.visit_children v2 children g.
Proof.
  intros v1 v2 children Hall. induction Hall as [|c children Hc _ IH]; intros g; simpl.
  - reflexivity.
  - rewrite Hc. destruct (v2 c g) as [h g1]. rewrite IH. reflexivity.
Qed.

(** The depth a node is visited at changes nothing: neither its markup
    nor the generator the visit leaves depend on it (the markup is not
    indented, and no style is a function of the nesting level). *)
Theorem depth_changes_nothing :
  forall (B : Builtins) (n : node) (g : HTMLGenerator.generator) (parent : option attrs)
         (depth1 depth2 : nat),
    HTMLGenerator._generate_node_html g n parent depth1
    = HTMLGenerator._generate_node_html g n parent depth2.
Proof.
  intros B. induction n as [node children IH] using node_ind.
  intros g parent depth1 depth2.
  assert (Hloop : forall d1 d2 g0,
             HTMLGenerator.visit_children (fun child => Walk.visit child (Some node) d1)
                                          children g0
             = HTMLGenerator.visit_children (fun child => Walk.visit child (Some node) d2)
                                            children g0).
  { intros d1 d2 g0. apply visit_children_ext.
    eapply Forall_impl; [|exact IH]. intros c Hc g1. apply Hc. }
  rewrite !Walk.generate_node_html_unfold. cbn zeta.
  rewrite ClassNames.generate_class_name_eq. cbv beta iota.
  unfold HTMLGenerator._generate_container_html, HTMLGenerator._generate_shape_html.
  rewrite (Hloop depth1 depth2), !(Hloop (S depth1) (S depth2)). reflexivity.
Qed.

(** ** The characters of a class name *)

(** A character of the ASCII range, on which [isalnum] and [lower] of
    the model are Python's. *)
Definition is_ascii (c : ascii) : bool := (nat_of_ascii c <? 128)%nat.

(** A character a CSS class name can hold without an escape, a leading
    digit apart: a lower-case letter, a digit, a dash or an underscore. *)
Definition css_name_char (c : ascii) : bool :=
  PyStr.is_lower c || PyStr.is_digit c || Ascii.eqb c "-" || Ascii.eqb c "_".

Lemma sanitized_char : forall c,
  css_name_char (if PyStr.isalnum (PyStr.lower_char c) || Ascii.eqb (PyStr.lower_char c) "-"
                 then PyStr.lower_char c else "_"%char) = true.
Proof. intros [[|] [|] [|] [|] [|] [|] [|] [|]]; vm_compute; reflexivity. Qed.

Lemma sanitized_chars : forall s,
  AlphaText.all_chars css_name_char
    (PyStr.map_chars (fun c => if PyStr.isalnum c || Ascii.eqb c "-" then c else "_"%char)
                     (PyStr.lower s)) = true.
Proof.
  induction s as [|c s IH]; [reflexivity|].
  unfold PyStr.lower in *. cbn [PyStr.map_chars AlphaText.all_chars].
  rewrite sanitized_char, IH. reflexivity.
Qed.

Lemma map_chars_length : forall f s, String.length (PyStr.map_chars f s) = String.length s.
Proof. intros f s. induction s as [|c s IH]; simpl; [reflexivity|]. rewrite IH. reflexivity. Qed.

Lemma take_chars : forall p n s,
  AlphaText.all_chars p s = true -> AlphaText.all_chars p (PyStr.take n s) = true.
Proof.
  intros p n s. unfold PyStr.take. revert s.
  induction n as [|n IH]; intros [|c s]; simpl; try reflexivity.
  intros H. apply andb_true_iff in H. destruct H as [Hc Hs]. rewrite Hc, (IH s Hs). reflexivity.
Qed.

Lemma take_length : forall n s, String.length (PyStr.take n s) = Nat.min n (String.length s).
Proof.
  intros n s. unfold PyStr.take. revert s.
  induction n as [|n IH]; intros [|c s]; simpl; try reflexivity.
  rewrite IH. reflexivity.
Qed.

Lemma sign_or_digit_is_name_char : forall c,
  AlphaText.sign_or_digit c = true -> css_name_char c = true.
Proof.
  intros [[|] [|] [|] [|] [|] [|] [|] [|]]; vm_compute; intros H; congruence.
Qed.

(** For a node name of ASCII characters, the class name is [figma-],
    the sanitized name, a dash and the new counter value; the sanitized
    name has the length of the node name up to 30 characters, and the
    whole class name is made of lower-case letters, digits, dashes and
    underscores: it needs no escape in a selector or in an attribute. *)
Theorem class_name_is_a_plain_identifier :
  forall (g : HTMLGenerator.generator) (node : attrs),
    AlphaText.all_chars is_ascii (get_or "element" (a_name node)) = true ->
    exists safe_name : string,
      fst (HTMLGenerator._generate_class_name g node)
      = ("figma-" ++ safe_name ++ "-" ++ PyStr.of_Z (HTMLGenerator.class_counter g + 1))%string
      /\ String.length safe_name
         = Nat.min 30 (String.length (get_or "element" (a_name node)))
      /\ AlphaText.all_chars css_name_char (fst (HTMLGenerator._generate_class_name g node))
         = true.
Proof.
  intros g node _. exists (ClassNames.safe_name node).
  rewrite ClassNames.generate_class_name_eq. cbn [fst].
  unfold ClassNames.class_name_at, ClassNames.safe_name. split; [reflexivity|]. split.
  - rewrite take_length. unfold PyStr.lower. rewrite !map_chars_length. reflexivity.
  - rewrite !AlphaText.all_chars_app.
    rewrite (take_chars _ _ _ (sanitized_chars _)).
    rewrite (AlphaText.all_chars_weaken _ _ _ sign_or_digit_is_name_char
               (AlphaText.of_Z_sign_or_digits _)).
    reflexivity.
Qed.

(** A name with capitals, blanks and punctuation, longer than 30. *)
Definition long_name : attrs :=
  Doc.with_name "Hero Banner / Call-To-Action (v2) FINAL" (Doc.typed "FRAME").

Lemma class_name_is_a_plain_identifier_witness :
  exists safe_name : string,
    fst (HTMLGenerator._generate_class_name HTMLGenerator.__init__ long_name)
    = ("figma-" ++ safe_name ++ "-" ++ PyStr.of_Z (0 + 1))%string
    /\ String.length safe_name
       = Nat.min 30 (String.length (get_or "element" (a_name long_name)))
    /\ AlphaText.all_chars css_name_char
         (fst (HTMLGenerator._generate_class_name HTMLGenerator.__init__ long_name))
       = true.
Proof.
  apply (class_name_is_a_plain_identifier HTMLGenerator.__init__ long_name). reflexivity.
Defined.

(** ** The text of a TEXT node *)

(** A character that opens or closes a tag or an attribute value. *)
Definition is_markup (c : ascii) : bool :=
  Ascii.eqb c "<" || Ascii.eqb c ">" || Ascii.eqb c (ascii_of_nat 34)
  || Ascii.eqb c (ascii_of_nat 39).

Definition no_markup (s : string) : bool :=
  AlphaText.all_chars (fun c => negb (is_markup c)) s.

Definition br (c : ascii) : string :=
  if Ascii.eqb c (ascii_of_nat 10) then "<br>" else PyStr.single c.

Lemma subst_chars_app : forall f s t,
  PyStr.subst_chars f (s ++ t)%string
  = (PyStr.subst_chars f s ++ PyStr.subst_chars f t)%string.
Proof.
  intros f s t. induction s as [|c s IH]; simpl; [reflexivity|].
  rewrite IH, AlphaText.append_assoc. reflexivity.
Qed.

Lemma escaped_char : forall c,
  no_markup (PyStr.html_escape_char c) = true
  /\ (Ascii.eqb c (ascii_of_nat 10) = false ->
      PyStr.subst_chars br (PyStr.html_escape_char c) = PyStr.html_escape_char c).
Proof. intros [[|] [|] [|] [|] [|] [|] [|] [|]]; vm_compute; split; congruence. Qed.

Lemma escape_has_no_markup : forall s, no_markup (PyStr.html_escape s) = true.
Proof.
  induction s as [|c s IH]; [reflexivity|].
  unfold no_markup, PyStr.html_escape in *. cbn [PyStr.subst_chars].
  rewrite AlphaText.all_chars_app, IH.
  pose proof (proj1 (escaped_char c)) as Hc. unfold no_markup in Hc.
  rewrite Hc. reflexivity.
Qed.

Lemma split_is_not_empty : forall sep s, PyStr.split sep s <> [].
Proof.
  intros sep s. destruct s as [|c s]; simpl; [discriminate|].
  destruct (Ascii.eqb c sep); [discriminate|].
  destruct (PyStr.split sep s); discriminate.
Qed.

Lemma join_cons : forall sep part parts,
  parts <> [] ->
  PyStr.join sep (part :: parts) = (part ++ sep ++ PyStr.join sep parts)%string.
Proof. intros sep part [|p parts] H; [congruence | reflexivity]. Qed.

Lemma join_head : forall sep a part parts,
  PyStr.join sep ((a ++ part)%string :: parts) = (a ++ PyStr.join sep (part :: parts))%string.
Proof.
  intros sep a part [|p parts]; unfold PyStr.join; cbn [String.concat]; [reflexivity|].
  rewrite AlphaText.append_assoc. reflexivity.
Qed.

(** Escaping and then breaking the lines is escaping each line and
    joining the lines with [<br>]. *)
Lemma escaped_lines : forall s,
  PyStr.newlines_to_br (PyStr.html_escape s)
  = PyStr.join "<br>" (map PyStr.html_escape (PyStr.split (ascii_of_nat 10) s)).
Proof.
  unfold PyStr.newlines_to_br. fold br.
  induction s as [|c s IH]; [reflexivity|].
  unfold PyStr.html_escape in *. cbn [PyStr.subst_chars PyStr.split].
  rewrite subst_chars_app, IH.
  destruct (Ascii.eqb c (ascii_of_nat 10)) eqn:Hc.
  - apply Ascii.eqb_eq in Hc. subst c. cbn [map].
    rewrite join_cons.
    + reflexivity.
    + intros E. apply map_eq_nil in E. exact (split_is_not_empty _ _ E).
  - rewrite (proj2 (escaped_char c) Hc).
    pose proof (split_is_not_empty (ascii_of_nat 10) s) as Hparts.
    destruct (PyStr.split (ascii_of_nat 10) s) as [|part parts]; [congruence|].
    cbn [map PyStr.subst_chars]. rewrite join_head. reflexivity.
Qed.

(** The element of a TEXT node holds its lines, each escaped, with a
    [<br>] between two lines, and the escaped lines hold no angle
    bracket and no quote: the line breaks are the only markup the
    characters of a node can put into the page. *)
Theorem text_markup_is_line_breaks_only :
  forall (node : attrs) (class_name : string),
    let lines :=
      map PyStr.html_escape
          (PyStr.split (ascii_of_nat 10) (get_or EmptyString (a_characters node))) in
    HTMLGenerator._generate_text_html node class_name
    = (HTMLGenerator.open_div class_name ++ PyStr.join "<br>" lines ++ "</div>")%string
    /\ Forall (fun line => no_markup line = true) lines.
Proof.
  intros node class_name lines. split.
  - unfold HTMLGenerator._generate_text_html. cbv zeta. rewrite escaped_lines. reflexivity.
  - unfold lines. apply Forall_forall. intros line Hin.
    apply in_map_iff in Hin. destruct Hin as [raw [E _]]. subst line.
    apply escape_has_no_markup.
Qed.

(** ** Children placed by their parent's flexbox *)

(** [should_use_relative_position] tells of a parent what
    [get_position_styles] does for its children: it holds exactly when
    a child gets no positioning declaration at all, and when it does
    not hold the child gets the three declarations [position], [left]
    and [top]. *)
Theorem relative_position_means_no_placement :
  forall (B : Builtins) (node : attrs) (parent : option attrs),
    (LayoutConverter.should_use_relative_position parent = true
     <-> LayoutConverter.get_position_styles node parent = [])
    /\ (LayoutConverter.should_use_relative_position parent = false
        <-> map css_property (LayoutConverter.get_position_styles node parent)
            = ["position"; "left"; "top"]).
Proof.
  intros B node parent.
  unfold LayoutConverter.should_use_relative_position, LayoutConverter.get_position_styles.
  cbv zeta.
  destruct parent as [p|]; [destruct (a_absoluteBoundingBox p)|];
    try destruct (LayoutConverter.is_auto_layout _);
    repeat split; intros H; try reflexivity; discriminate H.
Qed.

(** ** Constraints *)

(** The strings of [l] are all different. *)
Fixpoint distinct (l : list string) : bool :=
  match l with
  | [] => true
  | x :: rest => negb (PyStr.mem x rest) && distinct rest
  end.

Lemma distinct_once : forall l p,
  distinct l = true -> (length (filter (fun q => String.eqb q p) l) <= 1)%nat.
Proof.
  induction l as [|x l IH]; intros p H; [apply Nat.le_0_l|].
  cbn [distinct] in H. apply andb_true_iff in H. destruct H as [Hx Hl].
  cbn [filter]. destruct (String.eqb_spec x p) as [E|_]; [|apply IH; exact Hl].
  subst x. apply negb_true_iff in Hx.
  assert (Hnone : filter (fun q => String.eqb q p) l = []).
  { clear - Hx. induction l as [|y l IH]; [reflexivity|].
    unfold PyStr.mem in Hx. cbn [existsb] in Hx. apply orb_false_iff in Hx.
    destruct Hx as [Hy Hl]. cbn [filter]. rewrite String.eqb_sym, Hy. apply IH. exact Hl. }
  rewrite Hnone. cbn [length]. lia.
Qed.

(** A property other than [skip] is declared at most once in a list
    whose properties, [skip] apart, are all different. *)
Lemma once_but : forall skip l prop,
  distinct (filter (fun p => negb (String.eqb p skip)) (map css_property l)) = true ->
  prop <> skip ->
  (occurrences prop l <= 1)%nat.
Proof.
  intros skip l prop Hdistinct Hprop.
  pose proof (distinct_once _ prop Hdistinct) as Hle.
  assert (E : occurrences prop l
              = length (filter (fun q => String.eqb q prop)
                               (filter (fun p => negb (String.eqb p skip))
                                       (map css_property l)))).
  { unfold occurrences, declares. clear - Hprop.
    induction l as [|d l IH]; [reflexivity|]. cbn [filter map].
    destruct (String.eqb_spec (css_property d) skip) as [Es|Es]; cbn [negb filter].
    - destruct (String.eqb_spec (css_property d) prop); [congruence|exact IH].
    - destruct (String.eqb_spec (css_property d) prop); cbn [length]; rewrite IH; reflexivity. }
  rewrite E. exact Hle.
Qed.

(** [get_constraints_styles] declares [transform] twice exactly when
    both constraints are CENTER (the vertical translation then comes
    after the horizontal one in the same list), and declares no other
    property more than once. *)
Theorem constraints_repeat_transform_only_when_centred_twice :
  forall (node_constraints : option LayoutConverter.constraints),
    let constraints := get_or LayoutConverter.no_constraints node_constraints in
    let styles := LayoutConverter.get_constraints_styles node_constraints in
    (occurrences "transform" styles = 2%nat
     <-> LayoutConverter.k_horizontal constraints = Some "CENTER"
         /\ LayoutConverter.k_vertical constraints = Some "CENTER")
    /\ (occurrences "transform" styles = 2%nat ->
        styles = ["left: 50%;"; "transform: translateX(-50%);";
                  "top: 50%;"; "transform: translateY(-50%);"])
    /\ forall prop, prop <> "transform" -> (occurrences prop styles <= 1)%nat.
Proof.
  intros node_constraints constraints styles.
  unfold styles, LayoutConverter.get_constraints_styles. fold constraints. cbv zeta.
  destruct (LayoutConverter.k_horizontal constraints) as [h|];
    destruct (LayoutConverter.k_vertical constraints) as [v|]; cbn [get_or].
  all: repeat match goal with
              | |- context [String.eqb ?s ?k] =>
                  lazymatch k with
                  | EmptyString => fail
                  | String _ _ => destruct (String.eqb_spec s k)
                  end
              end.
  all: subst; try discriminate.
  all: cbn [app].
  all: split; [split; [intros H; try discriminate H; split; reflexivity
                      | intros [H1 H2]; try reflexivity; congruence]
              | split; [intros H; try discriminate H; reflexivity
                       | intros prop Hprop; apply (once_but "transform"); [reflexivity|exact Hprop]]].
Qed.

(** ** The file key of a URL *)

Module FileKey.

(** [s] has no character [c]. *)
Definition without (c : ascii) (s : string) : bool :=
  AlphaText.all_chars (fun x => negb (Ascii.eqb x c)) s.

(** [t] is empty or starts with one of the two characters that end a
    key in a URL. *)
Definition ends_key (t : string) : bool :=
  match t with
  | EmptyString => true
  | String c _ => Ascii.eqb c "/" || Ascii.eqb c "?"
  end.

Lemma prefix_app : forall p s t,
  String.prefix p s = true -> String.prefix p (s ++ t)%string = true.
Proof.
  induction p as [|a p IH]; intros s t H; [destruct (s ++ t)%string; reflexivity|].
  destruct s as [|b s]; [discriminate|]. cbn [String.prefix append] in *.
  destruct (ascii_dec a b); [apply IH; exact H | discriminate].
Qed.

Lemma contains_app : forall sub s t,
  PyStr.contains sub s = true -> PyStr.contains sub (s ++ t)%string = true.
Proof.
  intros sub s t. induction s as [|c s IH]; cbn [PyStr.contains append]; intros H.
  - rewrite orb_false_r in H. destruct sub as [|a sub]; [|discriminate].
    destruct t; reflexivity.
  - apply orb_true_iff in H. destruct H as [H|H].
    + pose proof (prefix_app sub (String c s) t H) as Hp. cbn [append] in Hp.
      rewrite Hp. reflexivity.
    + rewrite (IH H). apply orb_true_r.
Qed.

(** A text without an occurrence of the separator is the one part of
    its split. *)
Lemma split_without_separator : forall sep s,
  PyStr.contains sep s = false -> PyStr.split_str sep s = [s].
Proof.
  intros sep s. unfold PyStr.split_str.
  induction s as [|c s IH]; cbn [PyStr.contains PyStr.split_from]; intros H; [reflexivity|].
  apply orb_false_iff in H. destruct H as [Hhere Hlater].
  cbn [String.prefix] in Hhere |- *. rewrite Hhere, (IH Hlater). reflexivity.
Qed.

Lemma without_prefix : forall c rest s,
  without c s = true -> PyStr.contains (String c rest) s = false.
Proof.
  intros c rest s. induction s as [|x s IH]; intros H; [reflexivity|].
  unfold without in *. cbn [AlphaText.all_chars] in H. apply andb_true_iff in H.
  destruct H as [Hx Hs]. cbn [PyStr.contains String.prefix].
  destruct (ascii_dec c x) as [E|_].
  - subst x. rewrite Ascii.eqb_refl in Hx. discriminate.
  - exact (IH Hs).
Qed.

(** The first part of a split holds no separator, and no character its
    text did not hold. *)
Lemma first_part_without : forall sep s, without sep (hd EmptyString (PyStr.split sep s)) = true.
Proof.
  intros sep s. induction s as [|c s IH]; [reflexivity|]. cbn [PyStr.split].
  destruct (Ascii.eqb c sep) eqn:Hc; [reflexivity|].
  destruct (PyStr.split sep s) as [|part parts]; unfold without in *;
    cbn [hd AlphaText.all_chars PyStr.single] in *; rewrite Hc; [reflexivity|].
  rewrite IH. reflexivity.
Qed.

Lemma first_part_keeps : forall p sep s,
  AlphaText.all_chars p s = true ->
  AlphaText.all_chars p (hd EmptyString (PyStr.split sep s)) = true.
Proof.
  intros p sep s. induction s as [|c s IH]; [reflexivity|]. cbn [PyStr.split AlphaText.all_chars].
  intros H. apply andb_true_iff in H. destruct H as [Hc Hs].
  destruct (Ascii.eqb c sep); [reflexivity|]. specialize (IH Hs).
  destruct (PyStr.split sep s) as [|part parts];
    cbn [hd AlphaText.all_chars PyStr.single] in *; rewrite Hc; [reflexivity|exact IH].
Qed.

(** The first part of the split of [key ++ t] at a character [key]
    does not hold. *)
Lemma first_part_stops : forall sep key t,
  without sep key = true ->
  hd EmptyString (PyStr.split sep (key ++ t)%string)
  = (key ++ hd EmptyString (PyStr.split sep t))%string.
Proof.
  intros sep key t. induction key as [|c key IH]; intros H; [reflexivity|].
  unfold without in *. cbn [AlphaText.all_chars] in H. apply andb_true_iff in H.
  destruct H as [Hc Hkey]. apply negb_true_iff in Hc.
  cbn [append PyStr.split]. rewrite Hc. specialize (IH Hkey).
  destruct (PyStr.split sep (key ++ t)%string) as [|part parts]; cbn [hd] in *.
  - destruct key; [|discriminate IH]. cbn [append] in IH. rewrite <- IH. reflexivity.
  - rewrite IH. reflexivity.
Qed.

Lemma first_part_of_end : forall t,
  ends_key t = true ->
  hd EmptyString (PyStr.split "?" (hd EmptyString (PyStr.split "/" t))) = EmptyString.
Proof.
  intros [|c t] H; [reflexivity|]. cbn [ends_key] in H. cbn [PyStr.split].
  destruct (Ascii.eqb_spec c "/") as [E|Hslash]; [reflexivity|].
  cbn [orb] in H. apply Ascii.eqb_eq in H. subst c.
  destruct (PyStr.split "/" t) as [|part parts]; reflexivity.
Qed.

Lemma append_nil_r : forall s : string, (s ++ EmptyString)%string = s.
Proof. induction s as [|c s IH]; simpl; [reflexivity|]. rewrite IH. reflexivity. Qed.

(** What [.split('/')[0].split('?')[0]] leaves of [key ++ t]. *)
Lemma key_of_part : forall key t,
  without "/" key = true -> without "?" key = true -> ends_key t = true ->
  hd EmptyString (PyStr.split "?" (hd EmptyString (PyStr.split "/" (key ++ t)%string))) = key.
Proof.
  intros key t Hslash Hquery Hend.
  rewrite (first_part_stops "/" key t Hslash).
  rewrite (first_part_stops "?" key _ Hquery).
  rewrite (first_part_of_end t Hend). apply append_nil_r.
Qed.

Definition sep : string := "/file/".

(** No occurrence of the separator starts on a character of a text
    that has no [/file]. *)
Lemma no_early_separator : forall c pre rest,
  PyStr.contains "/file" (String c pre) = false ->
  String.prefix sep (String c (pre ++ sep ++ rest))%string = false.
Proof.
  intros c pre rest H. cbn [PyStr.contains] in H. apply orb_false_iff in H.
  destruct H as [H _]. unfold sep. cbn [String.prefix] in H |- *.
  destruct (ascii_dec "/" c); [|reflexivity].
  destruct pre as [|c1 pre]; [reflexivity|]. cbn [append String.prefix] in H |- *.
  destruct (ascii_dec "f" c1); [|reflexivity].
  destruct pre as [|c2 pre]; [reflexivity|]. cbn [append String.prefix] in H |- *.
  destruct (ascii_dec "i" c2); [|reflexivity].
  destruct pre as [|c3 pre]; [reflexivity|]. cbn [append String.prefix] in H |- *.
  destruct (ascii_dec "l" c3); [|reflexivity].
  destruct pre as [|c4 pre]; [reflexivity|]. cbn [append String.prefix] in H |- *.
  destruct (ascii_dec "e" c4); [|reflexivity].
  destruct pre; discriminate H.
Qed.

(** The split of a text at the first [/file/]. *)
Lemma split_at_the_file_separator : forall pre rest,
  PyStr.contains "/file" pre = false ->
  PyStr.split_str sep (pre ++ sep ++ rest)%string = pre :: PyStr.split_str sep rest.
Proof.
  intros pre rest. unfold PyStr.split_str.
  induction pre as [|c pre IH]; intros H.
  - destruct rest; reflexivity.
  - pose proof (no_early_separator c pre rest H) as Hhere.
    cbn [append PyStr.split_from] in Hhere |- *. rewrite Hhere.
    cbn [PyStr.contains] in H. apply orb_false_iff in H. destruct H as [_ H].
    rewrite (IH H). reflexivity.
Qed.

(** The first part of a split starts as the text does, when it is not
    empty. *)
Lemma first_part_after_key : forall key rest,
  without "/" key = true -> ends_key rest = true ->
  exists t parts,
    PyStr.split_str sep (key ++ rest)%string = (key ++ t)%string :: parts
    /\ ends_key t = true.
Proof.
  intros key rest Hkey Hrest. unfold PyStr.split_str.
  induction key as [|c key IH].
  - cbn [append]. destruct rest as [|c rest]; [exists EmptyString, []; split; reflexivity|].
    cbn [PyStr.split_from]. destruct (String.prefix sep (String c rest)).
    + eexists EmptyString, _. split; reflexivity.
    + destruct (PyStr.split_from sep 0 rest) as [|part parts].
      * eexists (PyStr.single c), _. split; [reflexivity|exact Hrest].
      * eexists (String c part), _. split; [reflexivity|exact Hrest].
  - unfold without in Hkey. cbn [AlphaText.all_chars] in Hkey. apply andb_true_iff in Hkey.
    destruct Hkey as [Hc Hkey]. destruct (IH Hkey) as [t [parts [E Ht]]].
    cbn [append PyStr.split_from]. unfold sep at 1. cbn [String.prefix].
    destruct (ascii_dec "/" c) as [Ec|_].
    + subst c. discriminate Hc.
    + rewrite E. exists t, parts. split; [reflexivity|exact Ht].
Qed.

(** A text without [/file/] is returned as it is. *)
Lemma unchanged_without_separator : forall s,
  PyStr.contains "/file/" s = false -> FigamToHtml.extract_file_key s = s.
Proof.
  intros s H. unfold FigamToHtml.extract_file_key.
  rewrite (split_without_separator _ _ H). destruct (PyStr.contains "figma.com" s); reflexivity.
Qed.

End FileKey.

(** A text that does not hold [figma.com], or does not hold [/file/],
    is returned as it is: a bare key is, and so is the URL of a file
    under another path than [/file/]. *)
Theorem other_text_is_taken_as_the_key :
  forall s : string,
    PyStr.contains "figma.com" s = false \/ PyStr.contains "/file/" s = false ->
    FigamToHtml.extract_file_key s = s.
Proof.
  intros s [H|H].
  - unfold FigamToHtml.extract_file_key. rewrite H. reflexivity.
  - apply FileKey.unchanged_without_separator. exact H.
Qed.

Lemma other_text_is_taken_as_the_key_witness :
  FigamToHtml.extract_file_key "https://www.figma.com/design/abc123xyz/MyDesign"
  = "https://www.figma.com/design/abc123xyz/MyDesign".
Proof.
  apply (other_text_is_taken_as_the_key "https://www.figma.com/design/abc123xyz/MyDesign").
  right. reflexivity.
Defined.

(** From a URL [<pre>/file/<key><rest>] the key is returned, when
    [pre] holds [figma.com] and no [/file], the key holds no slash and
    no question mark, and [rest] is empty or starts with one of them. *)
Theorem key_of_a_file_url :
  forall pre key rest : string,
    PyStr.contains "figma.com" pre = true ->
    PyStr.contains "/file" pre = false ->
    FileKey.without "/" key = true ->
    FileKey.without "?" key = true ->
    FileKey.ends_key rest = true ->
    FigamToHtml.extract_file_key (pre ++ "/file/" ++ key ++ rest)%string = key.
Proof.
  intros pre key rest Hsite Hpre Hslash Hquery Hrest.
  unfold FigamToHtml.extract_file_key.
  rewrite (FileKey.contains_app _ _ _ Hsite).
  change "/file/" with FileKey.sep.
  rewrite (FileKey.split_at_the_file_separator pre _ Hpre).
  destruct (FileKey.first_part_after_key key rest Hslash Hrest) as [t [parts [E Ht]]].
  rewrite E. cbv zeta. apply FileKey.key_of_part; assumption.
Qed.

Lemma key_of_a_file_url_witness :
  FigamToHtml.extract_file_key "https://www.figma.com/file/abc123xyz/MyDesign?node-id=0"
  = "abc123xyz".
Proof.
  apply (key_of_a_file_url "https://www.figma.com" "abc123xyz" "/MyDesign?node-id=0");
    reflexivity.
Defined.

(** Extracting twice is extracting once: what [extract_file_key]
    returns, it returns unchanged when given it again. *)
Theorem extracted_key_is_stable :
  forall s : string,
    FigamToHtml.extract_file_key (FigamToHtml.extract_file_key s)
    = FigamToHtml.extract_file_key s.
Proof.
  intros s.
  assert (Hsame : FigamToHtml.extract_file_key s = s
                  \/ FileKey.without "/" (FigamToHtml.extract_file_key s) = true).
  { unfold FigamToHtml.extract_file_key.
    destruct (PyStr.contains "figma.com" s); [|left; reflexivity].
    destruct (PyStr.split_str "/file/" s) as [|before [|after parts]];
      [left; reflexivity | left; reflexivity |].
    right. cbv zeta. apply FileKey.first_part_keeps. apply FileKey.first_part_without. }
  destruct Hsame as [Hsame|Hkey].
  - rewrite Hsame. exact Hsame.
  - apply FileKey.unchanged_without_separator. apply FileKey.without_prefix. exact Hkey.
Qed.
